(** * semantic_kernel_chatbot: the turn-scoped tool-invocation and
    attachment-aggregation core, embedded and verified.

    The development follows the layout of the Python package:

    - [data_models/attachments.py]      : the attachment value objects;
    - [data_models/conversation_data.py]: turns and the bounded history;
    - [utils.py]                        : the attachment harvester and the
                                          adaptive-card renderer;
    - [tools/__init__.py], [tools/math_tools.py] : tools;
    - [agents/abstract_agent.py]        : the tool registry of an agent;
    - [agents/chat_completion_agent.py] : the instrumented adapter
                                          ([new_plugin_func]) and [process].

    Python values are a tree type [pyvalue]; mutable objects that the code
    shares between closures (the dict held by [agent_invoke_context]) live in
    an explicit heap; exceptions are the [Raised] case of [outcome]. *)

From Stdlib Require Import ZArith Floats List String Lia Bool.
From stdpp Require Import gmap strings list.
Import ListNotations.

Local Open Scope string_scope.
Local Open Scope list_scope.
Local Set Warnings "-register-all".

(** ** Exceptions and fallible computations *)

Inductive exn : Type :=
| ValueError (msg : string)
| TypeError (msg : string)
| ZeroDivisionError (msg : string)
| OverflowError (msg : string)
| LookupError (var : string)       (* [ContextVar.get] on an unset variable *)
| RuntimeError (msg : string)      (* a ContextVar token reset in the wrong state *)
| ServiceError (msg : string).     (* any failure raised by the completion service *)

Inductive outcome (A : Type) : Type :=
| Returned (a : A)
| Raised (e : exn).
Arguments Returned {A} a.
Arguments Raised {A} e.

Definition is_Returned {A} (o : outcome A) : bool :=
  match o with Returned _ => true | Raised _ => false end.

(** ** data_models/attachments.py *)

Module Attachments.

Inductive ChartColor : Type :=
| GOOD | WARNING | ATTENTION | NEUTRAL
| CATEGORICAL_RED | CATEGORICAL_PURPLE | CATEGORICAL_LAVENDER
| CATEGORICAL_BLUE | CATEGORICAL_LIGHT_BLUE | CATEGORICAL_TEAL
| CATEGORICAL_GREEN | CATEGORICAL_LIME | CATEGORICAL_MARIGOLD
| SEQUENTIAL_1 | SEQUENTIAL_2 | SEQUENTIAL_3 | SEQUENTIAL_4
| SEQUENTIAL_5 | SEQUENTIAL_6 | SEQUENTIAL_7 | SEQUENTIAL_8
| DIVERGING_BLUE | DIVERGING_LIGHT_BLUE | DIVERGING_CYAN | DIVERGING_TEAL
| DIVERGING_YELLOW | DIVERGING_PEACH | DIVERGING_LIGHT_RED | DIVERGING_RED
| DIVERGING_MAROON | DIVERGING_GRAY.

(** [ChartColor.value] (also [__str__]). *)
Definition ChartColor_value (c : ChartColor) : string :=
  match c with
  | GOOD => "good" | WARNING => "warning" | ATTENTION => "attention"
  | NEUTRAL => "neutral"
  | CATEGORICAL_RED => "categoricalRed"
  | CATEGORICAL_PURPLE => "categoricalPurple"
  | CATEGORICAL_LAVENDER => "categoricalLavender"
  | CATEGORICAL_BLUE => "categoricalBlue"
  | CATEGORICAL_LIGHT_BLUE => "categoricalLightBlue"
  | CATEGORICAL_TEAL => "categoricalTeal"
  | CATEGORICAL_GREEN => "categoricalGreen"
  | CATEGORICAL_LIME => "categoricalLime"
  | CATEGORICAL_MARIGOLD => "categoricalMarigold"
  | SEQUENTIAL_1 => "sequential1" | SEQUENTIAL_2 => "sequential2"
  | SEQUENTIAL_3 => "sequential3" | SEQUENTIAL_4 => "sequential4"
  | SEQUENTIAL_5 => "sequential5" | SEQUENTIAL_6 => "sequential6"
  | SEQUENTIAL_7 => "sequential7" | SEQUENTIAL_8 => "sequential8"
  | DIVERGING_BLUE => "divergingBlue"
  | DIVERGING_LIGHT_BLUE => "divergingLightBlue"
  | DIVERGING_CYAN => "divergingCyan"
  | DIVERGING_TEAL => "divergingTeal"
  | DIVERGING_YELLOW => "divergingYellow"
  | DIVERGING_PEACH => "divergingPeach"
  | DIVERGING_LIGHT_RED => "divergingLightRed"
  | DIVERGING_RED => "divergingRed"
  | DIVERGING_MAROON => "divergingMaroon"
  | DIVERGING_GRAY => "divergingGray"
  end.

(** The annotation [str | float] of the x-axis fields. *)
Inductive str_or_float : Type :=
| XStr (s : string)
| XFloat (f : float).

Record VerticalBarChartDataValue : Type := {
  vbar_color : option ChartColor;
  vbar_x : str_or_float;
  vbar_y : float;
}.

Record LineChartDataValue : Type := {
  point_x : str_or_float;
  point_y : float;
}.

Record LineChartData : Type := {
  line_values : list LineChartDataValue;
  line_color : option ChartColor;
  line_legend : option string;
}.

Record PieChartData : Type := {
  pie_value : float;
  pie_color : option ChartColor;
  pie_legend : option string;
}.

(** Instances of [Chart]: the three subclasses the package defines, each
    with its [data], and [BaseChart] for an instance of [Chart] itself (the
    class is concrete) or of a subclass declared elsewhere. *)
Inductive Chart : Type :=
| BaseChart (id title : string)
| VerticalBarChart (id title : string) (data : list VerticalBarChartDataValue)
| LineChart (id title : string) (data : list LineChartData)
| PieChart (id title : string) (data : list PieChartData).

Definition chart_id (c : Chart) : string :=
  match c with
  | BaseChart i _ | VerticalBarChart i _ _ | LineChart i _ _ | PieChart i _ _ => i
  end.

Definition chart_title (c : Chart) : string :=
  match c with
  | BaseChart _ t | VerticalBarChart _ t _ | LineChart _ t _ | PieChart _ t _ => t
  end.

Definition isinstance_VerticalBarChart (c : Chart) : bool :=
  match c with VerticalBarChart _ _ _ => true | _ => false end.
Definition isinstance_LineChart (c : Chart) : bool :=
  match c with LineChart _ _ _ => true | _ => false end.
Definition isinstance_PieChart (c : Chart) : bool :=
  match c with PieChart _ _ _ => true | _ => false end.

End Attachments.
Export Attachments.

(** ** Python values

    What a tool may receive or return ([Any]).  Lists, tuples and sets carry
    their elements in iteration order, a dict its items in insertion order.
    [Citation], [Media] and [Chart] instances are values like any other; an
    instance of a class the package does not know is a [PyObject] with its
    attributes. *)

Inductive pyvalue : Type :=
| PyNone
| PyBool (b : bool)
| PyInt (z : Z)
| PyFloat (f : float)
| PyStr (s : string)
| PyList (items : list pyvalue)
| PyTuple (items : list pyvalue)
| PySet (items : list pyvalue)
| PyDict (items : list (pyvalue * pyvalue))
| Citation (title url content : string) (metadata : list (string * pyvalue))
| Media (content mime_type : string) (label : option string)
| PyChart (c : Chart)
| PyObject (cls : string) (attrs : list (string * pyvalue)).

(** A dict literal with string keys, [{"k": v, ...}]. *)
Definition pydict (items : list (string * pyvalue)) : pyvalue :=
  PyDict (map (fun kv => (PyStr (fst kv), snd kv)) items).

Definition isinstance_Citation (v : pyvalue) : bool :=
  match v with Citation _ _ _ _ => true | _ => false end.
Definition isinstance_Media (v : pyvalue) : bool :=
  match v with Media _ _ _ => true | _ => false end.
Definition isinstance_Chart (v : pyvalue) : bool :=
  match v with PyChart _ => true | _ => false end.

(** ** utils.py: the attachment harvester *)

Module Harvester.

(** The inner closure [_collect] of [extract_attachments]: it appends to
    the enclosing function's list [attachments], threaded here as state. *)
Fixpoint _collect (value : pyvalue) (attachments : list pyvalue) : list pyvalue :=
  if isinstance_Citation value || isinstance_Media value || isinstance_Chart value then
    attachments ++ [value]
  else
    match value with
    | PyList items | PyTuple items | PySet items =>
        (* for item in value: _collect(item) *)
        fold_left (fun acc item => _collect item acc) items attachments
    | PyDict items =>
        (* for item in value.values(): _collect(item) *)
        fold_left (fun acc kv => _collect (snd kv) acc) items attachments
    | _ => attachments
    end.

Definition extract_attachments (result : pyvalue) : list pyvalue :=
  _collect result [].

(** The traversal as the specification words it, and the number of
    attachment occurrences it speaks of. *)
Fixpoint harvest (value : pyvalue) : list pyvalue :=
  match value with
  | Citation _ _ _ _ | Media _ _ _ | PyChart _ => [value]
  | PyList items | PyTuple items | PySet items => flat_map harvest items
  | PyDict items => flat_map (fun kv => harvest (snd kv)) items
  | _ => []
  end.

Fixpoint occurrences (value : pyvalue) : nat :=
  match value with
  | Citation _ _ _ _ | Media _ _ _ | PyChart _ => 1
  | PyList items | PyTuple items | PySet items =>
      list_sum (map occurrences items)
  | PyDict items => list_sum (map (fun kv => occurrences (snd kv)) items)
  | _ => 0
  end.

Definition is_attachment (v : pyvalue) : Prop :=
  isinstance_Citation v || isinstance_Media v || isinstance_Chart v = true.

End Harvester.
Export Harvester.

(** ** Exceptions thread through sequential code *)

#[export] Instance outcome_ret : MRet outcome := fun A a => Returned a.
#[export] Instance outcome_bind : MBind outcome := fun A B k o =>
  match o with
  | Returned a => k a
  | Raised e => Raised e
  end.

(** ** data_models/conversation_data.py *)

(** A naive [datetime]: microseconds on the calendar time line (the
    resolution of the Python type). *)
Definition datetime : Type := Z.

(** One entry of the tool-usage log, the dict literal built by
    [new_plugin_func].  [start_time] is kept as the datetime itself; the
    source stores its [isoformat()] text. *)
Record ToolUsage : Type := {
  tool_name : string;
  args : list pyvalue;
  kwargs : list (string * pyvalue);
  result : pyvalue;
  start_time : datetime;
  duration : Z;
}.

Module ConversationTurn.
Record t : Type := {
  role : string;                                 (* "user", "assistant", "system" *)
  content : string;
  created_at : datetime;
  metadata : list (string * list ToolUsage);     (* {} or {"tool_usage": [...]} *)
  attachments : list pyvalue;
}.
End ConversationTurn.
Abbreviation ConversationTurn := ConversationTurn.t.

Module ConversationData.
Record t : Type := {
  thread_id : option string;
  history : list ConversationTurn;
  max_turns : Z;
}.

(** [ConversationData(history, max_turns)]; [max_turns] defaults to 10. *)
Definition init (history : list ConversationTurn) (max_turns : Z) : t :=
  {| thread_id := None; history := history; max_turns := max_turns |}.

(** [history.pop(0)]; the list is never empty where [add_turn] pops. *)
Definition pop0 {A} (l : list A) : list A := tail l.

Definition add_turn (self : t) (turn : ConversationTurn) : t :=
  let history := history self ++ [turn] in
  let history :=
    if (Z.of_nat (length history) >=? max_turns self)%Z
    then pop0 history
    else history in
  {| thread_id := thread_id self; history := history; max_turns := max_turns self |}.

Definition toMessages (self : t) : list (list (string * string)) :=
  map (fun turn => [("role", ConversationTurn.role turn);
                    ("content", ConversationTurn.content turn)])
      (history self).
End ConversationData.
Abbreviation ConversationData := ConversationData.t.

(** ** utils.py: the adaptive-card renderer *)

(** botbuilder's [Attachment] and [Activity], as far as the renderer fills
    them in. *)
Record CardAttachment : Type := {
  content_type : string;
  card_content : pyvalue;
}.

Record Activity : Type := {
  activity_type : string;
  activity_text : string;
  activity_attachments : option (list CardAttachment);
}.

Module CardFactory.
Definition adaptive_card (card : pyvalue) : CardAttachment :=
  {| content_type := "application/vnd.microsoft.card.adaptive";
     card_content := card |}.
End CardFactory.

Module Renderer.
Section Renderer.

(** [json.dumps] of the standard library: a text, or [TypeError] on a value
    that has no JSON form. *)
Variable json_dumps : pyvalue -> outcome string.

(** Truthiness of a container or string, as [if x] tests it. *)
Definition truthy {A} (l : list A) : bool :=
  match l with [] => false | _ :: _ => true end.

Definition get_citations_element (citation : pyvalue) : outcome pyvalue :=
  match citation with
  | Citation title url _ metadata =>
      codeSnippet ← (if truthy metadata then json_dumps (pydict metadata)
                     else Returned "");
      Returned (pydict [
        ("type", PyStr "Container");
        ("items", PyList [
           pydict [("type", PyStr "TextBlock");
                   ("text", PyStr ("[" ++ title ++ "](" ++ url ++ ")"));
                   ("wrap", PyBool true);
                   ("size", PyStr "Medium")];
           pydict [("type", PyStr "CodeBlock");
                   ("codeSnippet", PyStr codeSnippet);
                   ("language", PyStr "Json")]])])
  | _ => Raised (TypeError "not a Citation")
  end.

Definition get_media_element (media : pyvalue) : outcome pyvalue :=
  match media with
  | Media content mime_type label =>
      Returned (pydict [
        ("type", PyStr "Media");
        ("sources", PyList [
           pydict [("mimeType", PyStr mime_type);
                   ("url", PyStr content);
                   (* media.label or "Media Attachment" *)
                   ("label", PyStr (match label with
                                    | Some (String a s) => String a s
                                    | _ => "Media Attachment"
                                    end))]])])
  | _ => Raised (TypeError "not a Media")
  end.

(** [model_dump(mode="json")] of the chart data models: fields in
    declaration order, an enum by its value, [None] for an absent option. *)
Definition dump_color (c : option ChartColor) : pyvalue :=
  match c with Some c => PyStr (ChartColor_value c) | None => PyNone end.
Definition dump_str (s : option string) : pyvalue :=
  match s with Some s => PyStr s | None => PyNone end.
Definition dump_x (x : str_or_float) : pyvalue :=
  match x with XStr s => PyStr s | XFloat f => PyFloat f end.

Definition VerticalBarChartDataValue_model_dump (d : VerticalBarChartDataValue) : pyvalue :=
  pydict [("color", dump_color (vbar_color d)); ("x", dump_x (vbar_x d));
          ("y", PyFloat (vbar_y d))].
Definition LineChartDataValue_model_dump (d : LineChartDataValue) : pyvalue :=
  pydict [("x", dump_x (point_x d)); ("y", PyFloat (point_y d))].
Definition LineChartData_model_dump (d : LineChartData) : pyvalue :=
  pydict [("values", PyList (map LineChartDataValue_model_dump (line_values d)));
          ("color", dump_color (line_color d));
          ("legend", dump_str (line_legend d))].
Definition PieChartData_model_dump (d : PieChartData) : pyvalue :=
  pydict [("value", PyFloat (pie_value d)); ("color", dump_color (pie_color d));
          ("legend", dump_str (pie_legend d))].

(** [[data.model_dump(mode="json") for data in chart.data] if chart.data else []].
    A [BaseChart] never gets here: [get_chart_card] has raised before. *)
Definition chart_data_dump (chart : Chart) : list pyvalue :=
  match chart with
  | BaseChart _ _ => []
  | VerticalBarChart _ _ data =>
      if truthy data then map VerticalBarChartDataValue_model_dump data else []
  | LineChart _ _ data =>
      if truthy data then map LineChartData_model_dump data else []
  | PieChart _ _ data =>
      if truthy data then map PieChartData_model_dump data else []
  end.

Definition get_chart_card (chart : Chart) : outcome pyvalue :=
  let type := "" in
  let type :=
    if isinstance_VerticalBarChart chart then "Chart.VerticalBar"
    else if isinstance_LineChart chart then "Chart.Line"
    else if isinstance_PieChart chart then "Chart.Pie"
    else type in
  if negb (String.eqb type "") then
    Returned (pydict [
      ("id", PyStr (chart_id chart));
      ("type", PyStr type);
      ("title", PyStr (chart_title chart));
      ("data", PyList (chart_data_dump chart))])
  else
    Raised (ValueError "Unsupported chart type").

Definition get_expandable_block (id title : string) (elements : list pyvalue) : pyvalue :=
  pydict [
    ("type", PyStr "Container");
    ("items", PyList [
       pydict [
         ("type", PyStr "ColumnSet");
         ("columns", PyList [
            pydict [
              ("type", PyStr "Column");
              ("items", PyList [
                 pydict [("type", PyStr "TextBlock"); ("text", PyStr title);
                         ("wrap", PyBool true); ("size", PyStr "Medium")]]);
              ("width", PyStr "stretch")];
            pydict [
              ("type", PyStr "Column");
              ("id", PyStr ("chevronDown" ++ id));
              ("spacing", PyStr "Small");
              ("verticalContentAlignment", PyStr "Center");
              ("items", PyList [
                 pydict [("type", PyStr "Image");
                         ("url", PyStr "https://adaptivecards.io/content/down.png");
                         ("width", PyStr "20px");
                         ("altText", PyStr "collapsed")]]);
              ("width", PyStr "auto");
              ("isVisible", PyBool false)];
            pydict [
              ("type", PyStr "Column");
              ("id", PyStr ("chevronUp" ++ id));
              ("spacing", PyStr "Small");
              ("verticalContentAlignment", PyStr "Center");
              ("items", PyList [
                 pydict [("type", PyStr "Image");
                         ("url", PyStr "https://adaptivecards.io/content/up.png");
                         ("width", PyStr "20px");
                         ("altText", PyStr "expanded")]]);
              ("width", PyStr "auto")]]);
         ("selectAction", pydict [
            ("type", PyStr "Action.ToggleVisibility");
            ("targetElements", PyList [
               PyStr ("cardContent" ++ id);
               PyStr ("chevronUp" ++ id);
               PyStr ("chevronDown" ++ id)])])];
       pydict [
         ("type", PyStr "Container");
         ("id", PyStr ("cardContent" ++ id));
         ("items", PyList [
            pydict [
              ("type", PyStr "Container");
              ("fallback", pydict [
                 ("type", PyStr "TextBlock");
                 ("text", PyStr "The elements for this block aren't supported.");
                 ("wrap", PyBool true)]);
              ("items", PyList elements)]]);
         ("isVisible", PyBool false)]]);
    ("separator", PyBool true);
    ("spacing", PyStr "Small")].

(** The loop of [get_activity_card] over [turn.attachments], with the three
    lists it appends to. *)
Fixpoint collect_elements (attachments citations media charts : list pyvalue)
  : outcome (list pyvalue * list pyvalue * list pyvalue) :=
  match attachments with
  | [] => Returned (citations, media, charts)
  | attachment :: rest =>
      if isinstance_Citation attachment then
        element ← get_citations_element attachment;
        collect_elements rest (citations ++ [element]) media charts
      else if isinstance_Media attachment then
        element ← get_media_element attachment;
        collect_elements rest citations (media ++ [element]) charts
      else
        match attachment with
        | PyChart chart =>
            element ← get_chart_card chart;
            collect_elements rest citations media (charts ++ [element])
        | _ => collect_elements rest citations media charts
        end
  end.

Definition adaptive_card_of (attachments_body : list pyvalue) : pyvalue :=
  pydict [
    ("type", PyStr "AdaptiveCard");
    ("body", PyList attachments_body);
    ("$schema", PyStr "http://adaptivecards.io/schemas/adaptive-card.json");
    ("fallbackText",
      PyStr "This card requires Adaptive Cards v1.2 support to be rendered properly.")].

Definition get_activity_card (turn : ConversationTurn) : outcome Activity :=
  '(citations, media, charts) ←
     collect_elements (ConversationTurn.attachments turn) [] [] [];
  let attachments_body := [] in
  let attachments_body :=
    if truthy citations
    then attachments_body ++ [get_expandable_block "Citations" "Citations" citations]
    else attachments_body in
  let attachments_body :=
    if truthy media
    then attachments_body ++ [get_expandable_block "Media" "Media Attachments" media]
    else attachments_body in
  let attachments_body :=
    if truthy charts
    then attachments_body ++ [get_expandable_block "Charts" "Charts" charts]
    else attachments_body in
  let attachments_card := adaptive_card_of attachments_body in
  Returned {|
    activity_type := "message";
    activity_text := ConversationTurn.content turn;
    activity_attachments :=
      if truthy citations || truthy media || truthy charts
      then Some [CardFactory.adaptive_card attachments_card]
      else None |}.

End Renderer.
End Renderer.
Export Renderer.

(** ** tools/__init__.py and tools/math_tools.py *)

Module Tool.

(** A tool's callable takes positional and keyword arguments; it is a plain
    function or a coroutine function, which the adapter awaits. *)
Inductive Callable : Type :=
| Function (f : list pyvalue -> list (string * pyvalue) -> outcome pyvalue)
| CoroutineFunction (f : list pyvalue -> list (string * pyvalue) -> outcome pyvalue).

Definition iscoroutinefunction (c : Callable) : bool :=
  match c with Function _ => false | CoroutineFunction _ => true end.

(** The value of [c] applied to the arguments, awaited when [c] is a coroutine
    function. *)
Definition call (c : Callable) (args : list pyvalue) (kwargs : list (string * pyvalue))
  : outcome pyvalue :=
  match c with Function f | CoroutineFunction f => f args kwargs end.

(** [AbstractTool(name, description, function)]. *)
Record t : Type := {
  name : string;
  description : string;
  function : Callable;
}.

End Tool.
Abbreviation Tool := Tool.t.

(** Python dicts keyed by strings, in insertion order. *)
Module Dict.
Section Dict.
Context {V : Type}.

Fixpoint get (k : string) (d : list (string * V)) : option V :=
  match d with
  | [] => None
  | (k', v) :: d => if String.eqb k k' then Some v else get k d
  end.

(** [k in d] *)
Definition contains (k : string) (d : list (string * V)) : bool :=
  match get k d with Some _ => true | None => false end.

(** [d[k] = v]: a present key keeps its place, a new one goes last. *)
Fixpoint set (k : string) (v : V) (d : list (string * V)) : list (string * V) :=
  match d with
  | [] => [(k, v)]
  | (k', v') :: d => if String.eqb k k' then (k, v) :: d else (k', v') :: set k v d
  end.

(** [d.values()] *)
Definition values (d : list (string * V)) : list V := map snd d.

End Dict.
End Dict.

Module MathTools.

(** How Python binds a call's arguments to the parameters [params] of a
    function without defaults: positional arguments first, the rest by
    keyword; [TypeError] on too many, unknown, repeated or missing ones. *)
Definition bind_parameters (params : list string)
    (args : list pyvalue) (kwargs : list (string * pyvalue))
  : outcome (list pyvalue) :=
  if (length params <? length args)%nat then
    Raised (TypeError "too many positional arguments")
  else
    let by_keyword := skipn (length args) params in
    if existsb (fun kv => negb (existsb (String.eqb (fst kv)) by_keyword)) kwargs then
      Raised (TypeError "unexpected keyword argument")
    else
      match mapM (fun p => Dict.get p kwargs) by_keyword with
      | Some vs => Returned (args ++ vs)
      | None => Raised (TypeError "missing required argument")
      end.

(** [float(z)]: round to nearest even; [OverflowError] when out of
    range. *)
Definition float_of_int (z : Z) : outcome float :=
  let f := SF2Prim (binary_normalize prec emax z 0 false) in
  if PrimFloat.is_infinity f
  then Raised (OverflowError "int too large to convert to float")
  else Returned f.

Definition int_of (v : pyvalue) : option Z :=
  match v with
  | PyInt z => Some z
  | PyBool b => Some (if b then 1 else 0)%Z
  | _ => None
  end.

(** [x + y] on the built-in types. *)
Definition py_add (x y : pyvalue) : outcome pyvalue :=
  match int_of x, int_of y with
  | Some a, Some b => Returned (PyInt (a + b))
  | Some a, None =>
      match y with
      | PyFloat g => f ← float_of_int a; Returned (PyFloat (f + g)%float)
      | _ => Raised (TypeError "unsupported operand type(s) for +")
      end
  | None, Some b =>
      match x with
      | PyFloat f => g ← float_of_int b; Returned (PyFloat (f + g)%float)
      | _ => Raised (TypeError "unsupported operand type(s) for +")
      end
  | None, None =>
      match x, y with
      | PyFloat f, PyFloat g => Returned (PyFloat (f + g)%float)
      | PyStr s, PyStr s' => Returned (PyStr (s ++ s'))
      | PyList l, PyList l' => Returned (PyList (l ++ l'))
      | PyTuple l, PyTuple l' => Returned (PyTuple (l ++ l'))
      | _, _ => Raised (TypeError "unsupported operand type(s) for +")
      end
  end.

(** [AddTool()]: [function = staticmethod(lambda x, y: x + y)], called as
    the lambda. *)
Definition AddTool : Tool :=
  {| Tool.name := "Add";
     Tool.description := "Add two numbers, such as 6+3";
     Tool.function := Tool.Function (fun args kwargs =>
       bound ← bind_parameters ["x"; "y"] args kwargs;
       match bound with
       | [x; y] => py_add x y
       | _ => Raised (TypeError "lambda takes 2 arguments")
       end) |}.

End MathTools.

(** ** agents/abstract_agent.py *)

Module AbstractAgent.

Record t : Type := {
  _id : string;
  _name : string;
  _description : string;
  _prompt : string;
  _tools : list (string * Tool);
  _settings : list (string * pyvalue);
}.

Definition set_tools (self : t) (tools : list (string * Tool)) : t :=
  {| _id := _id self; _name := _name self; _description := _description self;
     _prompt := _prompt self; _tools := tools; _settings := _settings self |}.

(** [add_tool] mutates [self._tools] or raises: the agent afterwards, and
    what the call returned. *)
Definition add_tool (self : t) (tool : Tool) : t * outcome unit :=
  if negb (Dict.contains (Tool.name tool) (_tools self)) then
    (set_tools self (Dict.set (Tool.name tool) tool (_tools self)), Returned tt)
  else
    (self, Raised (ValueError ("Tool '" ++ Tool.name tool
                               ++ "' already exists in agent '" ++ _name self ++ "'"))).

End AbstractAgent.
Abbreviation AbstractAgent := AbstractAgent.t.

(** ** agents/chat_completion_agent.py *)

(** *** The runtime the agent code runs in *)

Abbreviation task_id := nat.   (* an asyncio task, each with its own Context *)
Abbreviation loc := nat.       (* the identity of a dict object *)

(** [timedelta], normalised as Python keeps it. *)
Record timedelta : Type := {
  days : Z;
  seconds : Z;
  microseconds : Z;
}.

(** [end - start] on datetimes. *)
Definition datetime_sub (t_end t_start : datetime) : timedelta :=
  let us := (t_end - t_start)%Z in
  {| days := us / 86400000000;
     seconds := (us / 1000000) mod 86400;
     microseconds := us mod 1000000 |}.

(** [timedelta.total_seconds()], in microseconds. *)
Definition total_microseconds (d : timedelta) : Z :=
  (days d * 86400000000 + seconds d * 1000000 + microseconds d)%Z.

(** The dict [{"tool_usage": [...], "attachments": [...]}] that [process]
    puts in [agent_invoke_context]. *)
Record InvokeContext : Type := {
  tool_usage : list ToolUsage;
  attachments : list pyvalue;
}.

(** The state the code runs against: the dict objects created so far, by
    identity; the value [agent_invoke_context] has in each task's context
    (absent: unset); the wall clock as the sequence of readings
    [datetime.now()] will return, and how many were taken. *)
Record Runtime : Type := {
  heap : list InvokeContext;
  agent_invoke_context : gmap task_id loc;
  clock : nat -> datetime;
  ticks : nat;
}.

Definition set_heap (h : list InvokeContext) (rt : Runtime) : Runtime :=
  {| heap := h; agent_invoke_context := agent_invoke_context rt;
     clock := clock rt; ticks := ticks rt |}.
Definition set_agent_invoke_context (b : gmap task_id loc) (rt : Runtime) : Runtime :=
  {| heap := heap rt; agent_invoke_context := b;
     clock := clock rt; ticks := ticks rt |}.
Definition set_ticks (n : nat) (rt : Runtime) : Runtime :=
  {| heap := heap rt; agent_invoke_context := agent_invoke_context rt;
     clock := clock rt; ticks := n |}.

(** Code that reads and writes the runtime and may raise; after an
    exception the runtime is as the raising statement left it. *)
Definition Run (A : Type) : Type := Runtime -> outcome A * Runtime.

Definition ret {A} (a : A) : Run A := fun rt => (Returned a, rt).
Definition raise {A} (e : exn) : Run A := fun rt => (Raised e, rt).
Definition bind {A B} (m : Run A) (k : A -> Run B) : Run B := fun rt =>
  match m rt with
  | (Returned a, rt') => k a rt'
  | (Raised e, rt') => (Raised e, rt')
  end.
Definition lift {A} (o : outcome A) : Run A := fun rt => (o, rt).

Notation "x <~ m ;; k" := (bind m (fun x => k))
  (at level 100, m at next level, k at level 200, right associativity,
   format "'[v' x  <~  m  ;;  '/' k ']'").

Definition datetime_now : Run datetime := fun rt =>
  (Returned (clock rt (ticks rt)), set_ticks (S (ticks rt)) rt).

(** A dict literal: a new object. *)
Definition new_dict (d : InvokeContext) : Run loc := fun rt =>
  (Returned (length (heap rt)), set_heap (heap rt ++ [d]) rt).

(** Reading the object behind a reference. *)
Definition deref (ctx : loc) : Run InvokeContext := fun rt =>
  (Returned (default {| tool_usage := []; attachments := [] |} (heap rt !! ctx)), rt).

(** [ctx["tool_usage"].append(record)] *)
Definition tool_usage_append (ctx : loc) (record : ToolUsage) : Run unit := fun rt =>
  (Returned tt,
   set_heap (alter (fun d => {| tool_usage := tool_usage d ++ [record];
                                attachments := attachments d |}) ctx (heap rt)) rt).

(** [ctx["attachments"].extend(found)] *)
Definition attachments_extend (ctx : loc) (found : list pyvalue) : Run unit := fun rt =>
  (Returned tt,
   set_heap (alter (fun d => {| tool_usage := tool_usage d;
                                attachments := attachments d ++ found |}) ctx (heap rt)) rt).

(** [contextvars.ContextVar], for the variable [agent_invoke_context], as
    seen from the task [task].  A token remembers the previous binding. *)
Module ContextVar.

Definition get (task : task_id) : Run loc := fun rt =>
  match agent_invoke_context rt !! task with
  | Some ctx => (Returned ctx, rt)
  | None => (Raised (LookupError "agent_invoke_context"), rt)
  end.

Definition set (task : task_id) (ctx : loc) : Run (option loc) := fun rt =>
  (Returned (agent_invoke_context rt !! task),
   set_agent_invoke_context (<[task := ctx]> (agent_invoke_context rt)) rt).

Definition reset (task : task_id) (token : option loc) : Run unit := fun rt =>
  (Returned tt,
   set_agent_invoke_context
     (match token with
      | Some old => <[task := old]> (agent_invoke_context rt)
      | None => delete task (agent_invoke_context rt)
      end) rt).

End ContextVar.

(** *** The completion service

    semantic-kernel's [ChatCompletionAgent] is outside the package.  What
    [process] relies on: given the chat history it ends in a reply or a
    failure, after invoking any number of plugin functions by name, each
    time going on from what the invocation returned or raised. *)

Inductive AuthorRole : Type := USER | ASSISTANT | SYSTEM | TOOL.

Definition ChatHistory : Type := list (AuthorRole * string).

Definition add_user_message (h : ChatHistory) (content : string) : ChatHistory :=
  h ++ [(USER, content)].
Definition add_assistant_message (h : ChatHistory) (content : string) : ChatHistory :=
  h ++ [(ASSISTANT, content)].

Inductive Completion : Type :=
| Reply (content : string)
| Fail (e : exn)
| Invoke (function_name : string)
         (args : list pyvalue) (kwargs : list (string * pyvalue))
         (k : outcome pyvalue -> Completion).

(** *** AbstractChatCompletionAgent *)

Module ChatCompletionAgent.

Record t : Type := {
  base : AbstractAgent;
  (* the functions of the kernel's plugin "plugin": name and wrapped tool *)
  _kernel : list (string * Tool);
  (* the ChatCompletionAgent *)
  _agent : ChatHistory -> Completion;
}.

(** [_add_plugin]: one kernel function per tool, named after the tool. *)
Definition _add_plugin (tools : list (string * Tool)) : list (string * Tool) :=
  map (fun tool => (Tool.name tool, tool)) (Dict.values tools).

(** [__init__]; [service] is the behaviour of the completion service the
    constructor connects to. *)
Definition init (agent_id name description prompt : string)
    (tools : list (string * Tool)) (settings : list (string * pyvalue))
    (service : ChatHistory -> Completion) : t :=
  {| base := {| AbstractAgent._id := agent_id;
                AbstractAgent._name := name;
                AbstractAgent._description := description;
                AbstractAgent._prompt := prompt;
                AbstractAgent._tools := tools;
                AbstractAgent._settings := settings |};
     _kernel := if Renderer.truthy tools then _add_plugin tools else [];
     _agent := service |}.

(** A [KernelPlugin] keeps one function per name, the last one added. *)
Definition plugin_get (function_name : string) (functions : list (string * Tool))
  : option Tool :=
  Dict.get function_name (rev functions).

(** The closure [_build_func(tool)] returns, run in the task [task]. *)
Definition new_plugin_func (tool : Tool) (task : task_id)
    (args : list pyvalue) (kwargs : list (string * pyvalue)) : Run pyvalue :=
  start_time <~ datetime_now ;;
  resp <~ lift (Tool.call (Tool.function tool) args kwargs) ;;
  end_time <~ datetime_now ;;
  let elapsed_time := datetime_sub end_time start_time in
  ctx <~ ContextVar.get task ;;
  _ <~ tool_usage_append ctx
         {| tool_name := Tool.name tool;
            args := args;
            kwargs := kwargs;
            result := resp;
            start_time := start_time;
            duration := microseconds elapsed_time |} ;;
  let found := extract_attachments resp in
  _ <~ (if Renderer.truthy found then
          ctx <~ ContextVar.get task ;;
          attachments_extend ctx found
        else ret tt) ;;
  ret resp.

(** [self._agent.get_response(history=history)]: the service's run, every
    function it invokes going through [new_plugin_func]. *)
Fixpoint complete (functions : list (string * Tool)) (task : task_id)
    (c : Completion) : Run string :=
  match c with
  | Reply content => ret content
  | Fail e => raise e
  | Invoke function_name args kwargs k => fun rt =>
      match plugin_get function_name functions with
      | Some tool =>
          let (o, rt') := new_plugin_func tool task args kwargs rt in
          complete functions task (k o) rt'
      | None =>
          complete functions task (k (Raised (ServiceError "function not found"))) rt
      end
  end.

Definition get_response (self : t) (task : task_id) (history : ChatHistory)
  : Run string :=
  complete (_kernel self) task (_agent self history).

(** The loop of [process] that fills the [ChatHistory]. *)
Definition chat_history (turns : list ConversationTurn) : ChatHistory :=
  fold_left (fun history message =>
               if String.eqb (ConversationTurn.role message) "user"
               then add_user_message history (ConversationTurn.content message)
               else add_assistant_message history (ConversationTurn.content message))
            turns [].

Definition process (self : t) (task : task_id) (conversation_data : ConversationData)
  : Run ConversationTurn :=
  ctx0 <~ new_dict {| tool_usage := []; attachments := [] |} ;;
  token <~ ContextVar.set task ctx0 ;;
  let history := chat_history (ConversationData.history conversation_data) in
  response <~ get_response self task history ;;
  ctx <~ ContextVar.get task ;;
  _ <~ ContextVar.reset task token ;;
  now <~ datetime_now ;;
  d <~ deref ctx ;;
  ret {| ConversationTurn.role := "assistant";
         ConversationTurn.content := response;
         ConversationTurn.created_at := now;
         ConversationTurn.metadata := [("tool_usage", tool_usage d)];
         ConversationTurn.attachments := attachments d |}.

End ChatCompletionAgent.

(** ** Several [process] calls in flight

    The event loop runs each [process] call in a task of its own and
    switches between tasks where a coroutine awaits: [process] awaits the
    completion service, the service awaits each function it invokes, and
    [new_plugin_func] awaits the tool when it is a coroutine function.
    Between two such points a task runs alone. *)

Module Scheduler.

Import ChatCompletionAgent.

(** [process] up to its [await]. *)
Definition process_enter (task : task_id) : Run (option loc) :=
  ctx0 <~ new_dict {| tool_usage := []; attachments := [] |} ;;
  ContextVar.set task ctx0.

(** [process] from the service's reply on. *)
Definition process_finish (task : task_id) (token : option loc) (response : string)
  : Run ConversationTurn :=
  ctx <~ ContextVar.get task ;;
  _ <~ ContextVar.reset task token ;;
  now <~ datetime_now ;;
  d <~ deref ctx ;;
  ret {| ConversationTurn.role := "assistant";
         ConversationTurn.content := response;
         ConversationTurn.created_at := now;
         ConversationTurn.metadata := [("tool_usage", tool_usage d)];
         ConversationTurn.attachments := attachments d |}.

(** [new_plugin_func] from the completion of the awaited tool on. *)
Definition new_plugin_func_resume (tool : Tool) (task : task_id)
    (args : list pyvalue) (kwargs : list (string * pyvalue)) (start_time : datetime)
  : Run pyvalue :=
  resp <~ lift (Tool.call (Tool.function tool) args kwargs) ;;
  end_time <~ datetime_now ;;
  let elapsed_time := datetime_sub end_time start_time in
  ctx <~ ContextVar.get task ;;
  _ <~ tool_usage_append ctx
         {| tool_name := Tool.name tool;
            args := args;
            kwargs := kwargs;
            result := resp;
            start_time := start_time;
            duration := microseconds elapsed_time |} ;;
  let found := extract_attachments resp in
  _ <~ (if Renderer.truthy found then
          ctx <~ ContextVar.get task ;;
          attachments_extend ctx found
        else ret tt) ;;
  ret resp.

(** Where a [process] call stands. *)
Inductive TaskState : Type :=
| Created (self : ChatCompletionAgent.t) (conversation_data : ConversationData)
| InService (self : ChatCompletionAgent.t) (token : option loc) (c : Completion)
| InTool (self : ChatCompletionAgent.t) (token : option loc)
         (tool : Tool) (args : list pyvalue) (kwargs : list (string * pyvalue))
         (start_time : datetime) (k : outcome pyvalue -> Completion)
| Done (r : outcome ConversationTurn).

(** One uninterrupted stretch of the task [task]. *)
Definition step_task (task : task_id) (st : TaskState) (rt : Runtime)
  : TaskState * Runtime :=
  match st with
  | Created self conversation_data =>
      match process_enter task rt with
      | (Returned token, rt') =>
          (InService self token
             (_agent self (chat_history (ConversationData.history conversation_data))),
           rt')
      | (Raised e, rt') => (Done (Raised e), rt')
      end
  | InService self token (Reply content) =>
      let (r, rt') := process_finish task token content rt in (Done r, rt')
  | InService self token (Fail e) => (Done (Raised e), rt)
  | InService self token (Invoke function_name args kwargs k) =>
      match plugin_get function_name (_kernel self) with
      | Some tool =>
          if Tool.iscoroutinefunction (Tool.function tool) then
            match datetime_now rt with
            | (Returned start_time, rt') =>
                (InTool self token tool args kwargs start_time k, rt')
            | (Raised e, rt') => (InService self token (k (Raised e)), rt')
            end
          else
            let (o, rt') := new_plugin_func tool task args kwargs rt in
            (InService self token (k o), rt')
      | None =>
          (InService self token (k (Raised (ServiceError "function not found"))), rt)
      end
  | InTool self token tool args kwargs start_time k =>
      let (o, rt') := new_plugin_func_resume tool task args kwargs start_time rt in
      (InService self token (k o), rt')
  | Done r => (Done r, rt)
  end.

Record Machine : Type := {
  runtime : Runtime;
  tasks : gmap task_id TaskState;
}.

(** The event loop gives the task [task] its next stretch. *)
Definition step (m : Machine) (task : task_id) : Machine :=
  match tasks m !! task with
  | Some st =>
      let (st', rt') := step_task task st (runtime m) in
      {| runtime := rt'; tasks := <[task := st']> (tasks m) |}
  | None => m
  end.

Definition run (schedule : list task_id) (m : Machine) : Machine :=
  fold_left step schedule m.

(** A fresh interpreter: no dict yet, [agent_invoke_context] unset. *)
Definition boot (clock : nat -> datetime) : Runtime :=
  {| heap := []; agent_invoke_context := ∅; clock := clock; ticks := 0 |}.

(** One task per pending call. *)
Definition launch (clock : nat -> datetime)
    (calls : gmap task_id (ChatCompletionAgent.t * ConversationData)) : Machine :=
  {| runtime := boot clock;
     tasks := (fun call => Created (fst call) (snd call)) <$> calls |}.

(** What a turn says once the time stamps are left out. *)
Record Call : Type := {
  call_tool : string;
  call_args : list pyvalue;
  call_kwargs : list (string * pyvalue);
  call_result : pyvalue;
}.

Definition call_of (u : ToolUsage) : Call :=
  {| call_tool := tool_name u; call_args := args u; call_kwargs := kwargs u;
     call_result := result u |}.

Record Observation : Type := {
  seen_role : string;
  seen_content : string;
  seen_metadata : list (string * list Call);
  seen_attachments : list pyvalue;
}.

Definition observe_turn (turn : ConversationTurn) : Observation :=
  {| seen_role := ConversationTurn.role turn;
     seen_content := ConversationTurn.content turn;
     seen_metadata := map (fun kv => (fst kv, map call_of (snd kv)))
                          (ConversationTurn.metadata turn);
     seen_attachments := ConversationTurn.attachments turn |}.

Definition observe (r : outcome ConversationTurn) : outcome Observation :=
  match r with
  | Returned turn => Returned (observe_turn turn)
  | Raised e => Raised e
  end.

(** What a task can see of the runtime through [agent_invoke_context]:
    nothing when the variable is unset in its context, else the records and
    attachments of the dict bound there. *)
Definition view (task : task_id) (rt : Runtime)
  : option (option (list Call * list pyvalue)) :=
  (fun ctx => (fun d => (map call_of (tool_usage d), attachments d)) <$> heap rt !! ctx)
    <$> agent_invoke_context rt !! task.

(** The rest of a call, were its task to run alone from here on. *)
Definition finish_alone (task : task_id) (st : TaskState) : Run ConversationTurn :=
  match st with
  | Created self conversation_data => process self task conversation_data
  | InService self token c =>
      response <~ complete (_kernel self) task c ;;
      process_finish task token response
  | InTool self token tool args kwargs start_time k => fun rt =>
      let (o, rt') := new_plugin_func_resume tool task args kwargs start_time rt in
      (response <~ complete (_kernel self) task (k o) ;;
       process_finish task token response) rt'
  | Done r => lift r
  end.

(** How many stretches the service's run and the exit of [process] take. *)
Fixpoint stretches (functions : list (string * Tool)) (task : task_id)
    (c : Completion) (rt : Runtime) : nat :=
  match c with
  | Reply _ | Fail _ => 1
  | Invoke function_name args kwargs k =>
      match plugin_get function_name functions with
      | Some tool =>
          let (o, rt') := new_plugin_func tool task args kwargs rt in
          (if Tool.iscoroutinefunction (Tool.function tool) then 2 else 1)
          + stretches functions task (k o) rt'
      | None =>
          1 + stretches functions task (k (Raised (ServiceError "function not found"))) rt
      end
  end.

(** How many stretches a call still needs. *)
Definition stretches_left (task : task_id) (st : TaskState) (rt : Runtime) : nat :=
  match st with
  | Created self conversation_data =>
      1 + stretches (_kernel self) task
            (_agent self (chat_history (ConversationData.history conversation_data)))
            (snd (process_enter task rt))
  | InService self token c => stretches (_kernel self) task c rt
  | InTool self token tool args kwargs start_time k =>
      let (o, rt') := new_plugin_func_resume tool task args kwargs start_time rt in
      1 + stretches (_kernel self) task (k o) rt'
  | Done _ => 0
  end.

(** The token a suspended call holds. *)
Definition token_of (st : TaskState) : option loc :=
  match st with
  | InService _ token _ | InTool _ token _ _ _ _ _ => token
  | Created _ _ | Done _ => None
  end.

Definition is_Created (st : TaskState) : bool :=
  match st with Created _ _ => true | _ => false end.

(** What holds of the interpreter however the tasks were interleaved: a
    bound dict exists, no two tasks are bound to the same dict, a call that
    has not started has no binding, and every token is the unset one. *)
Record consistent (m : Machine) : Prop := {
  bound_allocated :
    forall t ctx, agent_invoke_context (runtime m) !! t = Some ctx ->
                  ctx < length (heap (runtime m));
  bound_apart :
    forall t t' ctx, agent_invoke_context (runtime m) !! t = Some ctx ->
                     agent_invoke_context (runtime m) !! t' = Some ctx -> t = t';
  created_unbound :
    forall t st, tasks m !! t = Some st -> is_Created st = true ->
                 agent_invoke_context (runtime m) !! t = None;
  tokens_unset :
    forall t st, tasks m !! t = Some st -> token_of st = None;
}.

End Scheduler.

(** ** agents/chat_completion_agents/math_chat_completion_agent.py

    The three tools of the sample agent that are plain functions. *)

Module MathAgent.

(** [research(query)]: the query is not looked at. *)
Definition research (query : pyvalue) : pyvalue :=
  let citations := PyList [
    Citation "Harry Potter" "https://harrypotter.fandom.com/wiki/Harry_Potter" ""
      [("birthday", PyStr "1980-07-31"); ("house", PyStr "Gryffindor");
       ("blood_status", PyStr "Half-blood")];
    Citation "Hermione Granger" "https://harrypotter.fandom.com/wiki/Hermione_Granger" ""
      [("birthday", PyStr "1979-09-19"); ("house", PyStr "Gryffindor");
       ("blood_status", PyStr "Muggle-born")];
    Citation "Ron Weasley" "https://harrypotter.fandom.com/wiki/Ron_Weasley" ""
      [("birthday", PyStr "1980-03-01"); ("house", PyStr "Gryffindor");
       ("blood_status", PyStr "Pure-blood")]] in
  PyTuple [PyStr "Blood and Gold finished today"; citations].

(** [get_image(topic)] *)
Definition get_image (topic : pyvalue) : pyvalue :=
  PyStr "https://eskipaper.com/images/harry-potter-3.jpg".

(** [get_video(topic)] *)
Definition get_video (topic : pyvalue) : pyvalue :=
  Media "https://www.youtube.com/watch?v=YsqcODOEO-M" "video/mp4"
        (Some "Harry Potter Trailer").

(** A Python function of one parameter, as a tool's callable. *)
Definition unary (param : string) (f : pyvalue -> pyvalue) : Tool.Callable :=
  Tool.Function (fun args kwargs =>
    bound ← MathTools.bind_parameters [param] args kwargs;
    match bound with
    | [x] => Returned (f x)
    | _ => Raised (TypeError "takes 1 argument")
    end).

Definition ResearchTool : Tool :=
  {| Tool.name := "Research";
     Tool.description := "Search the web for information to answer the question.";
     Tool.function := unary "query" research |}.

Definition GetImageTool : Tool :=
  {| Tool.name := "GetImage";
     Tool.description := "Get image related to the topic.";
     Tool.function := unary "topic" get_image |}.

Definition GetVideoTool : Tool :=
  {| Tool.name := "GetVideo";
     Tool.description := "Get video related to the topic.";
     Tool.function := unary "topic" get_video |}.

(** [VerticalBarChartTool()] of tools/chart_tools.py.  Its callable draws
    a fresh uuid for the chart's id and is a parameter here. *)
Definition VerticalBarChartTool (create_vertical_bar_chart : Tool.Callable) : Tool :=
  {| Tool.name := "VerticalBarChart";
     Tool.description :=
       "Generate a vertical bar chart. The chart would be included automatically in the response.";
     Tool.function := create_vertical_bar_chart |}.

(** The tool dict [MathSemanticKernelAgent.__init__] passes on, key by key.
    The tools that are not modelled here are parameters. *)
Definition tools (SubtractTool MultiplyTool DivideTool LineChartTool PieChartTool : Tool)
    (create_vertical_bar_chart : Tool.Callable) : list (string * Tool) :=
  [("Add", MathTools.AddTool);
   ("Subtract", SubtractTool);
   ("Multiply", MultiplyTool);
   ("Divide", DivideTool);
   ("Research", ResearchTool);
   ("GetImage", GetImageTool);
   ("GetVideo", GetVideoTool);
   ("CreateVerticalBarChart", VerticalBarChartTool create_vertical_bar_chart);
   ("CreateLineChart", LineChartTool);
   ("CreatePieChart", PieChartTool)].

(** What [AbstractAgent.__init__] stores for a [MathSemanticKernelAgent]. *)
Definition MathSemanticKernelAgent
    (SubtractTool MultiplyTool DivideTool LineChartTool PieChartTool : Tool)
    (create_vertical_bar_chart : Tool.Callable) : AbstractAgent :=
  {| AbstractAgent._id := "math_semantic_kernel_agent";
     AbstractAgent._name := "Math Semantic Kernel Agent";
     AbstractAgent._description :=
       "A Semantic Kernel Agent that can help you with math problems";
     AbstractAgent._prompt :=
       "You can solve math problems with the following tools: Add, Subtract, Multiply, Divide. "
       ++ "Please use a tool to solve math problems before you solve the math problem by yourself."
       ++ "Do not generate markdown with data:image/... URIs. Do not include image placeholders."
       ++ "If a chart or image is to be shown, describe it in text or reference a hosted URL only.";
     AbstractAgent._tools :=
       tools SubtractTool MultiplyTool DivideTool LineChartTool PieChartTool
             create_vertical_bar_chart;
     AbstractAgent._settings := [] |}.

End MathAgent.

(** ** agents/chat_completion_agent.py: what the class inherits *)

Module AbstractChatCompletionAgent.

(** [add_tool] is the one of [AbstractAgent]: it works on [self._tools] and
    on nothing else of the agent. *)
Definition add_tool (self : ChatCompletionAgent.t) (tool : Tool)
  : ChatCompletionAgent.t * outcome unit :=
  let (base, r) := AbstractAgent.add_tool (ChatCompletionAgent.base self) tool in
  ({| ChatCompletionAgent.base := base;
      ChatCompletionAgent._kernel := ChatCompletionAgent._kernel self;
      ChatCompletionAgent._agent := ChatCompletionAgent._agent self |}, r).

End AbstractChatCompletionAgent.

(** ** bots/semantic_kernel_bot.py *)

Module SemanticKernelBot.
Section Bot.

Variable json_dumps : pyvalue -> outcome string.

(** The conversation data the accessor hands out: what was stored for the
    conversation, or [ConversationData([])]. *)
Definition load (stored : option ConversationData) : ConversationData :=
  default (ConversationData.init [] 10) stored.

(** [on_message_activity], for an activity with the text [text] ([None]
    when the activity has none).  It works on the conversation data in place:
    the result is what the call returned or raised, the activity it sent when
    it got that far, and the conversation data and the runtime as it left
    them. *)
Definition on_message_activity (agent : ChatCompletionAgent.t) (task : task_id)
    (text : option string) (conversation_data : ConversationData) (rt : Runtime)
  : outcome Activity * ConversationData * Runtime :=
  match datetime_now rt with
  | (Raised e, rt) => (Raised e, conversation_data, rt)
  | (Returned now, rt) =>
      match text with
      | None =>
          (* ConversationTurn(content=None, ...) does not validate *)
          (Raised (ValueError "content: Input should be a valid string"),
           conversation_data, rt)
      | Some text =>
          let conversation_data :=
            ConversationData.add_turn conversation_data
              {| ConversationTurn.role := "user";
                 ConversationTurn.content := text;
                 ConversationTurn.created_at := now;
                 ConversationTurn.metadata := [];
                 ConversationTurn.attachments := [] |} in
          match ChatCompletionAgent.process agent task conversation_data rt with
          | (Raised e, rt) => (Raised e, conversation_data, rt)
          | (Returned response, rt) =>
              let conversation_data :=
                ConversationData.add_turn conversation_data response in
              match get_activity_card json_dumps response with
              | Returned card => (Returned card, conversation_data, rt)
              | Raised e => (Raised e, conversation_data, rt)
              end
          end
      end
  end.

End Bot.
End SemanticKernelBot.

(** ** trace/otel_configuration.py *)

Module OtelConfiguration.

(** The two class attributes. *)
Record t : Type := {
  _monitor_configured : bool;
  _logger_configured : bool;
}.

Definition initial : t :=
  {| _monitor_configured := false; _logger_configured := false |}.

(** What [configure] asks of the libraries, in order. *)
Inductive Effect : Type :=
| configure_azure_monitor
| setLevel_WARNING (logger : string)
| URLLib3Instrumentor_instrument
| dictConfig_LOGGING_CONFIG.

(** [configure()], given the value of the environment variable
    APPLICATIONINSIGHTS_CONNECTION_STRING ([None] when it is not set). *)
Definition configure (connection_string : option string) (cls : t) : list Effect * t :=
  let set_in_environment :=
    match connection_string with
    | Some (String _ _) => true
    | _ => false
    end in
  let '(monitor_effects, cls) :=
    if negb (_monitor_configured cls) && set_in_environment then
      ([configure_azure_monitor;
        setLevel_WARNING "azure.core.pipeline.policies.http_logging_policy";
        setLevel_WARNING "azure.identity";
        URLLib3Instrumentor_instrument],
       {| _monitor_configured := true; _logger_configured := _logger_configured cls |})
    else ([], cls) in
  let '(logger_effects, cls) :=
    if negb (_logger_configured cls) then
      ([dictConfig_LOGGING_CONFIG],
       {| _monitor_configured := _monitor_configured cls; _logger_configured := true |})
    else ([], cls) in
  (monitor_effects ++ logger_effects, cls).

(** Successive calls, each with the environment of its moment. *)
Fixpoint configure_all (environment : list (option string)) (cls : t) : list Effect * t :=
  match environment with
  | [] => ([], cls)
  | connection_string :: later =>
      let '(effects, cls) := configure connection_string cls in
      let '(effects', cls) := configure_all later cls in
      (effects ++ effects', cls)
  end.

End OtelConfiguration.

(** ** Specification-side vocabulary

    The words the requirements use, as definitions to compare the code
    against. *)

Module Spec.
Section Spec.

Variable json_dumps : pyvalue -> outcome string.

(** One of the three chart variants the renderer knows. *)
Definition known_variant (chart : Chart) : bool :=
  isinstance_VerticalBarChart chart || isinstance_LineChart chart
  || isinstance_PieChart chart.

(** The type discriminator of each known variant. *)
Definition discriminator (chart : Chart) : option string :=
  match chart with
  | BaseChart _ _ => None
  | VerticalBarChart _ _ _ => Some "Chart.VerticalBar"
  | LineChart _ _ _ => Some "Chart.Line"
  | PieChart _ _ _ => Some "Chart.Pie"
  end.

(** The data array of a chart, serialised to plain structures. *)
Definition serialized (chart : Chart) : list pyvalue :=
  match chart with
  | BaseChart _ _ => []
  | VerticalBarChart _ _ data => map VerticalBarChartDataValue_model_dump data
  | LineChart _ _ data => map LineChartData_model_dump data
  | PieChart _ _ data => map PieChartData_model_dump data
  end.

(** The presentation element of one attachment. *)
Definition element_of (a : pyvalue) : outcome pyvalue :=
  match a with
  | Citation _ _ _ _ => get_citations_element json_dumps a
  | Media _ _ _ => get_media_element a
  | PyChart chart => get_chart_card chart
  | _ => Raised (TypeError "not an attachment")
  end.

(** An attachment the renderer can present: a chart of a known variant, a
    citation whose metadata has a JSON form, any media. *)
Definition presentable (a : pyvalue) : bool :=
  match a with
  | Citation _ _ _ metadata =>
      if truthy metadata then is_Returned (json_dumps (pydict metadata)) else true
  | PyChart chart => known_variant chart
  | _ => true
  end.

(** A bucket: the attachments of one kind, in the order of the turn's
    attachment list, each as its presentation element. *)
Definition bucket (kind : pyvalue -> bool) (attachments : list pyvalue)
  : list (outcome pyvalue) :=
  map element_of (List.filter kind attachments).

(** One collapsible section for a bucket, none for an empty one. *)
Definition section_for (id title : string) (elements : list pyvalue) : list pyvalue :=
  match elements with
  | [] => []
  | _ :: _ => [get_expandable_block id title elements]
  end.

(** The document of a turn with the given buckets. *)
Definition document (text : string) (citations media charts : list pyvalue) : Activity :=
  {| activity_type := "message";
     activity_text := text;
     activity_attachments :=
       match citations ++ media ++ charts with
       | [] => None
       | _ :: _ =>
           Some [CardFactory.adaptive_card
                   (adaptive_card_of
                      (section_for "Citations" "Citations" citations
                       ++ section_for "Media" "Media Attachments" media
                       ++ section_for "Charts" "Charts" charts))]
       end |}.

(** *** The document as a reader sees it

    What follows is written from the requirements alone and calls none of
    the renderer's functions. *)

(** [v[key]] of a dict with string keys. *)
Definition field (key : string) (v : pyvalue) : option pyvalue :=
  match v with
  | PyDict items =>
      snd <$> List.find (fun kv => match fst kv with
                                   | PyStr k => String.eqb k key
                                   | _ => false
                                   end) items
  | _ => None
  end.

Definition str_field (key : string) (v : pyvalue) : option string :=
  match field key v with Some (PyStr s) => Some s | _ => None end.

Definition list_field (key : string) (v : pyvalue) : option (list pyvalue) :=
  match field key v with Some (PyList l) => Some l | _ => None end.

Definition bool_field (key : string) (v : pyvalue) : option bool :=
  match field key v with Some (PyBool b) => Some b | _ => None end.

(** The presentation element of one attachment: a citation becomes a
    title with its link and a block with the metadata serialised; a media
    becomes one media reference, with url, MIME type and label, the label a
    fixed placeholder when the media has none; a chart becomes a typed chart
    block, with id, the discriminator of its variant, title and data. *)
Definition element (a : pyvalue) : outcome pyvalue :=
  match a with
  | Citation title url _ metadata =>
      match (match metadata with
             | [] => Returned ""
             | _ :: _ => json_dumps (pydict metadata)
             end) with
      | Returned serialized_metadata =>
          Returned (pydict [
            ("type", PyStr "Container");
            ("items", PyList [
               pydict [("type", PyStr "TextBlock");
                       ("text", PyStr ("[" ++ title ++ "](" ++ url ++ ")"));
                       ("wrap", PyBool true);
                       ("size", PyStr "Medium")];
               pydict [("type", PyStr "CodeBlock");
                       ("codeSnippet", PyStr serialized_metadata);
                       ("language", PyStr "Json")]])])
      | Raised e => Raised e
      end
  | Media content mime_type label =>
      Returned (pydict [
        ("type", PyStr "Media");
        ("sources", PyList [
           pydict [("mimeType", PyStr mime_type);
                   ("url", PyStr content);
                   ("label", PyStr (match label with
                                    | None | Some EmptyString => "Media Attachment"
                                    | Some shown => shown
                                    end))]])])
  | PyChart chart =>
      match discriminator chart with
      | Some type =>
          Returned (pydict [("id", PyStr (chart_id chart));
                            ("type", PyStr type);
                            ("title", PyStr (chart_title chart));
                            ("data", PyList (serialized chart))])
      | None => Raised (ValueError "Unsupported chart type")
      end
  | _ => Raised (TypeError "not an attachment")
  end.

(** A collapsible section is a container of two items, a header and a
    content container.  The header shows the section's title in its first
    column and, when selected, toggles the visibility of the content container
    (it names that container's id among its targets); the content container is
    not visible at first, so the section starts collapsed, and holds the
    section's elements.  [read_section] gives the title and the elements of
    such a block, and nothing for any other value. *)
Definition read_section (block : pyvalue) : option (string * list pyvalue) :=
  match list_field "items" block with
  | Some [header; content] =>
      columns ← list_field "columns" header;
      first_column ← head columns;
      shown ← list_field "items" first_column;
      text_block ← head shown;
      title ← str_field "text" text_block;
      action ← field "selectAction" header;
      action_type ← str_field "type" action;
      targets ← list_field "targetElements" action;
      content_id ← str_field "id" content;
      visible ← bool_field "isVisible" content;
      held ← list_field "items" content;
      inner ← head held;
      elements ← list_field "items" inner;
      if String.eqb action_type "Action.ToggleVisibility"
         && existsb (fun target => match target with
                                   | PyStr id => String.eqb id content_id
                                   | _ => false
                                   end) targets
         && negb visible
      then Some (title, elements)
      else None
  | _ => None
  end.

(** The sections a document with the given buckets is to have: one for
    each bucket that is not empty, in the order citations, media, charts, each
    under its heading and with the bucket's elements. *)
Definition sections (citations media charts : list pyvalue)
  : list (string * list pyvalue) :=
  List.filter (fun heading_elements => truthy (snd heading_elements))
    [("Citations", citations); ("Media Attachments", media); ("Charts", charts)].

(** The blocks of a document's attachment container: the body of its one
    adaptive card; nothing when the document has no container. *)
Definition read_container (activity : Activity) : option (list pyvalue) :=
  match activity_attachments activity with
  | Some [attachment] =>
      if String.eqb (content_type attachment) "application/vnd.microsoft.card.adaptive"
      then
        match str_field "type" (card_content attachment) with
        | Some "AdaptiveCard" => list_field "body" (card_content attachment)
        | _ => None
        end
      else None
  | _ => None
  end.

End Spec.

(** The dict of an invocation context once a call was logged in it. *)
Definition logged (record : ToolUsage) (found : list pyvalue) (d : InvokeContext)
  : InvokeContext :=
  {| tool_usage := tool_usage d ++ [record]; attachments := attachments d ++ found |}.

(** The message the code makes of a turn: a user message for the role
    "user", an assistant message for any other role. *)
Definition message_of (turn : ConversationTurn) : AuthorRole * string :=
  (if String.eqb (ConversationTurn.role turn) "user" then USER else ASSISTANT,
   ConversationTurn.content turn).

End Spec.

(** ** Sample agents, for the scenarios *)

Module Examples.

Import ChatCompletionAgent.

(** A math agent whose service, whatever it is asked, invokes Add with
    x=2, y=3 once and replies "5". *)
Definition add_agent : ChatCompletionAgent.t :=
  init "math" "Math" "" "" [("Add", MathTools.AddTool)] []
    (fun _ => Invoke "Add" [] [("x", PyInt 2); ("y", PyInt 3)] (fun _ => Reply "5")).

(** A tool, a coroutine function, that returns a list with one citation
    on the topic it is given. *)
Definition CiteTool : Tool :=
  {| Tool.name := "Cite";
     Tool.description := "Find a source on a topic.";
     Tool.function := Tool.CoroutineFunction (fun args kwargs =>
       match args, kwargs with
       | [PyStr topic], [] =>
           Returned (PyList [Citation topic ("https://example.org/" ++ topic) "" []])
       | _, _ => Raised (TypeError "Cite takes one topic")
       end) |}.

(** A service that looks up a source on the last message of the history
    and replies with the topic, or passes on the tool's failure. *)
Definition cite_service (history : ChatHistory) : Completion :=
  let topic := snd (List.last history (USER, "")) in
  Invoke "Cite" [PyStr topic] []
    (fun o => match o with
              | Returned _ => Reply ("About " ++ topic)
              | Raised e => Fail e
              end).

Definition cite_agent : ChatCompletionAgent.t :=
  init "cite" "Cite" "" "" [("Cite", CiteTool)] [] cite_service.

(** A conversation whose only turn is the user saying [text]. *)
Definition asks (text : string) : ConversationData :=
  ConversationData.init
    [{| ConversationTurn.role := "user"; ConversationTurn.content := text;
        ConversationTurn.created_at := 0%Z; ConversationTurn.metadata := [];
        ConversationTurn.attachments := [] |}] 10.

End Examples.

(** ** Further vocabulary *)

(** What the renderer and the harvester take for an attachment. *)
Definition attachment_kind (a : pyvalue) : bool :=
  isinstance_Citation a || isinstance_Media a || isinstance_Chart a.

(** What a run of the completion service amounts to, read off the service
    alone: the invocations whose callable returned, in order, the attachments
    harvested from their results, and the reply or failure the run ends in. *)
Fixpoint service_trace (functions : list (string * Tool)) (c : Completion)
  : list Scheduler.Call * list pyvalue * outcome string :=
  match c with
  | Reply content => ([], [], Returned content)
  | Fail e => ([], [], Raised e)
  | Invoke function_name args kwargs k =>
      match ChatCompletionAgent.plugin_get function_name functions with
      | Some tool =>
          match Tool.call (Tool.function tool) args kwargs with
          | Returned resp =>
              let '(calls, found, r) := service_trace functions (k (Returned resp)) in
              ({| Scheduler.call_tool := Tool.name tool;
                  Scheduler.call_args := args;
                  Scheduler.call_kwargs := kwargs;
                  Scheduler.call_result := resp |} :: calls,
               extract_attachments resp ++ found, r)
          | Raised e => service_trace functions (k (Raised e))
          end
      | None =>
          service_trace functions (k (Raised (ServiceError "function not found")))
      end
  end.

(** The turn [process] is to return for a trace, time stamps apart. *)
Definition turn_of_trace (trace : list Scheduler.Call * list pyvalue * outcome string)
  : outcome Scheduler.Observation :=
  let '(calls, found, r) := trace in
  match r with
  | Returned content =>
      Returned {| Scheduler.seen_role := "assistant";
                  Scheduler.seen_content := content;
                  Scheduler.seen_metadata := [("tool_usage", calls)];
                  Scheduler.seen_attachments := found |}
  | Raised e => Raised e
  end.

(** How often an effect is asked for. *)
Definition asks_dictConfig (effect : OtelConfiguration.Effect) : bool :=
  match effect with OtelConfiguration.dictConfig_LOGGING_CONFIG => true | _ => false end.
Definition asks_azure_monitor (effect : OtelConfiguration.Effect) : bool :=
  match effect with OtelConfiguration.configure_azure_monitor => true | _ => false end.

(** The connection string is set, and not to the empty string. *)
Definition connection_set (connection_string : option string) : bool :=
  match connection_string with
  | Some (String _ _) => true
  | _ => false
  end.

(** The turn [on_message_activity] makes of the user's text. *)
Definition user_turn (text : string) (now : datetime) : ConversationTurn :=
  {| ConversationTurn.role := "user";
     ConversationTurn.content := text;
     ConversationTurn.created_at := now;
     ConversationTurn.metadata := [];
     ConversationTurn.attachments := [] |}.
(** * Verification *)

(** Induction on values with the hypothesis available for every element of
    a list, tuple or set and for every value of a dict. *)
Lemma pyvalue_nested_ind (P : pyvalue -> Prop) :
  P PyNone ->
  (forall b, P (PyBool b)) ->
  (forall z, P (PyInt z)) ->
  (forall f, P (PyFloat f)) ->
  (forall s, P (PyStr s)) ->
  (forall l, Forall P l -> P (PyList l)) ->
  (forall l, Forall P l -> P (PyTuple l)) ->
  (forall l, Forall P l -> P (PySet l)) ->
  (forall kvs, Forall (fun kv => P (snd kv)) kvs -> P (PyDict kvs)) ->
  (forall t u c m, P (Citation t u c m)) ->
  (forall c m l, P (Media c m l)) ->
  (forall c, P (PyChart c)) ->
  (forall cls attrs, P (PyObject cls attrs)) ->
  forall v, P v.
Proof.
  intros HNone HBool HInt HFloat HStr HList HTuple HSet HDict HCit HMed HCh HObj.
  fix IH 1.
  assert (IHl : forall l, Forall P l).
  { fix IHl 1. destruct l as [|x xs]; constructor; [apply IH | apply IHl]. }
  intros [ | b | z | f | s | l | l | l | kvs | t u c m | c m l | c | cls attrs].
  - exact HNone.
  - apply HBool.
  - apply HInt.
  - apply HFloat.
  - apply HStr.
  - apply HList, IHl.
  - apply HTuple, IHl.
  - apply HSet, IHl.
  - apply HDict.
    induction kvs as [|[k v] kvs IHkvs]; constructor; [apply IH | exact IHkvs].
  - apply HCit.
  - apply HMed.
  - apply HCh.
  - apply HObj.
Qed.

(** ** The harvester meets its specification *)

(** Induction over the items of a container, given the hypothesis that
    [pyvalue_nested_ind] provides for them. *)
Ltac over_items :=
  match goal with
  | H : Forall _ _ |- _ => induction H as [|x xs Hx _ IH]
  end.

Section HarvesterFacts.

Lemma _collect_items (items : list pyvalue) :
  Forall (fun v => forall acc, _collect v acc = acc ++ harvest v) items ->
  forall acc,
    fold_left (fun acc item => _collect item acc) items acc
    = acc ++ flat_map harvest items.
Proof.
  induction 1 as [|v items Hv _ IH]; intros acc; simpl.
  - now rewrite app_nil_r.
  - rewrite Hv, IH. now rewrite <- app_assoc.
Qed.

Lemma _collect_values (items : list (pyvalue * pyvalue)) :
  Forall (fun kv => forall acc, _collect (snd kv) acc = acc ++ harvest (snd kv)) items ->
  forall acc,
    fold_left (fun acc kv => _collect (snd kv) acc) items acc
    = acc ++ flat_map (fun kv => harvest (snd kv)) items.
Proof.
  induction 1 as [|kv items Hv _ IH]; intros acc; simpl.
  - now rewrite app_nil_r.
  - rewrite Hv, IH. now rewrite <- app_assoc.
Qed.

(** [_collect] only ever appends, and what it appends is the pre-order
    traversal of its argument. *)
Lemma _collect_harvest (value : pyvalue) :
  forall acc, _collect value acc = acc ++ harvest value.
Proof.
  induction value using pyvalue_nested_ind; intros acc; simpl;
    try reflexivity; try (now rewrite app_nil_r).
  - now apply _collect_items.
  - now apply _collect_items.
  - now apply _collect_items.
  - now apply _collect_values.
Qed.

Lemma harvest_length (value : pyvalue) :
  length (harvest value) = occurrences value.
Proof.
  induction value using pyvalue_nested_ind; simpl; try reflexivity.
  all: over_items; simpl; [reflexivity|].
  all: now rewrite length_app, Hx, IH.
Qed.

Lemma harvest_attachments (value : pyvalue) :
  Forall is_attachment (harvest value).
Proof.
  induction value using pyvalue_nested_ind; simpl;
    try (now constructor); try (repeat constructor; fail).
  all: over_items; simpl; [constructor|].
  all: apply Forall_app; split; assumption.
Qed.

End HarvesterFacts.

(** C1. For every value (values are finite trees, hence acyclic)
    [extract_attachments] terminates and returns exactly the attachments the
    value contains, in pre-order: an attachment yields itself; a list, tuple
    or set yields the concatenation of what its elements yield; a dict the
    concatenation of what its values yield, keys ignored; anything else
    yields nothing.  Nothing is deduplicated: the length of the result is the
    number of attachment occurrences, every entry is an attachment, and an
    attachment that occurs twice is returned twice. *)
Theorem extract_attachments_harvest (value : pyvalue) :
  extract_attachments value = harvest value
  /\ length (extract_attachments value) = occurrences value
  /\ Forall is_attachment (extract_attachments value)
  /\ (forall a, is_attachment a ->
        extract_attachments a = [a]
        /\ extract_attachments (PyList [a; PyDict [(a, PyTuple [a])]]) = [a; a]).
Proof.
  unfold extract_attachments.
  rewrite _collect_harvest; simpl.
  repeat split.
  - apply harvest_length.
  - apply harvest_attachments.
  - rewrite _collect_harvest.
    destruct a; try discriminate H; reflexivity.
  - rewrite _collect_harvest.
    destruct a; try discriminate H; reflexivity.
Qed.


(** ** The renderer *)

Section RendererFacts.

Variable json_dumps : pyvalue -> outcome string.

Lemma presentable_element (a : pyvalue) :
  Spec.presentable json_dumps a = true ->
  isinstance_Citation a || isinstance_Media a || isinstance_Chart a = true ->
  exists element, Spec.element_of json_dumps a = Returned element.
Proof.
  destruct a; simpl; try discriminate; intros Hp _.
  - destruct (truthy metadata); [|eauto].
    destruct (json_dumps (pydict metadata)); [eauto | discriminate].
  - eauto.
  - destruct c; try discriminate; unfold get_chart_card; simpl; eauto.
Qed.

(** The loop appends to each of its three lists the elements of the
    attachments of that kind, in order, and raises nothing when every
    attachment is presentable. *)
Lemma collect_elements_buckets (attachments : list pyvalue) :
  forallb (Spec.presentable json_dumps) attachments = true ->
  forall citations media charts,
  exists citations' media' charts',
    collect_elements json_dumps attachments citations media charts
    = Returned (citations ++ citations', media ++ media', charts ++ charts')
    /\ map Returned citations' = Spec.bucket json_dumps isinstance_Citation attachments
    /\ map Returned media' = Spec.bucket json_dumps isinstance_Media attachments
    /\ map Returned charts' = Spec.bucket json_dumps isinstance_Chart attachments.
Proof.
  unfold Spec.bucket.
  induction attachments as [|a rest IH]; intros Hall citations media charts.
  - exists [], [], []. now rewrite !app_nil_r.
  - simpl in Hall. apply andb_prop in Hall as [Ha Hrest].
    specialize (IH Hrest).
    destruct (isinstance_Citation a || isinstance_Media a || isinstance_Chart a)
      eqn:Hkind.
    + destruct (presentable_element a Ha Hkind) as [element Helement].
      destruct a; try discriminate Hkind; simpl in Helement |- *;
        [rewrite Helement | injection Helement as Hel; rewrite Hel | rewrite Helement];
        simpl.
      * destruct (IH (citations ++ [element]) media charts)
          as (cs & ms & chs & -> & Hcs & Hms & Hchs).
        exists (element :: cs), ms, chs.
        rewrite <- app_assoc. simpl. now rewrite Hcs.
      * destruct (IH citations (media ++ [element]) charts)
          as (cs & ms & chs & -> & Hcs & Hms & Hchs).
        exists cs, (element :: ms), chs.
        rewrite <- app_assoc. simpl. now rewrite Hms.
      * destruct (IH citations media (charts ++ [element]))
          as (cs & ms & chs & -> & Hcs & Hms & Hchs).
        exists cs, ms, (element :: chs).
        rewrite <- app_assoc. simpl. now rewrite Hchs.
    + assert (Hskip : collect_elements json_dumps (a :: rest) citations media charts
                      = collect_elements json_dumps rest citations media charts)
        by (destruct a; try discriminate Hkind; reflexivity).
      rewrite Hskip.
      destruct (IH citations media charts)
        as (cs & ms & chs & -> & Hcs & Hms & Hchs).
      exists cs, ms, chs.
      destruct a; try discriminate Hkind; simpl; auto.
Qed.

(** One round of the loop on a presentable attachment. *)
Lemma collect_elements_cons (a : pyvalue) (rest citations media charts : list pyvalue) :
  Spec.presentable json_dumps a = true ->
  exists citations' media' charts',
    collect_elements json_dumps (a :: rest) citations media charts
    = collect_elements json_dumps rest citations' media' charts'.
Proof.
  intros Ha.
  destruct (isinstance_Citation a || isinstance_Media a || isinstance_Chart a)
    eqn:Hkind.
  - destruct (presentable_element a Ha Hkind) as [element Helement].
    destruct a; try discriminate Hkind; simpl in Helement |- *.
    + rewrite Helement. simpl. eauto.
    + eauto.
    + rewrite Helement. simpl. eauto.
  - destruct a; try discriminate Hkind; simpl; eauto.
Qed.

(** The loop raises as soon as it meets an attachment that is not
    presentable. *)
Lemma collect_elements_raises (attachments : list pyvalue) :
  forallb (Spec.presentable json_dumps) attachments = false ->
  forall citations media charts,
  exists e, collect_elements json_dumps attachments citations media charts = Raised e.
Proof.
  induction attachments as [|a rest IH]; intros Hsome citations media charts;
    [discriminate|].
  simpl in Hsome.
  destruct (Spec.presentable json_dumps a) eqn:Ha.
  - destruct (collect_elements_cons a rest citations media charts Ha)
      as (cs & ms & chs & ->).
    now apply IH.
  - destruct a; try discriminate Ha; simpl in Ha |- *.
    + destruct (truthy metadata); [|discriminate].
      destruct (json_dumps (pydict metadata)); [discriminate | simpl; eauto].
    + destruct c; try discriminate Ha. simpl. eauto.
Qed.

(** What [get_activity_card] builds from the three lists the loop filled. *)
Lemma get_activity_card_document (turn : ConversationTurn)
    (citations media charts : list pyvalue) :
  collect_elements json_dumps (ConversationTurn.attachments turn) [] [] []
  = Returned (citations, media, charts) ->
  get_activity_card json_dumps turn
  = Returned (Spec.document (ConversationTurn.content turn) citations media charts).
Proof.
  intros Hloop. unfold get_activity_card. rewrite Hloop. simpl.
  unfold Spec.document.
  destruct citations, media, charts; reflexivity.
Qed.

(** The element the code builds for an attachment is the presentation
    element the requirements describe. *)
Lemma element_of_element (a : pyvalue) :
  Spec.element_of json_dumps a = Spec.element json_dumps a.
Proof.
  destruct a as [| | | | | | | | |title url content metadata|content mime_type label|chart| ];
    try reflexivity.
  - simpl. destruct metadata; [reflexivity|]. simpl.
    destruct (json_dumps _); reflexivity.
  - simpl. destruct label as [[|c s]|]; reflexivity.
  - destruct chart as [id title|id title [|d data]|id title [|d data]|id title [|d data]];
      reflexivity.
Qed.

(** The block the code builds for a bucket reads as a collapsible section
    with the bucket's heading and elements. *)
Lemma read_section_block (id title : string) (elements : list pyvalue) :
  Spec.read_section (get_expandable_block id title elements) = Some (title, elements).
Proof.
  unfold get_expandable_block, Spec.read_section. simpl.
  now rewrite String.eqb_refl.
Qed.

(** The document of three buckets has no container when all are empty,
    and otherwise one whose blocks read as the sections of the buckets. *)
Lemma document_container (text : string) (citations media charts : list pyvalue) :
  match Spec.sections citations media charts with
  | [] => activity_attachments (Spec.document text citations media charts) = None
  | (_ :: _) as expected =>
      exists blocks,
        Spec.read_container (Spec.document text citations media charts) = Some blocks
        /\ map Spec.read_section blocks = map Some expected
  end.
Proof.
  destruct citations as [|c cs], media as [|m ms], charts as [|ch chs];
    unfold Spec.sections; simpl List.filter; try reflexivity;
    match goal with
    | |- context [Spec.document _ ?citations ?media ?charts] =>
        exists (Spec.section_for "Citations" "Citations" citations
                ++ Spec.section_for "Media" "Media Attachments" media
                ++ Spec.section_for "Charts" "Charts" charts)
    end;
    (split; [reflexivity|]);
    unfold Spec.section_for; simpl app; simpl map;
    now rewrite !read_section_block.
Qed.

End RendererFacts.

(** C3. For every turn, rendering returns a document exactly when every
    attachment of the turn is presentable, and raises otherwise.  The document
    it returns is a message that carries the turn's text.  Its three buckets
    are the presentation elements of the turn's citations, of its media and of
    its charts, each bucket in the order of the turn's attachment list.  When
    all three are empty the document has no attachment container; otherwise
    its container is one adaptive card whose body has exactly one collapsible
    section for each non-empty bucket, in the order citations, media, charts,
    each under its heading, holding that bucket's elements, and collapsed at
    first.  A turn without attachments gets the text and no attachment
    container. *)
Theorem get_activity_card_partitions
    (json_dumps : pyvalue -> outcome string) (turn : ConversationTurn) :
  is_Returned (get_activity_card json_dumps turn)
  = forallb (Spec.presentable json_dumps) (ConversationTurn.attachments turn)
  /\ (forall activity,
        get_activity_card json_dumps turn = Returned activity ->
        activity_type activity = "message"
        /\ activity_text activity = ConversationTurn.content turn
        /\ exists citations media charts,
             map Returned citations
             = map (Spec.element json_dumps)
                 (List.filter isinstance_Citation (ConversationTurn.attachments turn))
             /\ map Returned media
                = map (Spec.element json_dumps)
                    (List.filter isinstance_Media (ConversationTurn.attachments turn))
             /\ map Returned charts
                = map (Spec.element json_dumps)
                    (List.filter isinstance_Chart (ConversationTurn.attachments turn))
             /\ match Spec.sections citations media charts with
                | [] => activity_attachments activity = None
                | (_ :: _) as expected =>
                    exists blocks,
                      Spec.read_container activity = Some blocks
                      /\ map Spec.read_section blocks = map Some expected
                end
             /\ activity
                = Spec.document (ConversationTurn.content turn) citations media charts)
  /\ (ConversationTurn.attachments turn = [] ->
      get_activity_card json_dumps turn
      = Returned {| activity_type := "message";
                    activity_text := ConversationTurn.content turn;
                    activity_attachments := None |}).
Proof.
  destruct (forallb (Spec.presentable json_dumps) (ConversationTurn.attachments turn))
    eqn:Hall.
  - destruct (collect_elements_buckets json_dumps _ Hall [] [] [])
      as (citations & media & charts & Hloop & Hc & Hm & Hch).
    simpl in Hloop.
    pose proof (get_activity_card_document json_dumps turn _ _ _ Hloop) as Hcard.
    rewrite Hcard. split; [reflexivity|]. split.
    + intros activity [= <-]. split; [reflexivity|]. split; [reflexivity|].
      exists citations, media, charts.
      unfold Spec.bucket in Hc, Hm, Hch.
      rewrite (map_ext _ _ (element_of_element json_dumps)) in Hc, Hm, Hch.
      repeat split; try assumption.
      apply document_container.
    + intros Hnone. rewrite Hnone in Hc, Hm, Hch.
      destruct citations, media, charts; try discriminate. reflexivity.
  - destruct (collect_elements_raises json_dumps _ Hall [] [] []) as [e Hloop].
    assert (Hcard : get_activity_card json_dumps turn = Raised e)
      by (unfold get_activity_card; now rewrite Hloop).
    rewrite Hcard. split; [reflexivity|]. split.
    + discriminate.
    + intros Hnone. rewrite Hnone in Hall. discriminate.
Qed.

(** The claim applied: a turn with a chart, a citation, a media and a
    second chart.  The card has the three sections, the two charts in one, in
    the order the turn lists them. *)
Lemma get_activity_card_partitions_witness :
  let json_dumps := fun _ : pyvalue => Returned "{}" in
  let bar := PyChart (VerticalBarChart "c1" "Sales" []) in
  let pie := PyChart (PieChart "c2" "Share" []) in
  let cite := Citation "Harry Potter" "https://example.org/hp" ""
                       [("house", PyStr "Gryffindor")] in
  let video := Media "https://example.org/v.mp4" "video/mp4" None in
  let turn := {| ConversationTurn.role := "assistant";
                 ConversationTurn.content := "Here you are";
                 ConversationTurn.created_at := 0%Z;
                 ConversationTurn.metadata := [];
                 ConversationTurn.attachments := [bar; cite; video; pie] |} in
  exists activity blocks,
    get_activity_card json_dumps turn = Returned activity
    /\ activity_text activity = "Here you are"
    /\ Spec.read_container activity = Some blocks
    /\ map Spec.read_section blocks
       = [Some ("Citations",
                [pydict [("type", PyStr "Container");
                         ("items", PyList [
                            pydict [("type", PyStr "TextBlock");
                                    ("text",
                                     PyStr "[Harry Potter](https://example.org/hp)");
                                    ("wrap", PyBool true);
                                    ("size", PyStr "Medium")];
                            pydict [("type", PyStr "CodeBlock");
                                    ("codeSnippet", PyStr "{}");
                                    ("language", PyStr "Json")]])]]);
          Some ("Media Attachments",
                [pydict [("type", PyStr "Media");
                         ("sources", PyList [
                            pydict [("mimeType", PyStr "video/mp4");
                                    ("url", PyStr "https://example.org/v.mp4");
                                    ("label", PyStr "Media Attachment")]])]]);
          Some ("Charts",
                [pydict [("id", PyStr "c1"); ("type", PyStr "Chart.VerticalBar");
                         ("title", PyStr "Sales"); ("data", PyList [])];
                 pydict [("id", PyStr "c2"); ("type", PyStr "Chart.Pie");
                         ("title", PyStr "Share"); ("data", PyList [])]])].
Proof.
  intros json_dumps bar pie cite video turn.
  destruct (get_activity_card_partitions json_dumps turn) as (_ & Hdoc & _).
  destruct (get_activity_card json_dumps turn) as [activity|e] eqn:Hcard;
    [|discriminate].
  destruct (Hdoc activity eq_refl)
    as (_ & Htext & citations & media & charts & Hc & Hm & Hch & Hsections & _).
  destruct citations as [|c1 [|? ?]]; try discriminate Hc.
  destruct media as [|m1 [|? ?]]; try discriminate Hm.
  destruct charts as [|ch1 [|ch2 [|? ?]]]; try discriminate Hch.
  injection Hc as ->. injection Hm as ->. injection Hch as -> ->.
  destruct Hsections as (blocks & Hcontainer & Hblocks).
  exists activity, blocks.
  split; [reflexivity|]. split; [exact Htext|]. split; [exact Hcontainer|].
  exact Hblocks.
Defined.

(** C9. Building the chart block raises (the package's [ValueError] with
    the message "Unsupported chart type") exactly for a chart that is none of
    [VerticalBarChart], [LineChart], [PieChart]; for each of the three it
    returns the block with the chart's id, the discriminator of its variant,
    its title and its data serialised. *)
Theorem get_chart_card_known_variants (chart : Chart) :
  (forall e, get_chart_card chart = Raised e
             <-> e = ValueError "Unsupported chart type"
                 /\ Spec.known_variant chart = false)
  /\ (forall block, get_chart_card chart = Returned block
             <-> Spec.known_variant chart = true
                 /\ exists type, Spec.discriminator chart = Some type
                 /\ block = pydict [("id", PyStr (chart_id chart));
                                    ("type", PyStr type);
                                    ("title", PyStr (chart_title chart));
                                    ("data", PyList (Spec.serialized chart))])
  /\ match chart with
     | BaseChart _ _ => get_chart_card chart = Raised (ValueError "Unsupported chart type")
     | VerticalBarChart id title data =>
         get_chart_card chart
         = Returned (pydict [("id", PyStr id); ("type", PyStr "Chart.VerticalBar");
                             ("title", PyStr title);
                             ("data", PyList (map VerticalBarChartDataValue_model_dump data))])
     | LineChart id title data =>
         get_chart_card chart
         = Returned (pydict [("id", PyStr id); ("type", PyStr "Chart.Line");
                             ("title", PyStr title);
                             ("data", PyList (map LineChartData_model_dump data))])
     | PieChart id title data =>
         get_chart_card chart
         = Returned (pydict [("id", PyStr id); ("type", PyStr "Chart.Pie");
                             ("title", PyStr title);
                             ("data", PyList (map PieChartData_model_dump data))])
     end.
Proof.
  assert (Hdump : forall A (f : A -> pyvalue) (l : list A),
             (if truthy l then map f l else []) = map f l)
    by (intros A f [|x l]; reflexivity).
  destruct chart as [id title | id title data | id title data | id title data];
    unfold get_chart_card; simpl; rewrite ?Hdump.
  - split; [|split]; [intros e; split | intros block; split | reflexivity].
    + intros [= <-]. auto.
    + intros [-> _]. reflexivity.
    + discriminate.
    + intros [[=] _].
  - split; [|split]; [intros e; split | intros block; split | reflexivity].
    + discriminate.
    + intros [_ [=]].
    + intros [= <-]. split; [reflexivity|]. eexists; split; reflexivity.
    + intros [_ (type & [= <-] & ->)]. reflexivity.
  - split; [|split]; [intros e; split | intros block; split | reflexivity].
    + discriminate.
    + intros [_ [=]].
    + intros [= <-]. split; [reflexivity|]. eexists; split; reflexivity.
    + intros [_ (type & [= <-] & ->)]. reflexivity.
  - split; [|split]; [intros e; split | intros block; split | reflexivity].
    + discriminate.
    + intros [_ [=]].
    + intros [= <-]. split; [reflexivity|]. eexists; split; reflexivity.
    + intros [_ (type & [= <-] & ->)]. reflexivity.
Qed.

(** ** The bounded history *)

Section HistoryFacts.

Import ConversationData.

(** What one [add_turn] does to the length of the history. *)
Lemma add_turn_length (self : ConversationData) (turn : ConversationTurn) :
  length (history (add_turn self turn))
  = if (Z.of_nat (S (length (history self))) >=? max_turns self)%Z
    then length (history self)
    else S (length (history self)).
Proof.
  unfold add_turn; simpl.
  rewrite length_app, Nat.add_1_r.
  destruct (_ >=? _)%Z; [|now rewrite length_app, Nat.add_1_r].
  unfold pop0. destruct (history self); simpl; [reflexivity|].
  now rewrite length_app, Nat.add_1_r.
Qed.

(** The turn just added is always kept when there is room for it or the
    history was not empty, and eviction takes the oldest turn. *)
Lemma add_turn_history (self : ConversationData) (turn : ConversationTurn) :
  history (add_turn self turn)
  = if (Z.of_nat (S (length (history self))) >=? max_turns self)%Z
    then tail (history self ++ [turn])
    else history self ++ [turn].
Proof.
  unfold add_turn; simpl. now rewrite length_app, Nat.add_1_r.
Qed.

(** A history shorter than [max_turns] stays shorter than [max_turns]:
    after an [add_turn] it never holds [max_turns] turns. *)
Lemma add_turn_below_bound (self : ConversationData) (turn : ConversationTurn) :
  (Z.of_nat (length (history self)) < max_turns self)%Z ->
  (Z.of_nat (length (history (add_turn self turn))) < max_turns self)%Z.
Proof.
  intros Hlt. rewrite add_turn_length.
  destruct (_ >=? _)%Z eqn:Hge; [assumption|].
  rewrite Z.geb_leb in Hge. apply Z.leb_gt in Hge. exact Hge.
Qed.

End HistoryFacts.

(** C4 (the code departs from it). From an empty history with
    [max_turns = 3], adding T1, ..., T5 in turn leaves [T4; T5]: [add_turn]
    evicts as soon as the length reaches 3, so T3 is gone and the history
    holds two turns, not the three [T3; T4; T5] of the requirement. *)
Theorem add_turn_five_turns (T1 T2 T3 T4 T5 : ConversationTurn) :
  ConversationData.history
    (fold_left ConversationData.add_turn [T1; T2; T3; T4; T5]
               (ConversationData.init [] 3))
  = [T4; T5]
  /\ length (ConversationData.history
               (fold_left ConversationData.add_turn [T1; T2; T3; T4; T5]
                          (ConversationData.init [] 3))) = 2%nat
  /\ (forall self turn,
        ConversationData.max_turns self = 3%Z ->
        length (ConversationData.history self) = 2%nat ->
        length (ConversationData.history (ConversationData.add_turn self turn)) = 2%nat).
Proof.
  split; [reflexivity | split; [reflexivity|]].
  intros self turn Hmax Hlen.
  rewrite add_turn_length, Hmax, Hlen. reflexivity.
Qed.

(** ** The history handed to the completion service *)

Section ChatHistoryFacts.

Import ChatCompletionAgent.

Lemma chat_history_from (turns : list ConversationTurn) (h : ChatHistory) :
  fold_left (fun history message =>
               if String.eqb (ConversationTurn.role message) "user"
               then add_user_message history (ConversationTurn.content message)
               else add_assistant_message history (ConversationTurn.content message))
            turns h
  = h ++ map Spec.message_of turns.
Proof.
  revert h. induction turns as [|turn turns IH]; intros h; simpl.
  - now rewrite app_nil_r.
  - rewrite IH. unfold Spec.message_of, add_user_message, add_assistant_message.
    destruct (String.eqb _ _); now rewrite <- app_assoc.
Qed.

Lemma chat_history_map (turns : list ConversationTurn) :
  chat_history turns = map Spec.message_of turns.
Proof. unfold chat_history. now rewrite chat_history_from. Qed.

End ChatHistoryFacts.

(** C8 (the code departs from it). The history is translated turn by turn,
    in order: a turn whose role is "user" becomes a user message and every
    other turn an assistant message.  So a system-role turn is neither passed
    on as a system message nor left out: it reaches the service as an
    assistant message. *)
Theorem chat_history_system_turn (turns : list ConversationTurn) :
  ChatCompletionAgent.chat_history turns = map Spec.message_of turns
  /\ (forall content created_at metadata attachments before after,
        ChatCompletionAgent.chat_history
          (before
           ++ [{| ConversationTurn.role := "system";
                  ConversationTurn.content := content;
                  ConversationTurn.created_at := created_at;
                  ConversationTurn.metadata := metadata;
                  ConversationTurn.attachments := attachments |}]
           ++ after)
        = ChatCompletionAgent.chat_history before
          ++ [(ASSISTANT, content)]
          ++ ChatCompletionAgent.chat_history after).
Proof.
  split; [apply chat_history_map|].
  intros. rewrite !chat_history_map, !map_app. reflexivity.
Qed.

(** ** The tool registry *)

Section DictFacts.
Context {V : Type}.

Lemma Dict_contains_get (k : string) (d : list (string * V)) :
  Dict.contains k d = true <-> exists v, Dict.get k d = Some v.
Proof.
  unfold Dict.contains. destruct (Dict.get k d); split; eauto.
  - discriminate.
  - intros [v [=]].
Qed.

Lemma Dict_get_set_eq (k : string) (v : V) (d : list (string * V)) :
  Dict.get k (Dict.set k v d) = Some v.
Proof.
  induction d as [|[k' v'] d IH]; simpl.
  - now rewrite String.eqb_refl.
  - destruct (String.eqb k k') eqn:E; simpl; rewrite ?String.eqb_refl, ?E; auto.
Qed.

Lemma Dict_get_set_ne (k k' : string) (v : V) (d : list (string * V)) :
  k <> k' -> Dict.get k' (Dict.set k v d) = Dict.get k' d.
Proof.
  intros Hne. induction d as [|[k0 v0] d IH]; simpl.
  - destruct (String.eqb k' k) eqn:E; [|reflexivity].
    apply String.eqb_eq in E. congruence.
  - destruct (String.eqb k k0) eqn:E; simpl.
    + apply String.eqb_eq in E. subst k0.
      destruct (String.eqb k' k) eqn:E'; [|reflexivity].
      apply String.eqb_eq in E'. congruence.
    + now rewrite IH.
Qed.

Lemma Dict_set_fresh (k : string) (v : V) (d : list (string * V)) :
  Dict.get k d = None -> Dict.set k v d = d ++ [(k, v)].
Proof.
  induction d as [|[k' v'] d IH]; simpl; [reflexivity|].
  destruct (String.eqb k k'); [discriminate|].
  intros H. now rewrite IH.
Qed.

End DictFacts.

(** A tool under a new name is registered, last in the dict, and the
    tools registered before stay as they were. *)
Lemma add_tool_new (self : AbstractAgent) (tool : Tool) :
  Dict.get (Tool.name tool) (AbstractAgent._tools self) = None ->
  AbstractAgent.add_tool self tool
  = (AbstractAgent.set_tools self
       (AbstractAgent._tools self ++ [(Tool.name tool, tool)]),
     Returned tt).
Proof.
  intros Hnew. unfold AbstractAgent.add_tool, Dict.contains.
  rewrite Hnew. simpl. now rewrite Dict_set_fresh.
Qed.

(** X24. Adding a tool whose name is already a key of the agent's tool
    dict raises (the package's [ValueError] naming the tool and the agent) and
    leaves the agent as it was: the tool registered under that name is still
    the original one and no entry was added or removed. *)
Theorem add_tool_duplicate (self : AbstractAgent) (tool original : Tool) :
  Dict.get (Tool.name tool) (AbstractAgent._tools self) = Some original ->
  AbstractAgent.add_tool self tool
  = (self, Raised (ValueError ("Tool '" ++ Tool.name tool ++ "' already exists in agent '"
                               ++ AbstractAgent._name self ++ "'")))
  /\ AbstractAgent._tools (fst (AbstractAgent.add_tool self tool))
     = AbstractAgent._tools self
  /\ Dict.get (Tool.name tool)
       (AbstractAgent._tools (fst (AbstractAgent.add_tool self tool)))
     = Some original.
Proof.
  intros Hdup.
  assert (Hraise : AbstractAgent.add_tool self tool
                   = (self, Raised (ValueError ("Tool '" ++ Tool.name tool
                        ++ "' already exists in agent '"
                        ++ AbstractAgent._name self ++ "'")))).
  { unfold AbstractAgent.add_tool.
    assert (Hin : Dict.contains (Tool.name tool) (AbstractAgent._tools self) = true)
      by (apply Dict_contains_get; eauto).
    now rewrite Hin. }
  rewrite Hraise. auto.
Qed.

(** "Add" registered, then registered again. *)
Lemma add_tool_duplicate_witness :
  let agent0 := {| AbstractAgent._id := "math"; AbstractAgent._name := "Math";
                   AbstractAgent._description := ""; AbstractAgent._prompt := "";
                   AbstractAgent._tools := []; AbstractAgent._settings := [] |} in
  let other := {| Tool.name := "Add"; Tool.description := "another Add";
                  Tool.function := Tool.Function (fun _ _ => Returned PyNone) |} in
  let agent1 := fst (AbstractAgent.add_tool agent0 MathTools.AddTool) in
  AbstractAgent._tools agent1 = [("Add", MathTools.AddTool)]
  /\ AbstractAgent.add_tool agent1 other
     = (agent1, Raised (ValueError "Tool 'Add' already exists in agent 'Math'"))
  /\ Dict.get "Add" (AbstractAgent._tools (fst (AbstractAgent.add_tool agent1 other)))
     = Some MathTools.AddTool.
Proof.
  intros agent0 other agent1.
  split; [reflexivity|].
  destruct (add_tool_duplicate agent1 other MathTools.AddTool eq_refl)
    as (Hraise & _ & Hkept).
  split; [exact Hraise | exact Hkept].
Defined.

(** C10 (the code departs from it). The sample agent holds its vertical
    bar chart tool, whose name is "VerticalBarChart", under the key
    "CreateVerticalBarChart".  Adding that very tool to the agent again does
    not raise: [add_tool] looks for the tool's name among the keys of the dict,
    does not find it, and registers the tool a second time, under its name.
    The tool set has then gained an entry and holds the tool, and so its name,
    twice. *)
Theorem add_tool_sample_agent_twice
    (SubtractTool MultiplyTool DivideTool LineChartTool PieChartTool : Tool)
    (create_vertical_bar_chart : Tool.Callable) :
  let agent := MathAgent.MathSemanticKernelAgent SubtractTool MultiplyTool DivideTool
                 LineChartTool PieChartTool create_vertical_bar_chart in
  let tool := MathAgent.VerticalBarChartTool create_vertical_bar_chart in
  Dict.get "CreateVerticalBarChart" (AbstractAgent._tools agent) = Some tool
  /\ Tool.name tool = "VerticalBarChart"
  /\ AbstractAgent.add_tool agent tool
     = (AbstractAgent.set_tools agent
          (AbstractAgent._tools agent ++ [("VerticalBarChart", tool)]),
        Returned tt)
  /\ Dict.get "CreateVerticalBarChart"
       (AbstractAgent._tools (fst (AbstractAgent.add_tool agent tool)))
     = Some tool
  /\ Dict.get "VerticalBarChart"
       (AbstractAgent._tools (fst (AbstractAgent.add_tool agent tool)))
     = Some tool
  /\ length (AbstractAgent._tools (fst (AbstractAgent.add_tool agent tool)))
     = S (length (AbstractAgent._tools agent)).
Proof.
  intros agent tool.
  assert (Hadd : AbstractAgent.add_tool agent tool
                 = (AbstractAgent.set_tools agent
                      (AbstractAgent._tools agent ++ [("VerticalBarChart", tool)]),
                    Returned tt))
    by (apply (add_tool_new agent tool); reflexivity).
  rewrite Hadd. repeat split; reflexivity.
Qed.

(** ** Elapsed time *)

(** A [timedelta] loses nothing: its three fields add up to the difference
    of the two datetimes. *)
Lemma datetime_sub_total (t_end t_start : datetime) :
  total_microseconds (datetime_sub t_end t_start) = (t_end - t_start)%Z.
Proof.
  unfold total_microseconds, datetime_sub; simpl.
  set (e := (t_end - t_start)%Z).
  assert (Hdays : (e / 86400000000 = e / 1000000 / 86400)%Z)
    by (rewrite Z.div_div by lia; reflexivity).
  rewrite Hdays.
  pose proof (Z.div_mod e 1000000) as H1.
  pose proof (Z.div_mod (e / 1000000) 86400) as H2.
  lia.
Qed.

(** ** The instrumented adapter *)

Section AdapterFacts.

Import ChatCompletionAgent Scheduler.

Variables (tool : Tool) (task : task_id).
Variables (positional : list pyvalue) (keywords : list (string * pyvalue)).

(** The adapter is its first clock reading followed by the rest. *)
Lemma new_plugin_func_split (rt : Runtime) :
  new_plugin_func tool task positional keywords rt
  = new_plugin_func_resume tool task positional keywords (clock rt (ticks rt))
      (set_ticks (S (ticks rt)) rt).
Proof. reflexivity. Qed.

(** The callable raised: the exception goes on to the caller, nothing is
    logged. *)
Lemma new_plugin_func_resume_raised (start : datetime) (rt : Runtime) (e : exn) :
  Tool.call (Tool.function tool) positional keywords = Raised e ->
  new_plugin_func_resume tool task positional keywords start rt = (Raised e, rt).
Proof.
  intros Hcall. unfold new_plugin_func_resume, bind, lift. now rewrite Hcall.
Qed.

(** The callable returned and a context is active: one record and the
    harvested attachments go to the active context, the result to the
    caller. *)
Lemma new_plugin_func_resume_returned
    (start : datetime) (rt : Runtime) (ctx : loc) (resp : pyvalue) :
  agent_invoke_context rt !! task = Some ctx ->
  Tool.call (Tool.function tool) positional keywords = Returned resp ->
  new_plugin_func_resume tool task positional keywords start rt
  = (Returned resp,
     set_heap
       (alter (Spec.logged
                 {| tool_name := Tool.name tool; args := positional; kwargs := keywords;
                    result := resp; start_time := start;
                    duration := microseconds
                                  (datetime_sub (clock rt (ticks rt)) start) |}
                 (extract_attachments resp))
              ctx (heap rt))
       (set_ticks (S (ticks rt)) rt)).
Proof.
  intros Hctx Hcall.
  unfold new_plugin_func_resume, bind, lift, datetime_now, ContextVar.get,
    tool_usage_append, attachments_extend, ret.
  rewrite Hcall. simpl. rewrite Hctx. simpl.
  destruct (extract_attachments resp) as [|a found] eqn:Hfound; simpl.
  - unfold set_heap, set_ticks; simpl. do 2 f_equal.
    apply list_alter_ext; [|reflexivity].
    intros d _. unfold Spec.logged. now rewrite app_nil_r.
  - rewrite Hctx. unfold set_heap, set_ticks; simpl. do 2 f_equal.
    rewrite list_alter_alter_eq.
    apply list_alter_ext; [|reflexivity].
    intros d _. reflexivity.
Qed.

(** The callable returned and no context is active: [LookupError]. *)
Lemma new_plugin_func_resume_unbound (start : datetime) (rt : Runtime) (resp : pyvalue) :
  agent_invoke_context rt !! task = None ->
  Tool.call (Tool.function tool) positional keywords = Returned resp ->
  new_plugin_func_resume tool task positional keywords start rt
  = (Raised (LookupError "agent_invoke_context"), set_ticks (S (ticks rt)) rt).
Proof.
  intros Hctx Hcall.
  unfold new_plugin_func_resume, bind, lift, datetime_now, ContextVar.get.
  rewrite Hcall. simpl. now rewrite Hctx.
Qed.

(** The adapter never rebinds [agent_invoke_context], creates no dict and
    leaves the dicts of other contexts alone. *)
Lemma new_plugin_func_resume_frame (start : datetime) (rt : Runtime) :
  let rt' := snd (new_plugin_func_resume tool task positional keywords start rt) in
  agent_invoke_context rt' = agent_invoke_context rt
  /\ length (heap rt') = length (heap rt)
  /\ clock rt' = clock rt
  /\ forall l, agent_invoke_context rt !! task <> Some l -> heap rt' !! l = heap rt !! l.
Proof.
  destruct (Tool.call (Tool.function tool) positional keywords) as [resp|e] eqn:Hcall.
  - destruct (agent_invoke_context rt !! task) as [ctx|] eqn:Hctx.
    + rewrite (new_plugin_func_resume_returned start rt ctx resp Hctx Hcall); simpl.
      repeat split; [apply length_alter|].
      intros l Hl. apply list_lookup_alter_ne. congruence.
    + rewrite (new_plugin_func_resume_unbound start rt resp Hctx Hcall); simpl.
      auto.
  - rewrite (new_plugin_func_resume_raised start rt e Hcall). auto.
Qed.

Lemma new_plugin_func_frame (rt : Runtime) :
  let rt' := snd (new_plugin_func tool task positional keywords rt) in
  agent_invoke_context rt' = agent_invoke_context rt
  /\ length (heap rt') = length (heap rt)
  /\ clock rt' = clock rt
  /\ forall l, agent_invoke_context rt !! task <> Some l -> heap rt' !! l = heap rt !! l.
Proof.
  rewrite new_plugin_func_split.
  apply (new_plugin_func_resume_frame (clock rt (ticks rt)) (set_ticks (S (ticks rt)) rt)).
Qed.

End AdapterFacts.

(** ** One [process] call *)

Section ProcessFacts.

Import ChatCompletionAgent Scheduler.

Lemma process_enter_run (task : task_id) (rt : Runtime) :
  process_enter task rt
  = (Returned (agent_invoke_context rt !! task),
     {| heap := heap rt ++ [{| tool_usage := []; attachments := [] |}];
        agent_invoke_context := <[task := length (heap rt)]> (agent_invoke_context rt);
        clock := clock rt;
        ticks := ticks rt |}).
Proof. reflexivity. Qed.

(** [process] is its entry, the service's run and its exit, in sequence;
    when the service raises, the exit is skipped. *)
Lemma process_run (self : ChatCompletionAgent.t) (task : task_id)
    (conversation_data : ConversationData) (rt : Runtime) :
  process self task conversation_data rt
  = match complete (_kernel self) task
            (_agent self (chat_history (ConversationData.history conversation_data)))
            (snd (process_enter task rt)) with
    | (Returned response, rt') =>
        process_finish task (agent_invoke_context rt !! task) response rt'
    | (Raised e, rt') => (Raised e, rt')
    end.
Proof. reflexivity. Qed.

Lemma process_finish_bound (task : task_id) (token : option loc) (response : string)
    (rt : Runtime) (ctx : loc) :
  agent_invoke_context rt !! task = Some ctx ->
  process_finish task token response rt
  = (Returned
       {| ConversationTurn.role := "assistant";
          ConversationTurn.content := response;
          ConversationTurn.created_at := clock rt (ticks rt);
          ConversationTurn.metadata :=
            [("tool_usage",
              tool_usage (default {| tool_usage := []; attachments := [] |}
                                  (heap rt !! ctx)))];
          ConversationTurn.attachments :=
            attachments (default {| tool_usage := []; attachments := [] |}
                                 (heap rt !! ctx)) |},
     {| heap := heap rt;
        agent_invoke_context :=
          match token with
          | Some old => <[task := old]> (agent_invoke_context rt)
          | None => delete task (agent_invoke_context rt)
          end;
        clock := clock rt;
        ticks := S (ticks rt) |}).
Proof.
  intros Hctx. unfold process_finish, bind, ContextVar.get. now rewrite Hctx.
Qed.

Lemma process_finish_unbound (task : task_id) (token : option loc) (response : string)
    (rt : Runtime) :
  agent_invoke_context rt !! task = None ->
  process_finish task token response rt
  = (Raised (LookupError "agent_invoke_context"), rt).
Proof.
  intros Hctx. unfold process_finish, bind, ContextVar.get. now rewrite Hctx.
Qed.

(** The service's run, whatever it invokes, never rebinds
    [agent_invoke_context], creates no dict, and writes to no dict but the
    one bound in the task's context. *)
Lemma complete_frame (functions : list (string * Tool)) (task : task_id)
    (c : Completion) :
  forall rt,
    let rt' := snd (complete functions task c rt) in
    agent_invoke_context rt' = agent_invoke_context rt
    /\ length (heap rt') = length (heap rt)
    /\ clock rt' = clock rt
    /\ forall l, agent_invoke_context rt !! task <> Some l ->
                 heap rt' !! l = heap rt !! l.
Proof.
  induction c as [content | e | function_name positional keywords k IH];
    intros rt; simpl; auto.
  destruct (plugin_get function_name functions) as [tool|]; [|apply IH].
  pose proof (new_plugin_func_frame tool task positional keywords rt) as Hf.
  destruct (new_plugin_func tool task positional keywords rt) as [o rt1].
  simpl in Hf. destruct Hf as (Hvar & Hlen & Hclock & Hheap).
  destruct (IH o rt1) as (Hvar' & Hlen' & Hclock' & Hheap').
  repeat split; try congruence.
  intros l Hl. rewrite Hheap'; [auto | congruence].
Qed.

(** A failure of the service leaves [process] at once: the context that
    [process] made active stays active in the task. *)
Lemma process_raised (self : ChatCompletionAgent.t) (task : task_id)
    (conversation_data : ConversationData) (rt rt' : Runtime) (e : exn) :
  get_response self task (chat_history (ConversationData.history conversation_data))
               (snd (process_enter task rt)) = (Raised e, rt') ->
  process self task conversation_data rt = (Raised e, rt')
  /\ agent_invoke_context rt' !! task = Some (length (heap rt)).
Proof.
  unfold get_response. intros Hresp.
  rewrite process_run, Hresp. split; [reflexivity|].
  pose proof (complete_frame (_kernel self) task
                (_agent self (chat_history (ConversationData.history conversation_data)))
                (snd (process_enter task rt))) as Hf.
  rewrite Hresp in Hf. simpl in Hf. destruct Hf as (-> & _).
  apply lookup_insert_eq.
Qed.

(** A reply of the service takes [process] through its exit: the turn is
    built from the dict [process] created, and [agent_invoke_context] is set
    back to what it was. *)
Lemma process_returned (self : ChatCompletionAgent.t) (task : task_id)
    (conversation_data : ConversationData) (rt rt' : Runtime) (response : string) :
  get_response self task (chat_history (ConversationData.history conversation_data))
               (snd (process_enter task rt)) = (Returned response, rt') ->
  exists d,
    heap rt' !! length (heap rt) = Some d
    /\ process self task conversation_data rt
       = (Returned
            {| ConversationTurn.role := "assistant";
               ConversationTurn.content := response;
               ConversationTurn.created_at := clock rt' (ticks rt');
               ConversationTurn.metadata := [("tool_usage", tool_usage d)];
               ConversationTurn.attachments := attachments d |},
          {| heap := heap rt';
             agent_invoke_context :=
               match agent_invoke_context rt !! task with
               | Some old => <[task := old]> (agent_invoke_context rt')
               | None => delete task (agent_invoke_context rt')
               end;
             clock := clock rt';
             ticks := S (ticks rt') |}).
Proof.
  unfold get_response. intros Hresp.
  pose proof (complete_frame (_kernel self) task
                (_agent self (chat_history (ConversationData.history conversation_data)))
                (snd (process_enter task rt))) as Hf.
  rewrite Hresp in Hf. simpl in Hf. destruct Hf as (Hvar & Hlen & _ & _).
  assert (Hbound : agent_invoke_context rt' !! task = Some (length (heap rt)))
    by (rewrite Hvar; apply lookup_insert_eq).
  destruct (lookup_lt_is_Some_2 (heap rt') (length (heap rt))) as [d Hd].
  { rewrite Hlen, length_app. simpl. lia. }
  exists d. split; [exact Hd|].
  rewrite process_run, Hresp.
  rewrite (process_finish_bound task _ response rt' _ Hbound), Hd.
  reflexivity.
Qed.

End ProcessFacts.

(** ** The claims on the adapter and on [process] *)

Section SingleInvocation.

Import ChatCompletionAgent Scheduler.

(** A service that invokes one function once and then replies: what
    [process] returns. *)
Lemma process_single_invocation (self : ChatCompletionAgent.t) (task : task_id)
    (conversation_data : ConversationData) (rt : Runtime)
    (tool : Tool) (positional : list pyvalue) (keywords : list (string * pyvalue))
    (resp : pyvalue) (content : string) :
  plugin_get (Tool.name tool) (_kernel self) = Some tool ->
  _agent self (chat_history (ConversationData.history conversation_data))
  = Invoke (Tool.name tool) positional keywords (fun _ => Reply content) ->
  Tool.call (Tool.function tool) positional keywords = Returned resp ->
  exists turn rt' record,
    process self task conversation_data rt = (Returned turn, rt')
    /\ ConversationTurn.content turn = content
    /\ ConversationTurn.metadata turn = [("tool_usage", [record])]
    /\ ConversationTurn.attachments turn = extract_attachments resp
    /\ tool_name record = Tool.name tool
    /\ args record = positional
    /\ kwargs record = keywords
    /\ result record = resp.
Proof.
  intros Hplugin Hservice Hcall.
  set (rt_in := snd (process_enter task rt)).
  assert (Hbound : agent_invoke_context (set_ticks (S (ticks rt_in)) rt_in) !! task
                   = Some (length (heap rt)))
    by apply lookup_insert_eq.
  pose proof (new_plugin_func_resume_returned tool task positional keywords
                (clock rt_in (ticks rt_in)) _ _ resp Hbound Hcall) as Hadapter.
  rewrite <- new_plugin_func_split in Hadapter.
  assert (Hresp : get_response self task
                    (chat_history (ConversationData.history conversation_data)) rt_in
                  = (Returned content,
                     snd (new_plugin_func tool task positional keywords rt_in))).
  { unfold get_response. rewrite Hservice. simpl. rewrite Hplugin.
    rewrite Hadapter. reflexivity. }
  destruct (process_returned self task conversation_data rt _ content Hresp)
    as (d & Hd & Hprocess).
  rewrite Hadapter in Hd. simpl in Hd.
  rewrite list_lookup_alter_eq, list_lookup_middle in Hd by reflexivity.
  injection Hd as <-.
  eexists _, _, _. split; [exact Hprocess|].
  simpl. repeat split; reflexivity.
Qed.

End SingleInvocation.

(** C2. Inside a [process] call (that is, with an invocation context
    active in the calling task) an adapter invocation whose callable returns
    [resp] returns [resp] itself and appends exactly one record to the active
    context, holding the tool's name, the call's args and kwargs and [resp];
    the attachments found in [resp] are appended too.  An invocation whose
    callable raises passes the exception on and logs nothing.  And when the
    service invokes a tool once and then replies, the turn [process] returns
    has exactly that one record in its metadata. *)
Theorem new_plugin_func_transparent
    (tool : Tool) (task : task_id)
    (positional : list pyvalue) (keywords : list (string * pyvalue))
    (rt : Runtime) (ctx : loc) (d : InvokeContext) :
  agent_invoke_context rt !! task = Some ctx ->
  heap rt !! ctx = Some d ->
  (forall resp,
     Tool.call (Tool.function tool) positional keywords = Returned resp ->
     exists record rt',
       ChatCompletionAgent.new_plugin_func tool task positional keywords rt
       = (Returned resp, rt')
       /\ heap rt' !! ctx
          = Some {| tool_usage := tool_usage d ++ [record];
                    attachments := attachments d ++ extract_attachments resp |}
       /\ tool_name record = Tool.name tool
       /\ args record = positional
       /\ kwargs record = keywords
       /\ result record = resp)
  /\ (forall e,
        Tool.call (Tool.function tool) positional keywords = Raised e ->
        exists rt',
          ChatCompletionAgent.new_plugin_func tool task positional keywords rt
          = (Raised e, rt')
          /\ heap rt' = heap rt)
  /\ (forall resp self conversation_data rt0 content,
        Tool.call (Tool.function tool) positional keywords = Returned resp ->
        ChatCompletionAgent.plugin_get (Tool.name tool) (ChatCompletionAgent._kernel self)
        = Some tool ->
        ChatCompletionAgent._agent self
          (ChatCompletionAgent.chat_history (ConversationData.history conversation_data))
        = Invoke (Tool.name tool) positional keywords (fun _ => Reply content) ->
        exists turn rt' record,
          ChatCompletionAgent.process self task conversation_data rt0
          = (Returned turn, rt')
          /\ ConversationTurn.metadata turn = [("tool_usage", [record])]
          /\ tool_name record = Tool.name tool
          /\ args record = positional
          /\ kwargs record = keywords
          /\ result record = resp).
Proof.
  intros Hctx Hd. split; [|split].
  - intros resp Hcall. rewrite new_plugin_func_split.
    assert (Hbound : agent_invoke_context (set_ticks (S (ticks rt)) rt) !! task = Some ctx)
      by exact Hctx.
    rewrite (new_plugin_func_resume_returned tool task positional keywords
               _ _ ctx resp Hbound Hcall).
    eexists _, _. split; [reflexivity|]. simpl.
    rewrite list_lookup_alter_eq, Hd. simpl.
    repeat split; reflexivity.
  - intros e Hcall. rewrite new_plugin_func_split.
    rewrite (new_plugin_func_resume_raised tool task positional keywords _ _ e Hcall).
    eexists. split; reflexivity.
  - intros resp self conversation_data rt0 content Hcall Hplugin Hservice.
    destruct (process_single_invocation self task conversation_data rt0 tool
                positional keywords resp content Hplugin Hservice Hcall)
      as (turn & rt' & record & Hp & _ & Hm & _ & Hrest).
    exists turn, rt', record. auto.
Qed.

(** The scenario of the claim: the service invokes Add with x=2, y=3 once. *)
Lemma new_plugin_func_transparent_witness :
  let rt := {| heap := [{| tool_usage := []; attachments := [] |}];
               agent_invoke_context := {[ 0%nat := 0%nat ]};
               clock := fun n => Z.of_nat n; ticks := 0 |} in
  (exists record rt',
     ChatCompletionAgent.new_plugin_func MathTools.AddTool 0
       [] [("x", PyInt 2); ("y", PyInt 3)] rt
     = (Returned (PyInt 5), rt')
     /\ heap rt' !! 0%nat = Some {| tool_usage := [record]; attachments := [] |}
     /\ tool_name record = "Add"
     /\ args record = []
     /\ kwargs record = [("x", PyInt 2); ("y", PyInt 3)]
     /\ result record = PyInt 5)
  /\ (exists turn rt' record,
        ChatCompletionAgent.process Examples.add_agent 0 (ConversationData.init [] 10)
          (Scheduler.boot (fun n => Z.of_nat n))
        = (Returned turn, rt')
        /\ ConversationTurn.metadata turn = [("tool_usage", [record])]
        /\ tool_name record = "Add"
        /\ args record = []
        /\ kwargs record = [("x", PyInt 2); ("y", PyInt 3)]
        /\ result record = PyInt 5).
Proof.
  intros rt.
  destruct (new_plugin_func_transparent MathTools.AddTool 0
              [] [("x", PyInt 2); ("y", PyInt 3)] rt 0
              {| tool_usage := []; attachments := [] |} eq_refl eq_refl)
    as (Hadapter & _ & Hprocess).
  split; [exact (Hadapter (PyInt 5) eq_refl)|].
  exact (Hprocess (PyInt 5) Examples.add_agent (ConversationData.init [] 10)
           (Scheduler.boot (fun n => Z.of_nat n)) "5" eq_refl eq_refl eq_refl).
Defined.

(** C6 (the code departs from it). When the completion service raises,
    be it a failure of its own or of a tool callable that it passes on,
    [process] is left at once with that exception: the reset of
    [agent_invoke_context] is not reached, and the context that [process]
    made active is still the active one of the task after the call. *)
Theorem process_failure_leaves_context
    (self : ChatCompletionAgent.t) (task : task_id)
    (conversation_data : ConversationData) (rt rt' : Runtime) (e : exn) :
  ChatCompletionAgent.get_response self task
    (ChatCompletionAgent.chat_history (ConversationData.history conversation_data))
    (snd (Scheduler.process_enter task rt)) = (Raised e, rt') ->
  ChatCompletionAgent.process self task conversation_data rt = (Raised e, rt')
  /\ agent_invoke_context rt' !! task = Some (length (heap rt))
  /\ ContextVar.get task rt' = (Returned (length (heap rt)), rt').
Proof.
  intros Hresp.
  destruct (process_raised self task conversation_data rt rt' e Hresp) as [Hp Hbound].
  repeat split; try assumption.
  unfold ContextVar.get. now rewrite Hbound.
Qed.

(** The failing input: a service that times out, in a fresh interpreter;
    and, for contrast, the same call with a service that replies. *)
Lemma process_failure_leaves_context_witness :
  let failing :=
    ChatCompletionAgent.init "math" "Math" "" "" [("Add", MathTools.AddTool)] []
      (fun _ => Fail (ServiceError "timeout")) in
  let replying :=
    ChatCompletionAgent.init "math" "Math" "" "" [("Add", MathTools.AddTool)] []
      (fun _ => Reply "hello") in
  let rt := Scheduler.boot (fun n => Z.of_nat n) in
  let after := snd (ChatCompletionAgent.process failing 0 (ConversationData.init [] 10) rt) in
  fst (ChatCompletionAgent.process failing 0 (ConversationData.init [] 10) rt)
  = Raised (ServiceError "timeout")
  /\ agent_invoke_context rt !! 0%nat = None
  /\ agent_invoke_context after !! 0%nat = Some 0%nat
  /\ ContextVar.get 0 after = (Returned 0%nat, after)
  /\ agent_invoke_context
       (snd (ChatCompletionAgent.process replying 0 (ConversationData.init [] 10) rt))
     !! 0%nat = None.
Proof.
  intros failing replying rt after.
  destruct (process_failure_leaves_context failing 0 (ConversationData.init [] 10)
              rt after (ServiceError "timeout") eq_refl) as (Hp & Hbound & Hget).
  split; [now rewrite Hp|].
  split; [reflexivity|].
  split; [exact Hbound|].
  split; [exact Hget|].
  reflexivity.
Defined.

(** C7 (the code departs from it). The duration stored in the record is
    the [microseconds] field of the elapsed [timedelta], that is the elapsed
    time modulo one second: it lies in [0, 1000000) whatever the clock did,
    and it is the elapsed time only when the call took less than a second. *)
Theorem new_plugin_func_duration
    (tool : Tool) (task : task_id)
    (positional : list pyvalue) (keywords : list (string * pyvalue))
    (rt : Runtime) (ctx : loc) (d : InvokeContext) (resp : pyvalue) :
  agent_invoke_context rt !! task = Some ctx ->
  heap rt !! ctx = Some d ->
  Tool.call (Tool.function tool) positional keywords = Returned resp ->
  exists record,
    tool_usage <$>
      heap (snd (ChatCompletionAgent.new_plugin_func tool task positional keywords rt))
      !! ctx
    = Some (tool_usage d ++ [record])
    /\ start_time record = clock rt (ticks rt)
    /\ duration record
       = ((clock rt (S (ticks rt)) - clock rt (ticks rt)) mod 1000000)%Z
    /\ (0 <= duration record < 1000000)%Z
    /\ total_microseconds (datetime_sub (clock rt (S (ticks rt))) (clock rt (ticks rt)))
       = (clock rt (S (ticks rt)) - clock rt (ticks rt))%Z
    /\ (duration record = clock rt (S (ticks rt)) - clock rt (ticks rt)
        <-> 0 <= clock rt (S (ticks rt)) - clock rt (ticks rt) < 1000000)%Z.
Proof.
  intros Hctx Hd Hcall.
  rewrite new_plugin_func_split.
  assert (Hbound : agent_invoke_context (set_ticks (S (ticks rt)) rt) !! task = Some ctx)
    by exact Hctx.
  rewrite (new_plugin_func_resume_returned tool task positional keywords
             _ _ ctx resp Hbound Hcall).
  eexists. split.
  { simpl. rewrite list_lookup_alter_eq, Hd. reflexivity. }
  simpl. set (elapsed := (clock rt (S (ticks rt)) - clock rt (ticks rt))%Z).
  split; [reflexivity|]. split; [reflexivity|].
  split; [apply Z.mod_pos_bound; lia|].
  split.
  - apply datetime_sub_total.
  - split; intros H.
    + rewrite <- H. apply Z.mod_pos_bound. lia.
    + apply Z.mod_small. exact H.
Qed.

(** The failing input: a call that takes a second and a half is recorded
    with a duration of half a second. *)
Lemma new_plugin_func_duration_witness :
  let rt := {| heap := [{| tool_usage := []; attachments := [] |}];
               agent_invoke_context := {[ 0%nat := 0%nat ]};
               clock := fun n => (Z.of_nat n * 1500000)%Z; ticks := 0 |} in
  exists record,
    tool_usage <$>
      heap (snd (ChatCompletionAgent.new_plugin_func MathTools.AddTool 0
                   [PyInt 2; PyInt 3] [] rt)) !! 0%nat
    = Some [record]
    /\ start_time record = 0%Z
    /\ duration record = 500000%Z
    /\ total_microseconds (datetime_sub 1500000%Z 0%Z) = 1500000%Z.
Proof.
  intros rt.
  destruct (new_plugin_func_duration MathTools.AddTool 0 [PyInt 2; PyInt 3] [] rt 0
              {| tool_usage := []; attachments := [] |} (PyInt 5)
              eq_refl eq_refl eq_refl)
    as (record & Hlog & Hstart & Hduration & _ & Htotal & _).
  exists record. split; [exact Hlog|].
  split; [exact Hstart|]. split; [exact Hduration|]. exact Htotal.
Defined.

(** ** Several calls in flight: what one task sees *)

Section ViewFacts.

Import ChatCompletionAgent Scheduler.

Variable task : task_id.

Lemma view_bound (rt : Runtime) (ctx : loc) :
  agent_invoke_context rt !! task = Some ctx ->
  view task rt
  = Some ((fun d => (map call_of (tool_usage d), attachments d)) <$> heap rt !! ctx).
Proof. intros H. unfold view. now rewrite H. Qed.

Lemma view_unbound (rt : Runtime) :
  agent_invoke_context rt !! task = None -> view task rt = None.
Proof. intros H. unfold view. now rewrite H. Qed.

(** Two runtimes that look the same to the task give the adapter the same
    outcome and look the same afterwards, whatever the clocks say. *)
Lemma new_plugin_func_resume_view
    (tool : Tool) (positional : list pyvalue) (keywords : list (string * pyvalue))
    (start1 start2 : datetime) (rt1 rt2 : Runtime) :
  view task rt1 = view task rt2 ->
  fst (new_plugin_func_resume tool task positional keywords start1 rt1)
  = fst (new_plugin_func_resume tool task positional keywords start2 rt2)
  /\ view task (snd (new_plugin_func_resume tool task positional keywords start1 rt1))
     = view task (snd (new_plugin_func_resume tool task positional keywords start2 rt2)).
Proof.
  intros Hview.
  destruct (Tool.call (Tool.function tool) positional keywords) as [resp|e] eqn:Hcall.
  2: { rewrite !(new_plugin_func_resume_raised tool task positional keywords _ _ e Hcall).
       auto. }
  destruct (agent_invoke_context rt1 !! task) as [c1|] eqn:H1;
    destruct (agent_invoke_context rt2 !! task) as [c2|] eqn:H2.
  - rewrite (new_plugin_func_resume_returned tool task positional keywords
               start1 rt1 c1 resp H1 Hcall),
            (new_plugin_func_resume_returned tool task positional keywords
               start2 rt2 c2 resp H2 Hcall).
    split; [reflexivity|]. simpl.
    rewrite (view_bound rt1 c1 H1), (view_bound rt2 c2 H2) in Hview.
    injection Hview as Hview.
    unfold view; simpl. rewrite H1, H2; simpl. f_equal.
    rewrite !list_lookup_alter_eq.
    destruct (heap rt1 !! c1) as [d1|], (heap rt2 !! c2) as [d2|];
      try discriminate Hview; [|reflexivity].
    simpl in *. injection Hview as Hcalls Hfound.
    now rewrite !map_app, Hcalls, Hfound.
  - rewrite (view_bound rt1 c1 H1), (view_unbound rt2 H2) in Hview. discriminate.
  - rewrite (view_unbound rt1 H1), (view_bound rt2 c2 H2) in Hview. discriminate.
  - rewrite (new_plugin_func_resume_unbound tool task positional keywords
               start1 rt1 resp H1 Hcall),
            (new_plugin_func_resume_unbound tool task positional keywords
               start2 rt2 resp H2 Hcall).
    split; [reflexivity|]. exact Hview.
Qed.

(** The same for a whole run of the service, which then also takes the
    same number of stretches. *)
Lemma complete_view (functions : list (string * Tool)) (c : Completion) :
  forall rt1 rt2,
    view task rt1 = view task rt2 ->
    fst (complete functions task c rt1) = fst (complete functions task c rt2)
    /\ view task (snd (complete functions task c rt1))
       = view task (snd (complete functions task c rt2))
    /\ stretches functions task c rt1 = stretches functions task c rt2.
Proof.
  induction c as [content | e | function_name positional keywords k IH];
    intros rt1 rt2 Hview; simpl; auto.
  destruct (plugin_get function_name functions) as [tool|].
  2: { destruct (IH (Raised (ServiceError "function not found")) rt1 rt2 Hview)
         as (? & ? & ?). auto. }
  rewrite !new_plugin_func_split.
  destruct (new_plugin_func_resume_view tool positional keywords
              (clock rt1 (ticks rt1)) (clock rt2 (ticks rt2))
              (set_ticks (S (ticks rt1)) rt1) (set_ticks (S (ticks rt2)) rt2) Hview)
    as [Ho Hv].
  destruct (new_plugin_func_resume tool task positional keywords _ (set_ticks _ rt1))
    as [o1 rt1'].
  destruct (new_plugin_func_resume tool task positional keywords _ (set_ticks _ rt2))
    as [o2 rt2'].
  simpl in Ho, Hv. subst o2.
  destruct (IH o1 rt1' rt2' Hv) as (? & ? & ?). auto.
Qed.

(** The exit of [process] builds the same turn, time stamps apart. *)
Lemma process_finish_view (token1 token2 : option loc) (response : string)
    (rt1 rt2 : Runtime) :
  view task rt1 = view task rt2 ->
  observe (fst (process_finish task token1 response rt1))
  = observe (fst (process_finish task token2 response rt2)).
Proof.
  intros Hview.
  destruct (agent_invoke_context rt1 !! task) as [c1|] eqn:H1;
    destruct (agent_invoke_context rt2 !! task) as [c2|] eqn:H2.
  - rewrite (process_finish_bound task token1 response rt1 c1 H1),
            (process_finish_bound task token2 response rt2 c2 H2).
    rewrite (view_bound rt1 c1 H1), (view_bound rt2 c2 H2) in Hview.
    injection Hview as Hview.
    simpl. unfold observe_turn; simpl.
    destruct (heap rt1 !! c1) as [d1|], (heap rt2 !! c2) as [d2|];
      try discriminate Hview; [|reflexivity].
    simpl in *. injection Hview as Hcalls Hfound.
    now rewrite Hcalls, Hfound.
  - rewrite (view_bound rt1 c1 H1), (view_unbound rt2 H2) in Hview. discriminate.
  - rewrite (view_unbound rt1 H1), (view_bound rt2 c2 H2) in Hview. discriminate.
  - now rewrite (process_finish_unbound task token1 response rt1 H1),
                (process_finish_unbound task token2 response rt2 H2).
Qed.

Lemma service_then_finish_view (functions : list (string * Tool)) (c : Completion)
    (token1 token2 : option loc) (rt1 rt2 : Runtime) :
  view task rt1 = view task rt2 ->
  observe (fst ((response <~ complete functions task c ;;
                 process_finish task token1 response) rt1))
  = observe (fst ((response <~ complete functions task c ;;
                   process_finish task token2 response) rt2)).
Proof.
  intros Hview. unfold bind.
  destruct (complete_view functions c rt1 rt2 Hview) as (Ho & Hv & _).
  destruct (complete functions task c rt1) as [o1 rt1'].
  destruct (complete functions task c rt2) as [o2 rt2'].
  simpl in Ho, Hv. subst o2.
  destruct o1 as [response|e]; [|reflexivity].
  now apply process_finish_view.
Qed.

(** On entry [process] gives the task a context of its own, empty, whatever
    the runtime was. *)
Lemma process_enter_view (rt : Runtime) :
  view task (snd (process_enter task rt)) = Some (Some ([], [])).
Proof.
  rewrite process_enter_run. unfold view; simpl.
  rewrite lookup_insert_eq; simpl.
  now rewrite list_lookup_middle.
Qed.

(** The rest of a call depends on the runtime only through what the task
    sees of it; a call that has not started does not depend on it at all. *)
Lemma finish_alone_view (st : TaskState) (rt1 rt2 : Runtime) :
  is_Created st = true \/ view task rt1 = view task rt2 ->
  observe (fst (finish_alone task st rt1)) = observe (fst (finish_alone task st rt2))
  /\ stretches_left task st rt1 = stretches_left task st rt2.
Proof.
  intros Hview.
  destruct st as [self conversation_data | self token c
                 | self token tool positional keywords start k | r]; simpl.
  - assert (Hin : view task (snd (process_enter task rt1))
                  = view task (snd (process_enter task rt2)))
      by now rewrite !process_enter_view.
    split.
    + rewrite !process_run.
      apply (service_then_finish_view (_kernel self) _ _ _ _ _ Hin).
    + f_equal. now apply complete_view.
  - destruct Hview as [[=]|Hview].
    split; [now apply service_then_finish_view | now apply complete_view].
  - destruct Hview as [[=]|Hview].
    destruct (new_plugin_func_resume_view tool positional keywords start start
                rt1 rt2 Hview) as [Ho Hv].
    destruct (new_plugin_func_resume tool task positional keywords start rt1)
      as [o1 rt1'].
    destruct (new_plugin_func_resume tool task positional keywords start rt2)
      as [o2 rt2'].
    simpl in Ho, Hv. subst o2.
    split; [now apply service_then_finish_view | f_equal; now apply complete_view].
  - auto.
Qed.

End ViewFacts.

(** ** Several calls in flight: one stretch of a task *)

Section StretchFacts.

Import ChatCompletionAgent Scheduler.

Lemma stretches_positive (functions : list (string * Tool)) (task : task_id)
    (c : Completion) (rt : Runtime) :
  0 < stretches functions task c rt.
Proof.
  destruct c as [content | e | function_name positional keywords k]; simpl; try lia.
  destruct (plugin_get function_name functions) as [tool|]; [|lia].
  destruct (new_plugin_func tool task positional keywords rt).
  destruct (Tool.iscoroutinefunction (Tool.function tool)); lia.
Qed.

(** A call that needs no further stretch has returned or raised. *)
Lemma stretches_left_zero (task : task_id) (st : TaskState) (rt : Runtime) :
  stretches_left task st rt = 0 -> exists r, st = Done r.
Proof.
  destruct st as [self conversation_data | self token c
                 | self token tool positional keywords start k | r]; simpl.
  - discriminate.
  - pose proof (stretches_positive (_kernel self) task c rt). lia.
  - destruct (new_plugin_func_resume tool task positional keywords start rt).
    discriminate.
  - eauto.
Qed.

(** A stretch of the task itself is a piece of the call run alone: what
    remains gives the same result, in one stretch less. *)
Lemma step_task_alone (task : task_id) (st : TaskState) (rt : Runtime) :
  fst (finish_alone task (step_task task st rt).1 (step_task task st rt).2)
  = fst (finish_alone task st rt)
  /\ stretches_left task (step_task task st rt).1 (step_task task st rt).2
     = pred (stretches_left task st rt).
Proof.
  destruct st as [self conversation_data | self token c
                 | self token tool positional keywords start k | r]; simpl.
  - rewrite process_run. split; reflexivity.
  - destruct c as [content | e | function_name positional keywords k]; simpl.
    + unfold bind, ret.
      destruct (process_finish task token content rt) as [r rt']. auto.
    + auto.
    + unfold bind; simpl.
      destruct (plugin_get function_name (_kernel self)) as [tool|]; [|auto].
      rewrite new_plugin_func_split.
      destruct (Tool.iscoroutinefunction (Tool.function tool)); simpl;
        destruct (new_plugin_func_resume tool task positional keywords
                    (clock rt (ticks rt)) (set_ticks (S (ticks rt)) rt)) as [o rt'];
        auto.
  - unfold bind.
    destruct (new_plugin_func_resume tool task positional keywords start rt)
      as [o rt'].
    auto.
  - auto.
Qed.

(** What a stretch of the task [u] does to the runtime: it rebinds no other
    task, removes no dict, writes to no dict that existed and was not bound
    to [u], and binds [u], if at all, to what it was bound to or to a dict
    created in this stretch. *)
Lemma step_task_frame (u : task_id) (st : TaskState) (rt : Runtime) :
  token_of st = None ->
  (is_Created st = true -> agent_invoke_context rt !! u = None) ->
  let st' := (step_task u st rt).1 in
  let rt' := (step_task u st rt).2 in
  (forall t, t <> u -> agent_invoke_context rt' !! t = agent_invoke_context rt !! t)
  /\ length (heap rt) <= length (heap rt')
  /\ (forall l, l < length (heap rt) -> agent_invoke_context rt !! u <> Some l ->
                heap rt' !! l = heap rt !! l)
  /\ (forall ctx, agent_invoke_context rt' !! u = Some ctx ->
                  agent_invoke_context rt !! u = Some ctx
                  \/ length (heap rt) <= ctx < length (heap rt'))
  /\ token_of st' = None
  /\ is_Created st' = false.
Proof.
  intros Htoken Hcreated.
  destruct st as [self conversation_data | self token c
                 | self token tool positional keywords start k | r];
    simpl in Htoken; subst; simpl.
  - (* process starts *)
    repeat split.
    + intros t Ht. now rewrite lookup_insert_ne.
    + rewrite length_app. lia.
    + intros l Hl _. now rewrite lookup_app_l.
    + intros ctx. rewrite lookup_insert_eq. intros [= <-].
      right. rewrite length_app. simpl. lia.
    + now apply Hcreated.
  - destruct c as [content | e | function_name positional keywords k]; simpl.
    + (* process ends *)
      destruct (agent_invoke_context rt !! u) as [ctx|] eqn:Hctx.
      * rewrite (process_finish_bound u None content rt ctx Hctx); simpl.
        repeat split; auto with arith.
        -- intros t Ht. now rewrite lookup_delete_ne.
        -- intros ctx'. now rewrite lookup_delete_eq.
      * rewrite (process_finish_unbound u None content rt Hctx); simpl.
        repeat split; auto with arith. intros ctx Hc. congruence.
    + repeat split; auto with arith.
    + destruct (plugin_get function_name (_kernel self)) as [tool|];
        [|repeat split; auto with arith].
      destruct (Tool.iscoroutinefunction (Tool.function tool)); simpl;
        [repeat split; auto with arith|].
      pose proof (new_plugin_func_frame tool u positional keywords rt) as Hf.
      destruct (new_plugin_func tool u positional keywords rt) as [o rt'].
      simpl in Hf |- *. destruct Hf as (Hvar & Hlen & _ & Hheap).
      rewrite Hvar, Hlen. repeat split; auto with arith.
  - pose proof (new_plugin_func_resume_frame tool u positional keywords start rt) as Hf.
    destruct (new_plugin_func_resume tool u positional keywords start rt) as [o rt'].
    simpl in Hf |- *. destruct Hf as (Hvar & Hlen & _ & Hheap).
    rewrite Hvar, Hlen. repeat split; auto with arith.
  - repeat split; auto with arith.
Qed.

End StretchFacts.

(** ** Several calls in flight: the event loop *)

Section EventLoopFacts.

Import ChatCompletionAgent Scheduler.

Lemma launch_consistent (clock : nat -> datetime)
    (calls : gmap task_id (ChatCompletionAgent.t * ConversationData)) :
  consistent (launch clock calls).
Proof.
  split; simpl.
  - intros t ctx. now rewrite lookup_empty.
  - intros t t' ctx. now rewrite lookup_empty.
  - intros t st _ _. apply lookup_empty.
  - intros t st. rewrite lookup_fmap.
    destruct (calls !! t); simpl; [|discriminate]. now intros [= <-].
Qed.

(** A stretch of any task keeps the interpreter consistent. *)
Lemma step_consistent (m : Machine) (u : task_id) :
  consistent m -> consistent (step m u).
Proof.
  intros Hm. unfold step.
  destruct (tasks m !! u) as [st|] eqn:Hst; [|exact Hm].
  pose proof (step_task_frame u st (runtime m)
                (tokens_unset m Hm u st Hst) (created_unbound m Hm u st Hst))
    as (F1 & F2 & F3 & F4 & F5 & F6).
  destruct (step_task u st (runtime m)) as [st' rt']. simpl in *.
  split; simpl.
  - intros t ctx Hb. destruct (decide (t = u)) as [->|Hne].
    + destruct (F4 ctx Hb) as [Hold|Hfresh]; [|lia].
      pose proof (bound_allocated m Hm u ctx Hold). lia.
    + rewrite F1 in Hb by exact Hne.
      pose proof (bound_allocated m Hm t ctx Hb). lia.
  - intros t t' ctx Hb Hb'.
    destruct (decide (t = u)) as [->|Hne], (decide (t' = u)) as [->|Hne'].
    + reflexivity.
    + rewrite F1 in Hb' by exact Hne'.
      pose proof (bound_allocated m Hm t' ctx Hb').
      destruct (F4 ctx Hb) as [Hold|Hfresh]; [|lia].
      exact (bound_apart m Hm u t' ctx Hold Hb').
    + rewrite F1 in Hb by exact Hne.
      pose proof (bound_allocated m Hm t ctx Hb).
      destruct (F4 ctx Hb') as [Hold|Hfresh]; [|lia].
      exact (bound_apart m Hm t u ctx Hb Hold).
    + rewrite F1 in Hb by exact Hne. rewrite F1 in Hb' by exact Hne'.
      exact (bound_apart m Hm t t' ctx Hb Hb').
  - intros t st0 Ht Hc. destruct (decide (t = u)) as [->|Hne].
    + rewrite lookup_insert_eq in Ht. injection Ht as <-. congruence.
    + rewrite lookup_insert_ne in Ht by congruence.
      rewrite F1 by exact Hne. exact (created_unbound m Hm t st0 Ht Hc).
  - intros t st0 Ht. destruct (decide (t = u)) as [->|Hne].
    + rewrite lookup_insert_eq in Ht. injection Ht as <-. exact F5.
    + rewrite lookup_insert_ne in Ht by congruence.
      exact (tokens_unset m Hm t st0 Ht).
Qed.

(** A stretch of another task changes nothing of what a task sees, nor
    where its call stands. *)
Lemma step_other (m : Machine) (u task : task_id) :
  consistent m -> u <> task ->
  view task (runtime (step m u)) = view task (runtime m)
  /\ tasks (step m u) !! task = tasks m !! task.
Proof.
  intros Hm Hne. unfold step.
  destruct (tasks m !! u) as [st|] eqn:Hst; [|auto].
  pose proof (step_task_frame u st (runtime m)
                (tokens_unset m Hm u st Hst) (created_unbound m Hm u st Hst))
    as (F1 & _ & F3 & _).
  destruct (step_task u st (runtime m)) as [st' rt']. simpl in *.
  split; [|now rewrite lookup_insert_ne].
  unfold view. rewrite F1 by congruence.
  destruct (agent_invoke_context (runtime m) !! task) as [ctx|] eqn:Hctx;
    [|reflexivity].
  simpl. rewrite F3; [reflexivity | exact (bound_allocated m Hm task ctx Hctx) |].
  intros Hu. apply Hne. exact (bound_apart m Hm u task ctx Hu Hctx).
Qed.

Lemma step_own (m : Machine) (task : task_id) (st : TaskState) :
  tasks m !! task = Some st ->
  tasks (step m task) !! task = Some (step_task task st (runtime m)).1
  /\ runtime (step m task) = (step_task task st (runtime m)).2.
Proof.
  intros Hst. unfold step. rewrite Hst.
  destruct (step_task task st (runtime m)) as [st' rt']. simpl.
  now rewrite lookup_insert_eq.
Qed.

(** However the event loop interleaves the tasks, the call of [task]
    stays on the course it would take alone, and has used one of its
    stretches each time [task] was scheduled. *)
Lemma run_tracks (task : task_id) (schedule : list task_id) :
  forall m st,
    consistent m ->
    tasks m !! task = Some st ->
    exists st',
      tasks (run schedule m) !! task = Some st'
      /\ observe (fst (finish_alone task st' (runtime (run schedule m))))
         = observe (fst (finish_alone task st (runtime m)))
      /\ stretches_left task st' (runtime (run schedule m))
         = stretches_left task st (runtime m) - count_occ Nat.eq_dec schedule task.
Proof.
  induction schedule as [|u schedule IH]; intros m st Hm Hst; simpl.
  - exists st. repeat split; auto. lia.
  - destruct (Nat.eq_dec u task) as [->|Hne].
    + destruct (step_own m task st Hst) as [Hst1 Hrt1].
      destruct (step_task_alone task st (runtime m)) as [Hsame Hless].
      destruct (IH (step m task) _ (step_consistent m task Hm) Hst1)
        as (st' & Hst' & Hobs & Hleft).
      exists st'. split; [exact Hst'|].
      rewrite Hobs, Hleft, Hrt1, Hsame, Hless. split; [reflexivity | lia].
    + destruct (step_other m u task Hm Hne) as [Hview Htask].
      rewrite Hst in Htask.
      destruct (IH (step m u) st (step_consistent m u Hm) Htask)
        as (st' & Hst' & Hobs & Hleft).
      destruct (finish_alone_view task st (runtime (step m u)) (runtime m)
                  (or_intror Hview)) as [Hobs1 Hleft1].
      exists st'. split; [exact Hst'|].
      rewrite Hobs, Hleft, Hobs1, Hleft1. split; reflexivity.
Qed.

End EventLoopFacts.

(** C5. Any number of [process] calls, each in a task of its own, under
    any interleaving the event loop may choose: the turn a call returns
    carries, time stamps apart, exactly the tool-usage records and the
    attachments of the turn the same call returns when it runs alone in a
    fresh interpreter, so nothing another call logged or harvested shows up
    in it.  And the call does return (or raise) once its task has been
    scheduled as often as the call takes stretches. *)
Theorem process_calls_isolated
    (clock : nat -> datetime)
    (calls : gmap task_id (ChatCompletionAgent.t * ConversationData))
    (schedule : list task_id)
    (task : task_id) (self : ChatCompletionAgent.t)
    (conversation_data : ConversationData) :
  calls !! task = Some (self, conversation_data) ->
  (forall r,
      Scheduler.tasks (Scheduler.run schedule (Scheduler.launch clock calls)) !! task
      = Some (Scheduler.Done r) ->
      forall clock',
        Scheduler.observe r
        = Scheduler.observe
            (fst (ChatCompletionAgent.process self task conversation_data
                    (Scheduler.boot clock'))))
  /\ (Scheduler.stretches_left task (Scheduler.Created self conversation_data)
        (Scheduler.boot clock)
      <= count_occ Nat.eq_dec schedule task ->
      exists r,
        Scheduler.tasks (Scheduler.run schedule (Scheduler.launch clock calls)) !! task
        = Some (Scheduler.Done r)).
Proof.
  intros Hcall.
  assert (Hst : Scheduler.tasks (Scheduler.launch clock calls) !! task
                = Some (Scheduler.Created self conversation_data))
    by (simpl; now rewrite lookup_fmap, Hcall).
  destruct (run_tracks task schedule _ _ (launch_consistent clock calls) Hst)
    as (st' & Hst' & Hobs & Hleft).
  split.
  - intros r Hr clock'. rewrite Hst' in Hr. injection Hr as ->.
    simpl in Hobs. rewrite Hobs.
    apply (finish_alone_view task (Scheduler.Created self conversation_data)).
    now left.
  - intros Hoften.
    destruct (stretches_left_zero task st'
                (Scheduler.runtime (Scheduler.run schedule (Scheduler.launch clock calls))))
      as [r ->].
    + rewrite Hleft. simpl Scheduler.runtime. lia.
    + eauto.
Qed.

(** Two calls on one agent, interleaved: the first asks about "alpha",
    the second about "beta"; the turn of the first carries the record and the
    citation on "alpha" and nothing on "beta". *)
Lemma process_calls_isolated_witness :
  let calls : gmap task_id (ChatCompletionAgent.t * ConversationData) :=
    {[ 1%nat := (Examples.cite_agent, Examples.asks "alpha");
       2%nat := (Examples.cite_agent, Examples.asks "beta") ]} in
  let schedule := [1; 2; 2; 1; 2; 1; 1; 2]%nat in
  let clock := fun n => (Z.of_nat n * 700000)%Z in
  exists r,
    Scheduler.tasks (Scheduler.run schedule (Scheduler.launch clock calls)) !! 1%nat
    = Some (Scheduler.Done r)
    /\ Scheduler.observe r
       = Returned
           {| Scheduler.seen_role := "assistant";
              Scheduler.seen_content := "About alpha";
              Scheduler.seen_metadata :=
                [("tool_usage",
                  [{| Scheduler.call_tool := "Cite";
                      Scheduler.call_args := [PyStr "alpha"];
                      Scheduler.call_kwargs := [];
                      Scheduler.call_result :=
                        PyList [Citation "alpha" "https://example.org/alpha" "" []] |}])];
              Scheduler.seen_attachments :=
                [Citation "alpha" "https://example.org/alpha" "" []] |}.
Proof.
  intros calls schedule clock.
  destruct (process_calls_isolated clock calls schedule 1
              Examples.cite_agent (Examples.asks "alpha") eq_refl)
    as [Halone Hreturns].
  destruct (Hreturns (le_n 4)) as [r Hr].
  exists r. split; [exact Hr|].
  rewrite (Halone r Hr clock). reflexivity.
Defined.

(** * Further properties of the package *)

(** ** The bounded history, over many turns *)

Section HistoryWindow.

Import ConversationData.

Lemma add_turn_max_turns (self : ConversationData) (turn : ConversationTurn) :
  max_turns (add_turn self turn) = max_turns self.
Proof. reflexivity. Qed.

Lemma fold_add_turn_window (turns : list ConversationTurn) :
  forall self,
    (Z.of_nat (length (history self)) < max_turns self)%Z ->
    history (fold_left add_turn turns self)
    = skipn (length (history self ++ turns) - (Z.to_nat (max_turns self) - 1))
            (history self ++ turns).
Proof.
  induction turns as [|turn turns IH]; intros self Hlt.
  - simpl. rewrite app_nil_r.
    replace (length (history self) - (Z.to_nat (max_turns self) - 1)) with 0 by lia.
    reflexivity.
  - simpl fold_left.
    rewrite (IH (add_turn self turn) (add_turn_below_bound self turn Hlt)).
    rewrite add_turn_max_turns, add_turn_history.
    destruct (_ >=? _)%Z eqn:Hge.
    + rewrite Z.geb_leb in Hge. apply Z.leb_le in Hge.
      assert (Hfull : length (history self) = Z.to_nat (max_turns self) - 1) by lia.
      destruct (history self) as [|oldest rest] eqn:Hh; simpl in *.
      * replace (Z.to_nat (max_turns self) - 1) with 0 by lia.
        rewrite !Nat.sub_0_r. reflexivity.
      * rewrite <- app_assoc. simpl.
        rewrite !length_app. simpl.
        replace (S (length rest + S (length turns)) - (Z.to_nat (max_turns self) - 1))
          with (S (length rest + S (length turns) - (Z.to_nat (max_turns self) - 1)))
          by lia.
        reflexivity.
    + rewrite <- app_assoc. reflexivity.
Qed.

End HistoryWindow.

(** X1. Starting from a history shorter than [max_turns], after any number
    of [add_turn] calls the history is the last [max_turns - 1] turns of the
    old history followed by the added turns (all of them when there are no
    more than that): the window slides over the turns in order and its size is
    one less than [max_turns]. *)
Theorem add_turn_sliding_window (self : ConversationData) (turns : list ConversationTurn) :
  (Z.of_nat (length (ConversationData.history self)) < ConversationData.max_turns self)%Z ->
  ConversationData.history (fold_left ConversationData.add_turn turns self)
  = skipn (length (ConversationData.history self ++ turns)
           - (Z.to_nat (ConversationData.max_turns self) - 1))
          (ConversationData.history self ++ turns)
  /\ length (ConversationData.history (fold_left ConversationData.add_turn turns self))
     = Nat.min (length (ConversationData.history self ++ turns))
               (Z.to_nat (ConversationData.max_turns self) - 1).
Proof.
  intros Hlt. rewrite (fold_add_turn_window turns self Hlt).
  split; [reflexivity|]. rewrite length_skipn. lia.
Qed.

(** Twelve turns into the default conversation: the last nine are kept. *)
Lemma add_turn_sliding_window_witness :
  let turn := fun n => {| ConversationTurn.role := "user";
                          ConversationTurn.content := "";
                          ConversationTurn.created_at := Z.of_nat n;
                          ConversationTurn.metadata := [];
                          ConversationTurn.attachments := [] |} in
  ConversationData.history
    (fold_left ConversationData.add_turn (map turn (seq 1 12))
               (ConversationData.init [] 10))
  = map turn (seq 4 9).
Proof.
  intros turn.
  destruct (add_turn_sliding_window (ConversationData.init [] 10)
              (map turn (seq 1 12)) eq_refl) as [Hwindow _].
  exact Hwindow.
Defined.

(** X2. The turn just added is the last of the history, except in one
    case: on an empty history with [max_turns <= 1] the eviction takes the new
    turn itself and the history stays empty. *)
Theorem add_turn_newest_last (self : ConversationData) (turn : ConversationTurn) :
  (ConversationData.history self = [] /\ (ConversationData.max_turns self <= 1)%Z ->
   ConversationData.history (ConversationData.add_turn self turn) = [])
  /\ (ConversationData.history self <> [] \/ (1 < ConversationData.max_turns self)%Z ->
      last (ConversationData.history (ConversationData.add_turn self turn)) = Some turn)
  /\ (exists dropped,
        ConversationData.history self ++ [turn]
        = dropped ++ ConversationData.history (ConversationData.add_turn self turn)
        /\ length dropped <= 1).
Proof.
  rewrite add_turn_history.
  destruct (ConversationData.history self) as [|oldest rest] eqn:Hh; simpl.
  - split; [|split].
    + intros [_ Hmax]. destruct (_ >=? _)%Z eqn:Hge; [reflexivity|].
      rewrite Z.geb_leb in Hge. apply Z.leb_gt in Hge. lia.
    + intros [Hne|Hmax]; [congruence|].
      destruct (_ >=? _)%Z eqn:Hge; [|reflexivity].
      rewrite Z.geb_leb in Hge. apply Z.leb_le in Hge. lia.
    + destruct (_ >=? _)%Z.
      * exists [turn]. split; [reflexivity | simpl; lia].
      * exists []. split; [reflexivity | simpl; lia].
  - split; [|split].
    + intros [[=] _].
    + intros _. destruct (_ >=? _)%Z; simpl.
      * apply last_snoc.
      * rewrite app_comm_cons. apply last_snoc.
    + destruct (_ >=? _)%Z.
      * exists [oldest]. split; [reflexivity | simpl; lia].
      * exists []. split; [reflexivity | simpl; lia].
Qed.

(** ** The harvester on composite values *)

Section HarvestComposite.

Lemma harvest_of_attachments (found : list pyvalue) :
  Forall is_attachment found -> flat_map harvest found = found.
Proof.
  induction 1 as [|a found Ha _ IH]; simpl; [reflexivity|].
  rewrite IH. destruct a; try discriminate Ha; reflexivity.
Qed.

Lemma extract_attachments_is_harvest (value : pyvalue) :
  extract_attachments value = harvest value.
Proof. unfold extract_attachments. now rewrite _collect_harvest. Qed.

End HarvestComposite.

(** X3. The harvest is flat: harvesting the list that [extract_attachments]
    returned gives that list again, whether it is handed on as a list or as a
    tuple. *)
Theorem extract_attachments_flat (value : pyvalue) :
  extract_attachments (PyList (extract_attachments value)) = extract_attachments value
  /\ extract_attachments (PyTuple (extract_attachments value)) = extract_attachments value.
Proof.
  rewrite !extract_attachments_is_harvest. simpl.
  rewrite harvest_of_attachments by apply harvest_attachments. auto.
Qed.

(** X4. How the harvest of a container is made of the harvests of its
    parts: a list is harvested item by item, so the harvest of a concatenation
    is the concatenation of the harvests; lists, tuples and sets with the same
    items give the same harvest; a dict gives the harvest of the list of its
    values, whatever its keys.  And the harvester looks into nothing else: an
    object of another class yields nothing even when its attributes hold
    attachments, and a citation yields only itself whatever its metadata
    holds. *)
Theorem extract_attachments_composite :
  (forall items items',
      extract_attachments (PyList (items ++ items'))
      = extract_attachments (PyList items) ++ extract_attachments (PyList items'))
  /\ (forall item items,
      extract_attachments (PyList (item :: items))
      = extract_attachments item ++ extract_attachments (PyList items))
  /\ (forall items,
      extract_attachments (PyTuple items) = extract_attachments (PyList items)
      /\ extract_attachments (PySet items) = extract_attachments (PyList items))
  /\ (forall items,
      extract_attachments (PyDict items) = extract_attachments (PyList (map snd items)))
  /\ (forall cls attrs, extract_attachments (PyObject cls attrs) = [])
  /\ (forall title url content metadata,
      extract_attachments (Citation title url content metadata)
      = [Citation title url content metadata]).
Proof.
  repeat split; intros; rewrite ?extract_attachments_is_harvest; simpl;
    try reflexivity.
  - apply flat_map_app.
  - now rewrite !flat_map_concat_map, List.map_map.
Qed.

(** ** The renderer, element by element *)

(** X5. A media element never fails and never shows an empty label: the
    media's own label when it has a non-empty one, the placeholder
    "Media Attachment" when the label is missing or is the empty string. *)
Theorem get_media_element_label (content mime_type : string) (label : option string) :
  exists shown,
    get_media_element (Media content mime_type label)
    = Returned (pydict [("type", PyStr "Media");
                        ("sources", PyList [pydict [("mimeType", PyStr mime_type);
                                                    ("url", PyStr content);
                                                    ("label", PyStr shown)]])])
    /\ shown <> ""
    /\ (forall s, label = Some s -> s <> "" -> shown = s)
    /\ (label = None \/ label = Some "" -> shown = "Media Attachment").
Proof.
  destruct label as [[|a s]|].
  - exists "Media Attachment". repeat split; auto; try discriminate.
    intros s [= <-] Hs. congruence.
  - exists (String a s). repeat split; auto; try discriminate.
    + intros s' [= <-] _. reflexivity.
    + intros [[=]|[=]].
  - exists "Media Attachment". repeat split; auto; discriminate.
Qed.

(** X6. A citation element shows the title as a link to the url and the
    metadata as JSON.  It raises exactly when the metadata is not empty and
    [json.dumps] raises on it, with that exception; empty metadata is shown as
    an empty snippet without consulting [json.dumps]; and the citation's
    [content] is never shown: two citations that differ only there give the
    same element. *)
Theorem get_citations_element_cases
    (json_dumps : pyvalue -> outcome string)
    (title url content : string) (metadata : list (string * pyvalue)) :
  get_citations_element json_dumps (Citation title url content metadata)
  = match (match metadata with
           | [] => Returned ""
           | _ :: _ => json_dumps (pydict metadata)
           end) with
    | Returned snippet =>
        Returned (pydict [
          ("type", PyStr "Container");
          ("items", PyList [
             pydict [("type", PyStr "TextBlock");
                     ("text", PyStr ("[" ++ title ++ "](" ++ url ++ ")"));
                     ("wrap", PyBool true);
                     ("size", PyStr "Medium")];
             pydict [("type", PyStr "CodeBlock");
                     ("codeSnippet", PyStr snippet);
                     ("language", PyStr "Json")]])])
    | Raised e => Raised e
    end
  /\ (forall e,
        get_citations_element json_dumps (Citation title url content metadata) = Raised e
        <-> metadata <> [] /\ json_dumps (pydict metadata) = Raised e)
  /\ (forall content',
        get_citations_element json_dumps (Citation title url content' metadata)
        = get_citations_element json_dumps (Citation title url content metadata)).
Proof.
  split; [|split].
  - destruct metadata as [|kv metadata]; simpl; [reflexivity|].
    destruct (json_dumps (pydict (kv :: metadata))); reflexivity.
  - intros e. destruct metadata as [|kv metadata]; simpl.
    + split; [discriminate | intros [Hne _]; congruence].
    + destruct (json_dumps (pydict (kv :: metadata))) as [snippet|e']; simpl.
      * split; [discriminate | intros [_ [=]]].
      * split; [intros [= <-]; split; [discriminate | reflexivity]
               | intros [_ [= <-]]; reflexivity].
  - reflexivity.
Qed.

(** ** The renderer, over the attachment list *)

Section CardFacts.

Variable json_dumps : pyvalue -> outcome string.

(** The loop passes over what is not a citation, media or chart. *)
Lemma collect_elements_filter (attachments : list pyvalue) :
  forall citations media charts,
    collect_elements json_dumps (List.filter attachment_kind attachments)
                     citations media charts
    = collect_elements json_dumps attachments citations media charts.
Proof.
  induction attachments as [|a rest IH]; intros citations media charts;
    [reflexivity|].
  destruct a; simpl; try apply IH.
  - destruct (truthy metadata); simpl; [|apply IH].
    match goal with |- context [json_dumps ?v] => destruct (json_dumps v) end;
      simpl; [apply IH | reflexivity].
  - destruct (get_chart_card c); simpl; [apply IH | reflexivity].
Qed.

(** The loop stops at the first attachment that cannot be presented, with
    the exception its element raised. *)
Lemma collect_elements_first_failure (before after : list pyvalue) (a : pyvalue) (e : exn) :
  forallb (Spec.presentable json_dumps) before = true ->
  attachment_kind a = true ->
  Spec.element_of json_dumps a = Raised e ->
  forall citations media charts,
    collect_elements json_dumps (before ++ a :: after) citations media charts
    = Raised e.
Proof.
  intros Hbefore Hkind Ha.
  induction before as [|b before IH]; intros citations media charts.
  - destruct a; try discriminate Hkind; simpl in Ha |- *.
    + unfold get_citations_element in Ha. simpl in Ha. now rewrite Ha.
    + discriminate Ha.
    + now rewrite Ha.
  - simpl in Hbefore. apply andb_prop in Hbefore as [Hb Hbefore].
    destruct (collect_elements_cons json_dumps b (before ++ a :: after)
                citations media charts Hb) as (cs & ms & chs & Hstep).
    simpl app. rewrite Hstep. now apply IH.
Qed.

Lemma filter_twice (k : pyvalue -> bool) (l : list pyvalue) :
  List.filter k (List.filter k l) = List.filter k l.
Proof.
  induction l as [|a l IHl]; simpl; [reflexivity|].
  destruct (k a) eqn:Hk; simpl; rewrite ?Hk, IHl; reflexivity.
Qed.

Lemma filter_other_kind (k k' : pyvalue -> bool) (l : list pyvalue) :
  (forall a, k a = true -> k' a = false) ->
  List.filter k' (List.filter k l) = [].
Proof.
  intros Hkk. induction l as [|a l IHl]; simpl; [reflexivity|].
  destruct (k a) eqn:Hk; simpl; [rewrite (Hkk a Hk)|]; exact IHl.
Qed.

Lemma bucket_regrouped (kind : pyvalue -> bool) (attachments : list pyvalue) :
  kind = isinstance_Citation \/ kind = isinstance_Media \/ kind = isinstance_Chart ->
  List.filter kind
    (List.filter isinstance_Citation attachments
     ++ List.filter isinstance_Media attachments
     ++ List.filter isinstance_Chart attachments)
  = List.filter kind attachments.
Proof.
  intros Hkind. rewrite !List.filter_app.
  destruct Hkind as [->|[->| ->]].
  - rewrite filter_twice, (filter_other_kind isinstance_Media),
      (filter_other_kind isinstance_Chart), !app_nil_r;
      [reflexivity | |]; intros []; simpl; congruence.
  - rewrite filter_twice, (filter_other_kind isinstance_Citation),
      (filter_other_kind isinstance_Chart), app_nil_r;
      [reflexivity | |]; intros []; simpl; congruence.
  - rewrite filter_twice, (filter_other_kind isinstance_Citation),
      (filter_other_kind isinstance_Media);
      [reflexivity | |]; intros []; simpl; congruence.
Qed.

Lemma forallb_filter_presentable (kind : pyvalue -> bool) (attachments : list pyvalue) :
  forallb (Spec.presentable json_dumps) attachments = true ->
  forallb (Spec.presentable json_dumps) (List.filter kind attachments) = true.
Proof.
  induction attachments as [|a l IH]; simpl; [reflexivity|].
  intros H. apply andb_prop in H as [Ha Hl].
  destruct (kind a); simpl; rewrite ?Ha; auto.
Qed.

End CardFacts.

(** X7. The card does not depend on what else the attachment list holds:
    entries that are neither citation, media nor chart are passed over, so
    leaving them out gives the same outcome, be it a document or an exception;
    nor does it depend on the turn's role, time stamp or metadata. *)
Theorem get_activity_card_ignores_other_entries
    (json_dumps : pyvalue -> outcome string) (turn : ConversationTurn)
    (role : string) (created_at : datetime) (metadata : list (string * list ToolUsage)) :
  get_activity_card json_dumps
    {| ConversationTurn.role := role;
       ConversationTurn.content := ConversationTurn.content turn;
       ConversationTurn.created_at := created_at;
       ConversationTurn.metadata := metadata;
       ConversationTurn.attachments :=
         List.filter attachment_kind (ConversationTurn.attachments turn) |}
  = get_activity_card json_dumps turn.
Proof.
  unfold get_activity_card. simpl.
  now rewrite collect_elements_filter.
Qed.

(** X8. The card depends on the attachments only through the three
    buckets: when every attachment is presentable, listing the citations
    first, then the media, then the charts, each group in its old order, gives
    the same document. *)
Theorem get_activity_card_regrouped
    (json_dumps : pyvalue -> outcome string) (turn : ConversationTurn) :
  forallb (Spec.presentable json_dumps) (ConversationTurn.attachments turn) = true ->
  get_activity_card json_dumps
    {| ConversationTurn.role := ConversationTurn.role turn;
       ConversationTurn.content := ConversationTurn.content turn;
       ConversationTurn.created_at := ConversationTurn.created_at turn;
       ConversationTurn.metadata := ConversationTurn.metadata turn;
       ConversationTurn.attachments :=
         List.filter isinstance_Citation (ConversationTurn.attachments turn)
         ++ List.filter isinstance_Media (ConversationTurn.attachments turn)
         ++ List.filter isinstance_Chart (ConversationTurn.attachments turn) |}
  = get_activity_card json_dumps turn.
Proof.
  intros Hall.
  set (regrouped := List.filter isinstance_Citation (ConversationTurn.attachments turn)
                    ++ List.filter isinstance_Media (ConversationTurn.attachments turn)
                    ++ List.filter isinstance_Chart (ConversationTurn.attachments turn)).
  assert (Hall' : forallb (Spec.presentable json_dumps) regrouped = true).
  { unfold regrouped. rewrite !forallb_app, !forallb_filter_presentable; auto. }
  destruct (collect_elements_buckets json_dumps _ Hall [] [] [])
    as (cs & ms & chs & Hloop & Hc & Hm & Hch).
  destruct (collect_elements_buckets json_dumps _ Hall' [] [] [])
    as (cs' & ms' & chs' & Hloop' & Hc' & Hm' & Hch').
  simpl in Hloop, Hloop'.
  unfold Spec.bucket in *. unfold regrouped in Hc', Hm', Hch'.
  rewrite bucket_regrouped in Hc', Hm', Hch' by auto.
  rewrite <- Hc in Hc'. rewrite <- Hm in Hm'. rewrite <- Hch in Hch'.
  assert (Hinj : forall l l' : list pyvalue,
             map (@Returned pyvalue) l = map (@Returned pyvalue) l' -> l = l').
  { induction l as [|x l IHl]; intros [|x' l']; simpl; try discriminate; auto.
    intros [= -> Hl]. f_equal. now apply IHl. }
  apply Hinj in Hc', Hm', Hch'. subst cs' ms' chs'.
  rewrite (get_activity_card_document json_dumps turn cs ms chs Hloop).
  apply (get_activity_card_document json_dumps
           {| ConversationTurn.role := ConversationTurn.role turn;
              ConversationTurn.content := ConversationTurn.content turn;
              ConversationTurn.created_at := ConversationTurn.created_at turn;
              ConversationTurn.metadata := ConversationTurn.metadata turn;
              ConversationTurn.attachments := regrouped |} cs ms chs Hloop').
Qed.

Lemma get_activity_card_regrouped_witness :
  let json_dumps := fun _ : pyvalue => Returned "{}" in
  let bar := PyChart (VerticalBarChart "c1" "Sales" []) in
  let cite := Citation "Harry Potter" "https://example.org/hp" "" [] in
  let video := Media "https://example.org/v.mp4" "video/mp4" None in
  let turn := fun attachments =>
    {| ConversationTurn.role := "assistant";
       ConversationTurn.content := "Here you are";
       ConversationTurn.created_at := 0%Z;
       ConversationTurn.metadata := [];
       ConversationTurn.attachments := attachments |} in
  get_activity_card json_dumps (turn [cite; video; bar])
  = get_activity_card json_dumps (turn [bar; video; cite]).
Proof.
  intros json_dumps bar cite video turn.
  exact (get_activity_card_regrouped json_dumps (turn [bar; video; cite]) eq_refl).
Defined.

(** X9. Rendering fails on the first attachment, in list order, that
    cannot be presented, and with the exception of that attachment's element:
    the [ValueError] "Unsupported chart type" for a chart of no known variant,
    the exception of [json.dumps] for a citation. *)
Theorem get_activity_card_first_failure
    (json_dumps : pyvalue -> outcome string) (turn : ConversationTurn)
    (before after : list pyvalue) (a : pyvalue) :
  ConversationTurn.attachments turn = before ++ a :: after ->
  forallb (Spec.presentable json_dumps) before = true ->
  Spec.presentable json_dumps a = false ->
  exists e,
    Spec.element_of json_dumps a = Raised e
    /\ get_activity_card json_dumps turn = Raised e
    /\ (isinstance_Chart a = true -> e = ValueError "Unsupported chart type").
Proof.
  intros Hatts Hbefore Ha.
  assert (Hfails : exists e, Spec.element_of json_dumps a = Raised e
                             /\ attachment_kind a = true
                             /\ (isinstance_Chart a = true
                                 -> e = ValueError "Unsupported chart type")).
  { destruct a; try discriminate Ha; simpl in Ha |- *.
    - destruct (truthy metadata); [|discriminate].
      destruct (json_dumps (pydict metadata)) as [s|e]; [discriminate|].
      exists e. repeat split. discriminate.
    - destruct c; try discriminate Ha. eexists. repeat split. }
  destruct Hfails as (e & He & Hkind & Hchart).
  exists e. split; [exact He|]. split; [|exact Hchart].
  unfold get_activity_card. rewrite Hatts.
  now rewrite (collect_elements_first_failure json_dumps before after a e).
Qed.

(** A presentable chart, then a chart of no known variant, then a citation
    on which [json.dumps] would raise: the chart's error is the one raised. *)
Lemma get_activity_card_first_failure_witness :
  let json_dumps := fun _ : pyvalue => Raised (TypeError "not serializable") in
  let turn := {| ConversationTurn.role := "assistant";
                 ConversationTurn.content := "Here you are";
                 ConversationTurn.created_at := 0%Z;
                 ConversationTurn.metadata := [];
                 ConversationTurn.attachments :=
                   [PyChart (PieChart "c1" "Share" []);
                    PyChart (BaseChart "c2" "Unknown");
                    Citation "t" "u" "" [("k", PySet [])]] |} in
  get_activity_card json_dumps turn = Raised (ValueError "Unsupported chart type").
Proof.
  intros json_dumps turn.
  destruct (get_activity_card_first_failure json_dumps turn
              [PyChart (PieChart "c1" "Share" [])]
              [Citation "t" "u" "" [("k", PySet [])]]
              (PyChart (BaseChart "c2" "Unknown")) eq_refl eq_refl eq_refl)
    as (e & _ & Hcard & Hchart).
  rewrite Hcard. f_equal. now apply Hchart.
Defined.

(** ** The tool registry and the kernel plugin *)

Section RegistryFacts.

Context {V : Type}.

Lemma Dict_get_None (k : string) (d : list (string * V)) :
  Dict.get k d = None <-> ~ In k (map fst d).
Proof.
  induction d as [|[k' v] d IH]; simpl.
  - split; auto.
  - destruct (String.eqb k k') eqn:E.
    + apply String.eqb_eq in E. subst. split; [discriminate | intros H; tauto].
    + apply String.eqb_neq in E. rewrite IH. split.
      * intros Hd [Heq|Hin]; [congruence | auto].
      * intros Hd Hin. apply Hd. now right.
Qed.

Lemma Dict_get_In (k : string) (v : V) (d : list (string * V)) :
  Dict.get k d = Some v -> In (k, v) d.
Proof.
  induction d as [|[k' v'] d IH]; simpl; [discriminate|].
  destruct (String.eqb k k') eqn:E.
  - apply String.eqb_eq in E. subst. intros [= ->]. now left.
  - intros H. right. now apply IH.
Qed.

Lemma Dict_In_get (k : string) (v : V) (d : list (string * V)) :
  In (k, v) d -> exists v', Dict.get k d = Some v'.
Proof.
  induction d as [|[k' v'] d IH]; simpl; [tauto|].
  intros [[= -> ->]|Hin].
  - rewrite String.eqb_refl. eauto.
  - destruct (String.eqb k k'); eauto.
Qed.

End RegistryFacts.

(** X10. Adding a tool whose name is not yet a key registers it: the call
    returns, the tool is found under its name, every other key finds what it
    found before, the dict has one entry more, the new one last, its keys are
    still pairwise distinct, and nothing else of the agent changes. *)
Theorem add_tool_registers (self : AbstractAgent) (tool : Tool) :
  Dict.get (Tool.name tool) (AbstractAgent._tools self) = None ->
  NoDup (map fst (AbstractAgent._tools self)) ->
  snd (AbstractAgent.add_tool self tool) = Returned tt
  /\ AbstractAgent._tools (fst (AbstractAgent.add_tool self tool))
     = AbstractAgent._tools self ++ [(Tool.name tool, tool)]
  /\ Dict.get (Tool.name tool) (AbstractAgent._tools (fst (AbstractAgent.add_tool self tool)))
     = Some tool
  /\ (forall k, k <> Tool.name tool ->
        Dict.get k (AbstractAgent._tools (fst (AbstractAgent.add_tool self tool)))
        = Dict.get k (AbstractAgent._tools self))
  /\ NoDup (map fst (AbstractAgent._tools (fst (AbstractAgent.add_tool self tool))))
  /\ AbstractAgent._id (fst (AbstractAgent.add_tool self tool)) = AbstractAgent._id self
  /\ AbstractAgent._name (fst (AbstractAgent.add_tool self tool)) = AbstractAgent._name self
  /\ AbstractAgent._prompt (fst (AbstractAgent.add_tool self tool))
     = AbstractAgent._prompt self
  /\ AbstractAgent._settings (fst (AbstractAgent.add_tool self tool))
     = AbstractAgent._settings self.
Proof.
  intros Hnew Hkeys.
  assert (Hset : Dict.set (Tool.name tool) tool (AbstractAgent._tools self)
                 = AbstractAgent._tools self ++ [(Tool.name tool, tool)])
    by now apply Dict_set_fresh.
  unfold AbstractAgent.add_tool, Dict.contains. rewrite Hnew. simpl.
  repeat split; auto.
  - apply Dict_get_set_eq.
  - intros k Hk. apply Dict_get_set_ne. congruence.
  - rewrite Hset, map_app. simpl.
    apply NoDup_app. repeat split; auto.
    + intros k Hin Hk. apply list_elem_of_singleton in Hk. subst k.
      apply Dict_get_None in Hnew. apply Hnew. now apply list_elem_of_In.
    + apply NoDup_singleton.
Qed.

Lemma add_tool_registers_witness :
  let agent := ChatCompletionAgent.base Examples.cite_agent in
  snd (AbstractAgent.add_tool agent MathTools.AddTool) = Returned tt
  /\ map fst (AbstractAgent._tools (fst (AbstractAgent.add_tool agent MathTools.AddTool)))
     = ["Cite"; "Add"]
  /\ Dict.get "Add" (AbstractAgent._tools (fst (AbstractAgent.add_tool agent MathTools.AddTool)))
     = Some MathTools.AddTool.
Proof.
  intros agent.
  assert (Hkeys : NoDup (map fst (AbstractAgent._tools agent)))
    by (apply NoDup_singleton).
  destruct (add_tool_registers agent MathTools.AddTool eq_refl Hkeys)
    as (Hret & Htools & Hget & _).
  split; [exact Hret|]. split; [now rewrite Htools | exact Hget].
Defined.

(** X11. The duplicate test of [add_tool] looks at the keys of the dict
    only.  When a tool of the same name is registered under another key, as
    the constructor allows, the newcomer is registered beside it and the dict
    then holds two tools of one name. *)
Theorem add_tool_same_name_other_key
    (self : AbstractAgent) (tool registered : Tool) (key : string) :
  Dict.get key (AbstractAgent._tools self) = Some registered ->
  Tool.name registered = Tool.name tool ->
  Dict.get (Tool.name tool) (AbstractAgent._tools self) = None ->
  snd (AbstractAgent.add_tool self tool) = Returned tt
  /\ Dict.get key (AbstractAgent._tools (fst (AbstractAgent.add_tool self tool)))
     = Some registered
  /\ Dict.get (Tool.name tool)
       (AbstractAgent._tools (fst (AbstractAgent.add_tool self tool)))
     = Some tool
  /\ key <> Tool.name tool.
Proof.
  intros Hkey Hname Hnew.
  assert (Hne : key <> Tool.name tool) by congruence.
  rewrite add_tool_new by exact Hnew. simpl.
  rewrite <- (Dict_set_fresh _ tool _ Hnew).
  rewrite Dict_get_set_eq, Dict_get_set_ne by congruence. auto.
Qed.

(** As in the sample agent, whose chart tools sit under keys that are not
    their names. *)
Lemma add_tool_same_name_other_key_witness :
  let chart_tool := fun description =>
    {| Tool.name := "VerticalBarChart"; Tool.description := description;
       Tool.function := Tool.Function (fun _ _ => Returned PyNone) |} in
  let agent := {| AbstractAgent._id := "math"; AbstractAgent._name := "Math";
                  AbstractAgent._description := ""; AbstractAgent._prompt := "";
                  AbstractAgent._tools :=
                    [("Add", MathTools.AddTool);
                     ("CreateVerticalBarChart", chart_tool "first")];
                  AbstractAgent._settings := [] |} in
  snd (AbstractAgent.add_tool agent (chart_tool "second")) = Returned tt
  /\ map (fun kv => (fst kv, Tool.name (snd kv)))
       (AbstractAgent._tools (fst (AbstractAgent.add_tool agent (chart_tool "second"))))
     = [("Add", "Add"); ("CreateVerticalBarChart", "VerticalBarChart");
        ("VerticalBarChart", "VerticalBarChart")].
Proof.
  intros chart_tool agent.
  destruct (add_tool_same_name_other_key agent (chart_tool "second")
              (chart_tool "first") "CreateVerticalBarChart" eq_refl eq_refl eq_refl)
    as (Hret & _).
  split; [exact Hret | reflexivity].
Defined.

(** X12. The kernel's functions go by the tools' names, not by the keys
    of the tool dict: a function found under a name is one of the agent's
    tools and has that name, and the name of every tool of the agent finds a
    function of that name. *)
Theorem _add_plugin_by_tool_name (tools : list (string * Tool)) :
  (forall function_name tool,
      ChatCompletionAgent.plugin_get function_name
        (ChatCompletionAgent._add_plugin tools) = Some tool ->
      Tool.name tool = function_name /\ exists key, In (key, tool) tools)
  /\ (forall key tool,
      In (key, tool) tools ->
      exists found,
        ChatCompletionAgent.plugin_get (Tool.name tool)
          (ChatCompletionAgent._add_plugin tools) = Some found
        /\ Tool.name found = Tool.name tool).
Proof.
  unfold ChatCompletionAgent.plugin_get, ChatCompletionAgent._add_plugin, Dict.values.
  split.
  - intros function_name tool Hget.
    apply Dict_get_In, in_rev, in_map_iff in Hget as (tool' & [= <- <-] & Hin).
    split; [reflexivity|].
    apply in_map_iff in Hin as ([key tool''] & <- & Hin). eauto.
  - intros key tool Hin.
    destruct (Dict_In_get (Tool.name tool) tool
                (rev (map (fun t => (Tool.name t, t)) (map snd tools)))) as [found Hfound].
    { apply in_rev. rewrite rev_involutive.
      apply in_map_iff. exists tool. split; [reflexivity|].
      apply in_map_iff. exists (key, tool). auto. }
    exists found. split; [exact Hfound|].
    apply Dict_get_In, in_rev, in_map_iff in Hfound as (t & [= Hn <-] & _).
    exact Hn.
Qed.

(** ** The math tools *)

(** X13. [AddTool] takes its two operands positionally, by keyword in
    either order, or mixed, with the same result; integers are added exactly,
    whatever their size; a call with a missing, surplus, unknown or doubly
    given argument raises [TypeError] and adds nothing. *)
Theorem AddTool_calling_conventions (x y z : pyvalue) :
  Tool.call (Tool.function MathTools.AddTool) [x; y] [] = MathTools.py_add x y
  /\ Tool.call (Tool.function MathTools.AddTool) [] [("x", x); ("y", y)]
     = MathTools.py_add x y
  /\ Tool.call (Tool.function MathTools.AddTool) [] [("y", y); ("x", x)]
     = MathTools.py_add x y
  /\ Tool.call (Tool.function MathTools.AddTool) [x] [("y", y)] = MathTools.py_add x y
  /\ (forall a b : Z,
        Tool.call (Tool.function MathTools.AddTool) [PyInt a; PyInt b] []
        = Returned (PyInt (a + b)))
  /\ Tool.call (Tool.function MathTools.AddTool) [x] []
     = Raised (TypeError "missing required argument")
  /\ Tool.call (Tool.function MathTools.AddTool) [x; y; z] []
     = Raised (TypeError "too many positional arguments")
  /\ Tool.call (Tool.function MathTools.AddTool) [x; y] [("x", z)]
     = Raised (TypeError "unexpected keyword argument")
  /\ Tool.call (Tool.function MathTools.AddTool) [x] [("y", y); ("z", z)]
     = Raised (TypeError "unexpected keyword argument").
Proof. repeat split; reflexivity. Qed.

(** ** Chart colours *)

(** X14. No two chart colours have the same value, so the value a colour
    is serialised to identifies it. *)
Theorem ChartColor_value_injective (c c' : ChartColor) :
  ChartColor_value c = ChartColor_value c' <-> c = c'.
Proof.
  split; [|now intros ->].
  destruct c, c'; simpl; intros H; try reflexivity; discriminate H.
Qed.

(** ** The adapter and [process], further *)

(** X15. Outside any [process] call, that is with [agent_invoke_context]
    unset in the calling task, the adapter still runs the tool: when the
    callable returns, its result is lost and the adapter raises [LookupError];
    when the callable raises, that exception is the one passed on.  Either way
    no dict is touched and the variable stays unset. *)
Theorem new_plugin_func_without_context
    (tool : Tool) (task : task_id)
    (positional : list pyvalue) (keywords : list (string * pyvalue)) (rt : Runtime) :
  agent_invoke_context rt !! task = None ->
  fst (ChatCompletionAgent.new_plugin_func tool task positional keywords rt)
  = match Tool.call (Tool.function tool) positional keywords with
    | Returned _ => Raised (LookupError "agent_invoke_context")
    | Raised e => Raised e
    end
  /\ heap (snd (ChatCompletionAgent.new_plugin_func tool task positional keywords rt))
     = heap rt
  /\ agent_invoke_context
       (snd (ChatCompletionAgent.new_plugin_func tool task positional keywords rt))
     = agent_invoke_context rt.
Proof.
  intros Hunset. rewrite new_plugin_func_split.
  assert (Hunset' : agent_invoke_context (set_ticks (S (ticks rt)) rt) !! task = None)
    by exact Hunset.
  destruct (Tool.call (Tool.function tool) positional keywords) as [resp|e] eqn:Hcall.
  - now rewrite (new_plugin_func_resume_unbound tool task positional keywords
                   _ _ resp Hunset' Hcall).
  - now rewrite (new_plugin_func_resume_raised tool task positional keywords
                   _ _ e Hcall).
Qed.

Lemma new_plugin_func_without_context_witness :
  fst (ChatCompletionAgent.new_plugin_func MathTools.AddTool 0 [PyInt 2; PyInt 3] []
         (Scheduler.boot (fun n => Z.of_nat n)))
  = Raised (LookupError "agent_invoke_context")
  /\ fst (ChatCompletionAgent.new_plugin_func MathTools.AddTool 0 [PyInt 2] []
            (Scheduler.boot (fun n => Z.of_nat n)))
     = Raised (TypeError "missing required argument").
Proof.
  split.
  - exact (proj1 (new_plugin_func_without_context MathTools.AddTool 0
                    [PyInt 2; PyInt 3] [] (Scheduler.boot (fun n => Z.of_nat n))
                    eq_refl)).
  - exact (proj1 (new_plugin_func_without_context MathTools.AddTool 0
                    [PyInt 2] [] (Scheduler.boot (fun n => Z.of_nat n)) eq_refl)).
Defined.

(** X16. A [process] call that returns a turn leaves
    [agent_invoke_context] exactly as it found it, in every task: unset again
    if it was unset, bound again to the enclosing context if there was one.
    It has created one dict, and the dicts that existed before are as they
    were. *)
Theorem process_restores_context
    (self : ChatCompletionAgent.t) (task : task_id)
    (conversation_data : ConversationData) (rt rt' : Runtime) (turn : ConversationTurn) :
  ChatCompletionAgent.process self task conversation_data rt = (Returned turn, rt') ->
  agent_invoke_context rt' = agent_invoke_context rt
  /\ length (heap rt') = S (length (heap rt))
  /\ (forall l, l < length (heap rt) -> heap rt' !! l = heap rt !! l)
  /\ ConversationTurn.role turn = "assistant".
Proof.
  intros Hprocess.
  pose proof (complete_frame (ChatCompletionAgent._kernel self) task
                (ChatCompletionAgent._agent self
                   (ChatCompletionAgent.chat_history
                      (ConversationData.history conversation_data)))
                (snd (Scheduler.process_enter task rt))) as Hf.
  destruct (ChatCompletionAgent.get_response self task
              (ChatCompletionAgent.chat_history
                 (ConversationData.history conversation_data))
              (snd (Scheduler.process_enter task rt))) as [[response|e] rt1] eqn:Hresp.
  2: { destruct (process_raised self task conversation_data rt rt1 e Hresp) as [Hp _].
       congruence. }
  destruct (process_returned self task conversation_data rt rt1 response Hresp)
    as (d & Hd & Hp).
  rewrite Hp in Hprocess. injection Hprocess as <- <-.
  unfold ChatCompletionAgent.get_response in Hresp. rewrite Hresp in Hf.
  simpl in Hf. destruct Hf as (Hvar & Hlen & _ & Hheap).
  simpl. rewrite Hvar, Hlen, length_app. simpl.
  repeat split.
  - destruct (agent_invoke_context rt !! task) as [old|] eqn:Hold.
    + rewrite insert_insert_eq. now apply insert_id.
    + now apply delete_insert_id.
  - lia.
  - intros l Hl. rewrite Hheap.
    + now apply lookup_app_l.
    + rewrite lookup_insert_eq. intros [= Heq]. lia.
Qed.

(** A call made while an enclosing context is active in the task. *)
Lemma process_restores_context_witness :
  let rt := {| heap := [{| tool_usage := []; attachments := [] |}];
               agent_invoke_context := {[ 0%nat := 0%nat ]};
               clock := fun n => Z.of_nat n; ticks := 0 |} in
  agent_invoke_context
    (snd (ChatCompletionAgent.process Examples.add_agent 0
            (ConversationData.init [] 10) rt))
  = {[ 0%nat := 0%nat ]}
  /\ heap (snd (ChatCompletionAgent.process Examples.add_agent 0
                  (ConversationData.init [] 10) rt)) !! 0%nat
     = Some {| tool_usage := []; attachments := [] |}.
Proof.
  intros rt.
  destruct (ChatCompletionAgent.process Examples.add_agent 0
              (ConversationData.init [] 10) rt) as [[turn|e] rt'] eqn:Hp;
    [|vm_compute in Hp; discriminate Hp].
  destruct (process_restores_context Examples.add_agent 0
              (ConversationData.init [] 10) rt rt' turn Hp) as (Hvar & _ & Hheap & _).
  split; [exact Hvar|].
  exact (Hheap 0 ltac:(simpl; lia)).
Defined.

(** ** What a turn aggregates *)

Section Aggregation.

Import ChatCompletionAgent Scheduler.

Variable task : task_id.

(** The view after one more logged call. *)
Lemma view_logged (rt : Runtime) (ctx : loc) (record : ToolUsage)
    (found found0 : list pyvalue) (calls0 : list Call) (n : nat) :
  agent_invoke_context rt !! task = Some ctx ->
  view task rt = Some (Some (calls0, found0)) ->
  view task (set_heap (alter (Spec.logged record found) ctx (heap rt)) (set_ticks n rt))
  = Some (Some (calls0 ++ [call_of record], found0 ++ found)).
Proof.
  intros Hctx Hview. rewrite (view_bound task rt ctx Hctx) in Hview.
  injection Hview as Hview.
  unfold view; simpl. rewrite Hctx; simpl.
  rewrite list_lookup_alter_eq.
  destruct (heap rt !! ctx) as [d|]; [|discriminate Hview].
  simpl in *. injection Hview as <- <-.
  now rewrite map_app.
Qed.

(** With a context active, the service's run ends as its trace says and
    has added the trace's calls and attachments to the context. *)
Lemma complete_trace (functions : list (string * Tool)) (c : Completion) :
  forall rt calls0 found0,
    view task rt = Some (Some (calls0, found0)) ->
    fst (complete functions task c rt) = snd (service_trace functions c)
    /\ view task (snd (complete functions task c rt))
       = Some (Some (calls0 ++ fst (fst (service_trace functions c)),
                     found0 ++ snd (fst (service_trace functions c)))).
Proof.
  induction c as [content | e | function_name positional keywords k IH];
    intros rt calls0 found0 Hview; simpl.
  - now rewrite !app_nil_r.
  - now rewrite !app_nil_r.
  - destruct (plugin_get function_name functions) as [tool|]; [|now apply IH].
    rewrite new_plugin_func_split.
    destruct (Tool.call (Tool.function tool) positional keywords) as [resp|e] eqn:Hcall.
    + destruct (agent_invoke_context rt !! task) as [ctx|] eqn:Hctx;
        [|rewrite (view_unbound task rt Hctx) in Hview; discriminate].
      assert (Hctx' : agent_invoke_context (set_ticks (S (ticks rt)) rt) !! task
                      = Some ctx) by exact Hctx.
      rewrite (new_plugin_func_resume_returned tool task positional keywords
                 _ _ ctx resp Hctx' Hcall).
      match goal with
      | |- context [complete functions task _ ?r] => set (rt1 := r)
      end.
      assert (Hview' : exists record,
                 view task rt1
                 = Some (Some (calls0 ++ [call_of record],
                               found0 ++ extract_attachments resp))
                 /\ call_of record
                    = {| call_tool := Tool.name tool;
                         call_args := positional;
                         call_kwargs := keywords;
                         call_result := resp |}).
      { subst rt1. eexists. split.
        - apply (view_logged (set_ticks (S (ticks rt)) rt) ctx _ _ found0 calls0 _
                   Hctx' Hview).
        - reflexivity. }
      destruct Hview' as (record & Hview' & Hrecord). rewrite Hrecord in Hview'.
      destruct (IH (Returned resp) rt1 _ _ Hview') as [Ho Hv].
      destruct (service_trace functions (k (Returned resp))) as [[calls found] r].
      simpl in Ho, Hv |- *. split; [exact Ho|].
      rewrite Hv, <- !app_assoc. reflexivity.
    + rewrite (new_plugin_func_resume_raised tool task positional keywords _ _ e Hcall).
      now apply IH.
Qed.

(** With a context active, the exit of [process] builds the turn of what
    the context holds. *)
Lemma process_finish_observed (token : option loc) (response : string) (rt : Runtime)
    (found : list pyvalue) (logged_calls : list Call) :
  view task rt = Some (Some (logged_calls, found)) ->
  observe (fst (process_finish task token response rt))
  = Returned {| seen_role := "assistant";
                seen_content := response;
                seen_metadata := [("tool_usage", logged_calls)];
                seen_attachments := found |}.
Proof.
  intros Hview.
  destruct (agent_invoke_context rt !! task) as [ctx|] eqn:Hctx;
    [|rewrite (view_unbound task rt Hctx) in Hview; discriminate].
  rewrite (view_bound task rt ctx Hctx) in Hview. injection Hview as Hview.
  rewrite (process_finish_bound task token response rt ctx Hctx). simpl.
  destruct (heap rt !! ctx) as [d|]; [|discriminate Hview].
  simpl in *. injection Hview as <- <-. reflexivity.
Qed.

Lemma process_observed (self : ChatCompletionAgent.t)
    (conversation_data : ConversationData) (rt : Runtime) :
  observe (fst (process self task conversation_data rt))
  = turn_of_trace
      (service_trace (_kernel self)
         (_agent self (chat_history (ConversationData.history conversation_data)))).
Proof.
  rewrite process_run.
  destruct (complete_trace (_kernel self)
              (_agent self (chat_history (ConversationData.history conversation_data)))
              (snd (process_enter task rt)) [] [] (process_enter_view task rt))
    as [Ho Hv].
  destruct (complete (_kernel self) task _ (snd (process_enter task rt))) as [o rt'].
  destruct (service_trace (_kernel self) _) as [[calls found] r].
  simpl in *. subst o.
  destruct r as [content|e]; [|reflexivity].
  now apply process_finish_observed.
Qed.

End Aggregation.

(** X17. What [process] returns is settled by the service's run alone,
    whatever the runtime held before (an earlier turn's context included): it
    raises when the service fails, with the service's exception, and otherwise
    returns an assistant turn with the service's reply as content, one
    tool-usage record for each invocation whose callable returned, in the
    order of the invocations, and the attachments harvested from those results
    in the same order.  Invocations that raised or named no function leave no
    record. *)
Theorem process_aggregates
    (self : ChatCompletionAgent.t) (task : task_id)
    (conversation_data : ConversationData) (rt : Runtime) :
  Scheduler.observe (fst (ChatCompletionAgent.process self task conversation_data rt))
  = turn_of_trace
      (service_trace (ChatCompletionAgent._kernel self)
         (ChatCompletionAgent._agent self
            (ChatCompletionAgent.chat_history
               (ConversationData.history conversation_data))))
  /\ (forall calls found r,
        service_trace (ChatCompletionAgent._kernel self)
          (ChatCompletionAgent._agent self
             (ChatCompletionAgent.chat_history
                (ConversationData.history conversation_data)))
        = (calls, found, r) ->
        found = flat_map (fun call => extract_attachments (Scheduler.call_result call))
                         calls).
Proof.
  split; [apply process_observed|].
  generalize (ChatCompletionAgent._agent self
                (ChatCompletionAgent.chat_history
                   (ConversationData.history conversation_data))).
  induction c as [content | e | function_name positional keywords k IH];
    intros calls found r; simpl.
  - now intros [= <- <- _].
  - now intros [= <- <- _].
  - destruct (ChatCompletionAgent.plugin_get function_name
                (ChatCompletionAgent._kernel self)) as [tool|]; [|apply IH].
    destruct (Tool.call (Tool.function tool) positional keywords) as [resp|e];
      [|apply IH].
    destruct (service_trace (ChatCompletionAgent._kernel self) (k (Returned resp)))
      as [[calls' found'] r'] eqn:Htrace.
    intros [= <- <- _]. simpl. f_equal. exact (IH _ _ _ _ Htrace).
Qed.

(** ** A tool added to a constructed agent *)

Section LateTool.

Import ChatCompletionAgent.

Lemma plugin_get_In (function_name : string) (tool : Tool) (tools : list (string * Tool)) :
  plugin_get function_name (_add_plugin tools) = Some tool ->
  Tool.name tool = function_name /\ exists key, In (key, tool) tools.
Proof.
  unfold plugin_get, _add_plugin, Dict.values. intros Hget.
  apply Dict_get_In, in_rev, in_map_iff in Hget as (tool' & [= <- <-] & Hin).
  split; [reflexivity|].
  apply in_map_iff in Hin as ([key tool''] & <- & Hin). eauto.
Qed.

End LateTool.

(** X18. [add_tool] on a chat-completion agent registers the tool in the
    agent's tool dict, and that is all: the kernel keeps the functions it got
    when the agent was constructed.  A tool added afterwards, of a name no
    tool had at construction, is no function of the kernel, and [process]
    returns what it returned before the tool was added. *)
Theorem add_tool_after_construction
    (agent_id name description prompt : string)
    (tools : list (string * Tool)) (settings : list (string * pyvalue))
    (service : ChatHistory -> Completion) (tool : Tool) :
  Dict.get (Tool.name tool) tools = None ->
  (forall key registered, In (key, registered) tools ->
                          Tool.name registered <> Tool.name tool) ->
  snd (AbstractChatCompletionAgent.add_tool
         (ChatCompletionAgent.init agent_id name description prompt tools settings service)
         tool)
  = Returned tt
  /\ Dict.get (Tool.name tool)
       (AbstractAgent._tools
          (ChatCompletionAgent.base
             (fst (AbstractChatCompletionAgent.add_tool
                     (ChatCompletionAgent.init agent_id name description prompt
                        tools settings service)
                     tool))))
     = Some tool
  /\ ChatCompletionAgent.plugin_get (Tool.name tool)
       (ChatCompletionAgent._kernel
          (fst (AbstractChatCompletionAgent.add_tool
                  (ChatCompletionAgent.init agent_id name description prompt
                     tools settings service)
                  tool)))
     = None
  /\ (forall task conversation_data rt,
        ChatCompletionAgent.process
          (fst (AbstractChatCompletionAgent.add_tool
                  (ChatCompletionAgent.init agent_id name description prompt
                     tools settings service)
                  tool))
          task conversation_data rt
        = ChatCompletionAgent.process
            (ChatCompletionAgent.init agent_id name description prompt
               tools settings service)
            task conversation_data rt).
Proof.
  intros Hkey Hname.
  unfold AbstractChatCompletionAgent.add_tool.
  rewrite add_tool_new by exact Hkey. simpl.
  repeat split.
  - rewrite <- (Dict_set_fresh _ tool _ Hkey). apply Dict_get_set_eq.
  - destruct (ChatCompletionAgent.plugin_get (Tool.name tool)
                (if truthy tools then ChatCompletionAgent._add_plugin tools else []))
      as [found|] eqn:Hget; [|reflexivity].
    destruct (truthy tools); [|discriminate Hget].
    apply plugin_get_In in Hget as (Hsame & key & Hin).
    exfalso. exact (Hname key found Hin Hsame).
Qed.

(** The cite agent, given the Add tool after its construction: a service
    that then invokes Add is told there is no such function, and nothing is
    logged. *)
Lemma add_tool_after_construction_witness :
  let service := fun _ : ChatHistory =>
    Invoke "Add" [PyInt 2; PyInt 3] []
      (fun o => match o with
                | Returned _ => Reply "added"
                | Raised e => Fail e
                end) in
  let agent := ChatCompletionAgent.init "cite" "Cite" "" ""
                 [("Cite", Examples.CiteTool)] [] service in
  let later := fst (AbstractChatCompletionAgent.add_tool agent MathTools.AddTool) in
  map fst (AbstractAgent._tools (ChatCompletionAgent.base later)) = ["Cite"; "Add"]
  /\ ChatCompletionAgent.plugin_get "Add" (ChatCompletionAgent._kernel later) = None
  /\ fst (ChatCompletionAgent.process later 0 (ConversationData.init [] 10)
            (Scheduler.boot (fun n => Z.of_nat n)))
     = Raised (ServiceError "function not found").
Proof.
  intros service agent later.
  assert (Hnames : forall key registered,
             In (key, registered) [("Cite", Examples.CiteTool)] ->
             Tool.name registered <> Tool.name MathTools.AddTool).
  { intros key registered [[= <- <-]|[]]. discriminate. }
  destruct (add_tool_after_construction "cite" "Cite" "" ""
              [("Cite", Examples.CiteTool)] [] service MathTools.AddTool
              eq_refl Hnames) as (_ & _ & Hkernel & Hprocess).
  split; [reflexivity|]. split; [exact Hkernel|].
  unfold later, agent. rewrite Hprocess. reflexivity.
Defined.

(** ** The sample agent's tools, through the adapter *)

(** X19. The three function tools of the sample agent do not look at
    their argument, which they take positionally or by keyword: whatever it is,
    [research] returns its fixed text with the citations of Harry Potter,
    Hermione Granger and Ron Weasley, in that order, [get_image] returns an
    address as a plain string and [get_video] returns the trailer as a media.
    A turn in which the service invokes the three gets three records, and as
    attachments the three citations, in their order, followed by the video:
    the image, a plain string, is no attachment. *)
Theorem sample_tools_aggregate
    (agent_id name description prompt : string)
    (query topic topic' : pyvalue) (content : string)
    (task : task_id) (conversation_data : ConversationData) (rt : Runtime) :
  let house := fun birthday blood_status =>
    [("birthday", PyStr birthday); ("house", PyStr "Gryffindor");
     ("blood_status", PyStr blood_status)] in
  let citations :=
    [Citation "Harry Potter" "https://harrypotter.fandom.com/wiki/Harry_Potter" ""
       (house "1980-07-31" "Half-blood");
     Citation "Hermione Granger" "https://harrypotter.fandom.com/wiki/Hermione_Granger" ""
       (house "1979-09-19" "Muggle-born");
     Citation "Ron Weasley" "https://harrypotter.fandom.com/wiki/Ron_Weasley" ""
       (house "1980-03-01" "Pure-blood")] in
  let found := PyTuple [PyStr "Blood and Gold finished today"; PyList citations] in
  let image := PyStr "https://eskipaper.com/images/harry-potter-3.jpg" in
  let video := Media "https://www.youtube.com/watch?v=YsqcODOEO-M" "video/mp4"
                     (Some "Harry Potter Trailer") in
  Tool.call (Tool.function MathAgent.ResearchTool) [query] [] = Returned found
  /\ Tool.call (Tool.function MathAgent.ResearchTool) [] [("query", query)]
     = Returned found
  /\ Tool.call (Tool.function MathAgent.GetImageTool) [topic] [] = Returned image
  /\ Tool.call (Tool.function MathAgent.GetImageTool) [] [("topic", topic)]
     = Returned image
  /\ Tool.call (Tool.function MathAgent.GetVideoTool) [topic'] [] = Returned video
  /\ Tool.call (Tool.function MathAgent.GetVideoTool) [] [("topic", topic')]
     = Returned video
  /\ extract_attachments found = citations
  /\ extract_attachments image = []
  /\ extract_attachments video = [video]
  /\ Scheduler.observe
       (fst (ChatCompletionAgent.process
               (ChatCompletionAgent.init agent_id name description prompt
                  [("Research", MathAgent.ResearchTool);
                   ("GetImage", MathAgent.GetImageTool);
                   ("GetVideo", MathAgent.GetVideoTool)] []
                  (fun _ =>
                     Invoke "Research" [query] []
                       (fun _ => Invoke "GetImage" [] [("topic", topic)]
                          (fun _ => Invoke "GetVideo" [topic'] []
                             (fun _ => Reply content)))))
               task conversation_data rt))
     = Returned
         {| Scheduler.seen_role := "assistant";
            Scheduler.seen_content := content;
            Scheduler.seen_metadata :=
              [("tool_usage",
                [{| Scheduler.call_tool := "Research";
                    Scheduler.call_args := [query];
                    Scheduler.call_kwargs := [];
                    Scheduler.call_result := found |};
                 {| Scheduler.call_tool := "GetImage";
                    Scheduler.call_args := [];
                    Scheduler.call_kwargs := [("topic", topic)];
                    Scheduler.call_result := image |};
                 {| Scheduler.call_tool := "GetVideo";
                    Scheduler.call_args := [topic'];
                    Scheduler.call_kwargs := [];
                    Scheduler.call_result := video |}])];
            Scheduler.seen_attachments := citations ++ [video] |}.
Proof.
  intros house citations found image video.
  do 9 (split; [reflexivity|]).
  rewrite process_observed. reflexivity.
Qed.

(** ** The message handler of the bot *)

Section HandlerFacts.

Import ChatCompletionAgent.

Variable json_dumps : pyvalue -> outcome string.

(** The handler reads the clock once and hands the agent the conversation
    data with the user's turn added. *)
Lemma on_message_activity_run (agent : ChatCompletionAgent.t) (task : task_id)
    (text : string) (conversation_data : ConversationData) (rt : Runtime) :
  SemanticKernelBot.on_message_activity json_dumps agent task (Some text)
    conversation_data rt
  = let conversation_data :=
      ConversationData.add_turn conversation_data
        (user_turn text (clock rt (ticks rt))) in
    match process agent task conversation_data (set_ticks (S (ticks rt)) rt) with
    | (Raised e, rt) => (Raised e, conversation_data, rt)
    | (Returned response, rt) =>
        match get_activity_card json_dumps response with
        | Returned card =>
            (Returned card, ConversationData.add_turn conversation_data response, rt)
        | Raised e =>
            (Raised e, ConversationData.add_turn conversation_data response, rt)
        end
    end.
Proof.
  unfold SemanticKernelBot.on_message_activity, user_turn. simpl.
  destruct (process agent task _ _) as [[response|e] rt']; [|reflexivity].
  destruct (get_activity_card json_dumps response); reflexivity.
Qed.

(** A turn that [process] returned, against the trace of the service. *)
Lemma process_traced (agent : ChatCompletionAgent.t) (task : task_id)
    (conversation_data : ConversationData) (rt : Runtime)
    (calls : list Scheduler.Call) (found : list pyvalue) (content : string) :
  service_trace (_kernel agent)
    (_agent agent (chat_history (ConversationData.history conversation_data)))
  = (calls, found, Returned content) ->
  exists response rt',
    process agent task conversation_data rt = (Returned response, rt')
    /\ Scheduler.observe_turn response
       = {| Scheduler.seen_role := "assistant";
            Scheduler.seen_content := content;
            Scheduler.seen_metadata := [("tool_usage", calls)];
            Scheduler.seen_attachments := found |}.
Proof.
  intros Htrace.
  pose proof (process_observed task agent conversation_data rt) as Hobserved.
  rewrite Htrace in Hobserved.
  destruct (process agent task conversation_data rt) as [[response|e] rt'];
    simpl in Hobserved; [|discriminate Hobserved].
  exists response, rt'. split; [reflexivity | congruence].
Qed.

End HandlerFacts.

(** X20. When the completion service fails during a message, the handler
    passes the exception on and sends nothing, and the conversation data it
    leaves behind holds the user's turn without an answer: the user's turn is
    added before the agent is asked, and is not taken back. *)
Theorem on_message_activity_service_failure
    (json_dumps : pyvalue -> outcome string)
    (agent : ChatCompletionAgent.t) (task : task_id) (text : string)
    (conversation_data : ConversationData) (rt : Runtime) (e : exn) :
  snd (service_trace (ChatCompletionAgent._kernel agent)
         (ChatCompletionAgent._agent agent
            (ChatCompletionAgent.chat_history
               (ConversationData.history
                  (ConversationData.add_turn conversation_data
                     (user_turn text (clock rt (ticks rt))))))))
  = Raised e ->
  fst (SemanticKernelBot.on_message_activity json_dumps agent task (Some text)
         conversation_data rt)
  = (Raised e,
     ConversationData.add_turn conversation_data (user_turn text (clock rt (ticks rt)))).
Proof.
  intros Htrace. rewrite on_message_activity_run. cbv zeta.
  pose proof (process_observed task agent
                (ConversationData.add_turn conversation_data
                   (user_turn text (clock rt (ticks rt))))
                (set_ticks (S (ticks rt)) rt)) as Hobserved.
  destruct (service_trace _ _) as [[calls found] r]. simpl in Htrace. subst r.
  destruct (ChatCompletionAgent.process agent task _ _) as [[response|e'] rt'];
    simpl in Hobserved; [discriminate Hobserved|].
  now injection Hobserved as ->.
Qed.

(** A service that times out on the first message of a conversation. *)
Lemma on_message_activity_service_failure_witness :
  let agent := ChatCompletionAgent.init "a" "A" "" "" [] []
                 (fun _ => Fail (ServiceError "timeout")) in
  let outcome := fst (SemanticKernelBot.on_message_activity (fun _ => Returned "{}")
                        agent 0 (Some "2 + 3?") (SemanticKernelBot.load None)
                        (Scheduler.boot (fun n => Z.of_nat n))) in
  fst outcome = Raised (ServiceError "timeout")
  /\ ConversationData.toMessages (snd outcome) = [[("role", "user"); ("content", "2 + 3?")]].
Proof.
  intros agent outcome. unfold outcome.
  rewrite (on_message_activity_service_failure (fun _ => Returned "{}") agent 0
             "2 + 3?" (SemanticKernelBot.load None)
             (Scheduler.boot (fun n => Z.of_nat n)) (ServiceError "timeout") eq_refl).
  split; reflexivity.
Defined.

(** X21. When the service replies and every attachment harvested during
    the turn is presentable, the handler sends the card of the agent's turn,
    whose text is the service's reply, and leaves the conversation data with
    the user's turn and then the agent's turn added, in that order; the
    agent's turn holds the calls and the attachments of the service's run. *)
Theorem on_message_activity_reply
    (json_dumps : pyvalue -> outcome string)
    (agent : ChatCompletionAgent.t) (task : task_id) (text : string)
    (conversation_data : ConversationData) (rt : Runtime)
    (calls : list Scheduler.Call) (found : list pyvalue) (content : string) :
  service_trace (ChatCompletionAgent._kernel agent)
    (ChatCompletionAgent._agent agent
       (ChatCompletionAgent.chat_history
          (ConversationData.history
             (ConversationData.add_turn conversation_data
                (user_turn text (clock rt (ticks rt)))))))
  = (calls, found, Returned content) ->
  forallb (Spec.presentable json_dumps) found = true ->
  exists response card,
    fst (SemanticKernelBot.on_message_activity json_dumps agent task (Some text)
           conversation_data rt)
    = (Returned card,
       ConversationData.add_turn
         (ConversationData.add_turn conversation_data
            (user_turn text (clock rt (ticks rt))))
         response)
    /\ Scheduler.observe_turn response
       = {| Scheduler.seen_role := "assistant";
            Scheduler.seen_content := content;
            Scheduler.seen_metadata := [("tool_usage", calls)];
            Scheduler.seen_attachments := found |}
    /\ get_activity_card json_dumps response = Returned card
    /\ activity_text card = content.
Proof.
  intros Htrace Hall. rewrite on_message_activity_run. cbv zeta.
  destruct (process_traced agent task _ (set_ticks (S (ticks rt)) rt)
              calls found content Htrace) as (response & rt' & Hprocess & Hturn).
  rewrite Hprocess.
  assert (Hattachments : ConversationTurn.attachments response = found).
  { exact (f_equal Scheduler.seen_attachments Hturn). }
  assert (Hcontent : ConversationTurn.content response = content).
  { exact (f_equal Scheduler.seen_content Hturn). }
  rewrite <- Hattachments in Hall.
  destruct (collect_elements_buckets json_dumps _ Hall [] [] [])
    as (cs & ms & chs & Hloop & _).
  simpl in Hloop.
  rewrite (get_activity_card_document json_dumps response cs ms chs Hloop).
  exists response, (Spec.document (ConversationTurn.content response) cs ms chs).
  split; [reflexivity|]. split; [exact Hturn|].
  split; [exact (get_activity_card_document json_dumps response cs ms chs Hloop)|].
  exact Hcontent.
Qed.

(** The first message of a conversation, answered with the help of the
    Cite tool. *)
Lemma on_message_activity_reply_witness :
  exists response card,
    fst (SemanticKernelBot.on_message_activity (fun _ => Returned "{}")
           Examples.cite_agent 0 (Some "Who?") (SemanticKernelBot.load None)
           (Scheduler.boot (fun n => Z.of_nat n)))
    = (Returned card,
       ConversationData.add_turn
         (ConversationData.add_turn (SemanticKernelBot.load None)
            (user_turn "Who?" 0%Z))
         response)
    /\ ConversationTurn.role response = "assistant"
    /\ activity_text card = ConversationTurn.content response.
Proof.
  destruct (service_trace (ChatCompletionAgent._kernel Examples.cite_agent)
              (ChatCompletionAgent._agent Examples.cite_agent
                 (ChatCompletionAgent.chat_history
                    (ConversationData.history
                       (ConversationData.add_turn (SemanticKernelBot.load None)
                          (user_turn "Who?" 0%Z))))))
    as [[calls found] [content|e]] eqn:Htrace;
    [|vm_compute in Htrace; discriminate Htrace].
  assert (Hall : forallb (Spec.presentable (fun _ => Returned "{}")) found = true).
  { vm_compute in Htrace. injection Htrace as _ <- _. reflexivity. }
  destruct (on_message_activity_reply (fun _ => Returned "{}") Examples.cite_agent 0
              "Who?" (SemanticKernelBot.load None)
              (Scheduler.boot (fun n => Z.of_nat n)) calls found content Htrace Hall)
    as (response & card & Hsent & Hturn & _ & Htext).
  exists response, card. split; [exact Hsent|].
  split; [exact (f_equal Scheduler.seen_role Hturn)|].
  rewrite Htext. symmetry. exact (f_equal Scheduler.seen_content Hturn).
Defined.

(** X22. When the service replies but an attachment harvested during the
    turn cannot be presented (a chart of no known variant, or a citation whose
    metadata [json.dumps] refuses), the handler raises and sends nothing, yet
    the conversation data it leaves behind already holds the agent's turn:
    the answer is recorded before its card is built. *)
Theorem on_message_activity_card_failure
    (json_dumps : pyvalue -> outcome string)
    (agent : ChatCompletionAgent.t) (task : task_id) (text : string)
    (conversation_data : ConversationData) (rt : Runtime)
    (calls : list Scheduler.Call) (found : list pyvalue) (content : string) :
  service_trace (ChatCompletionAgent._kernel agent)
    (ChatCompletionAgent._agent agent
       (ChatCompletionAgent.chat_history
          (ConversationData.history
             (ConversationData.add_turn conversation_data
                (user_turn text (clock rt (ticks rt)))))))
  = (calls, found, Returned content) ->
  forallb (Spec.presentable json_dumps) found = false ->
  exists response e,
    fst (SemanticKernelBot.on_message_activity json_dumps agent task (Some text)
           conversation_data rt)
    = (Raised e,
       ConversationData.add_turn
         (ConversationData.add_turn conversation_data
            (user_turn text (clock rt (ticks rt))))
         response)
    /\ Scheduler.observe_turn response
       = {| Scheduler.seen_role := "assistant";
            Scheduler.seen_content := content;
            Scheduler.seen_metadata := [("tool_usage", calls)];
            Scheduler.seen_attachments := found |}.
Proof.
  intros Htrace Hsome. rewrite on_message_activity_run. cbv zeta.
  destruct (process_traced agent task _ (set_ticks (S (ticks rt)) rt)
              calls found content Htrace) as (response & rt' & Hprocess & Hturn).
  rewrite Hprocess.
  assert (Hattachments : ConversationTurn.attachments response = found).
  { exact (f_equal Scheduler.seen_attachments Hturn). }
  rewrite <- Hattachments in Hsome.
  destruct (collect_elements_raises json_dumps _ Hsome [] [] []) as [e Hloop].
  unfold get_activity_card. rewrite Hloop. simpl.
  exists response, e. split; [reflexivity | exact Hturn].
Qed.

(** A tool that returns an instance of [Chart] itself: the service replies,
    the card cannot be built, and the history has the answer all the same. *)
Lemma on_message_activity_card_failure_witness :
  let chart := PyChart (BaseChart "c1" "Sales") in
  let PlotTool :=
    {| Tool.name := "Plot"; Tool.description := "Plot the sales.";
       Tool.function := Tool.Function (fun _ _ => Returned chart) |} in
  let agent := ChatCompletionAgent.init "plot" "Plot" "" "" [("Plot", PlotTool)] []
                 (fun _ => Invoke "Plot" [] [] (fun _ => Reply "See the chart")) in
  exists response e,
    fst (SemanticKernelBot.on_message_activity (fun _ => Returned "{}") agent 0
           (Some "Plot it") (SemanticKernelBot.load None)
           (Scheduler.boot (fun n => Z.of_nat n)))
    = (Raised e,
       ConversationData.add_turn
         (ConversationData.add_turn (SemanticKernelBot.load None)
            (user_turn "Plot it" 0%Z))
         response)
    /\ Scheduler.observe_turn response
       = {| Scheduler.seen_role := "assistant";
            Scheduler.seen_content := "See the chart";
            Scheduler.seen_metadata :=
              [("tool_usage",
                [{| Scheduler.call_tool := "Plot"; Scheduler.call_args := [];
                    Scheduler.call_kwargs := []; Scheduler.call_result := chart |}])];
            Scheduler.seen_attachments := [chart] |}.
Proof.
  intros chart PlotTool agent.
  exact (on_message_activity_card_failure (fun _ => Returned "{}") agent 0 "Plot it"
           (SemanticKernelBot.load None) (Scheduler.boot (fun n => Z.of_nat n))
           [{| Scheduler.call_tool := "Plot"; Scheduler.call_args := [];
               Scheduler.call_kwargs := []; Scheduler.call_result := chart |}]
           [chart] "See the chart" eq_refl eq_refl).
Defined.

(** ** Telemetry set-up *)

Section ConfigureFacts.

Import OtelConfiguration.

Lemma configure_all_counts (environment : list (option string)) :
  forall cls,
    length (List.filter asks_dictConfig (fst (configure_all environment cls)))
    = (if _logger_configured cls then 0
       else match environment with [] => 0 | _ :: _ => 1 end)
    /\ length (List.filter asks_azure_monitor (fst (configure_all environment cls)))
       = (if _monitor_configured cls then 0
          else if existsb connection_set environment then 1 else 0)
    /\ _logger_configured (snd (configure_all environment cls))
       = _logger_configured cls || match environment with [] => false | _ :: _ => true end
    /\ _monitor_configured (snd (configure_all environment cls))
       = _monitor_configured cls || existsb connection_set environment.
Proof.
  induction environment as [|connection_string later IH]; intros cls.
  - simpl. destruct (_logger_configured cls), (_monitor_configured cls); auto.
  - simpl.
    destruct (configure connection_string cls) as [effects cls1] eqn:Hfirst.
    specialize (IH cls1).
    destruct (configure_all later cls1) as [effects' cls2]. simpl in IH |- *.
    destruct IH as (Hd & Hm & Hl & Hmon).
    rewrite !List.filter_app, !length_app, Hd, Hm, Hl, Hmon.
    unfold configure in Hfirst. fold (connection_set connection_string) in Hfirst.
    destruct cls as [monitor logger]. simpl in *.
    destruct monitor, logger, (connection_set connection_string);
      simpl in Hfirst; injection Hfirst as <- <-; simpl;
      destruct later; simpl; repeat split;
      try reflexivity; try (destruct (existsb connection_set _); reflexivity);
      try (destruct (connection_set _ || existsb connection_set _); reflexivity).
Qed.

End ConfigureFacts.

(** X23. However often [configure] is called from a fresh interpreter, and
    whatever the environment holds at each call, the logging configuration is
    applied exactly once, by the first call, and Azure Monitor is configured
    at most once: once when some call found the connection string set and not
    empty, never otherwise.  The two flags end up saying so, and a further
    call, once both are set, does nothing. *)
Theorem configure_at_most_once (environment : list (option string)) :
  length (List.filter asks_dictConfig
            (fst (OtelConfiguration.configure_all environment OtelConfiguration.initial)))
  = match environment with [] => 0 | _ :: _ => 1 end
  /\ length (List.filter asks_azure_monitor
               (fst (OtelConfiguration.configure_all environment
                       OtelConfiguration.initial)))
     = (if existsb connection_set environment then 1 else 0)
  /\ OtelConfiguration._logger_configured
       (snd (OtelConfiguration.configure_all environment OtelConfiguration.initial))
     = match environment with [] => false | _ :: _ => true end
  /\ OtelConfiguration._monitor_configured
       (snd (OtelConfiguration.configure_all environment OtelConfiguration.initial))
     = existsb connection_set environment
  /\ (forall connection_string,
        List.filter asks_dictConfig
          (fst (OtelConfiguration.configure connection_string OtelConfiguration.initial))
        = [OtelConfiguration.dictConfig_LOGGING_CONFIG])
  /\ (forall connection_string,
        OtelConfiguration.configure connection_string
          {| OtelConfiguration._monitor_configured := true;
             OtelConfiguration._logger_configured := true |}
        = ([], {| OtelConfiguration._monitor_configured := true;
                  OtelConfiguration._logger_configured := true |})).
Proof.
  destruct (configure_all_counts environment OtelConfiguration.initial)
    as (Hd & Hm & Hl & Hmon).
  repeat split; try assumption.
  intros [[|c s]|]; reflexivity.
Qed.
